(** * Offline state maintenance commands of geth: snapshot.go and dbcmd.go

    A shallow embedding of the command drivers in [cmd/geth/snapshot.go]
    (prune-state, insecure-prune-all, verify-state, traverse-state,
    traverse-rawstate) and of [hbss2pbss] in [cmd/geth/dbcmd.go].

    The drivers are sequences of calls into other packages (rawdb, trie,
    triedb, pruner, snapshot, utils, log).  Those packages are collaborators:
    what they answer is a field of an environment record, and every call
    that opens, mutates or reports something is written to a trace, in
    program order.  The drivers' own control flow -- guards, early returns,
    loops and counters -- is translated statement by statement. *)

From Stdlib Require Import ZArith List String Ascii Bool Lia.
From Stdlib.Strings Require Byte.
Import ListNotations.
Open Scope Z_scope.
Open Scope string_scope.

(** ** Data *)

(** [[]byte] *)
Definition bytes := list Byte.byte.

Fixpoint bytes_eqb (a b : bytes) : bool :=
  match a, b with
  | [], [] => true
  | x :: a', y :: b' => Byte.eqb x y && bytes_eqb a' b'
  | _, _ => false
  end.

(** [common.Hash] is a [[32]byte]; it is held as its byte sequence, so that
    [h.Bytes()] is [h] itself. *)
Definition Hash := bytes.

(** [common.Hash{}], the zero value. *)
Definition zeroHash : Hash := repeat Byte.x00 32.

(** Go's [error]: [None] is [nil], [Some msg] an error with that message. *)
Definition error := string.

(** A Go result pair [(value, err)] of which exactly one side is used. *)
Inductive Result (A : Type) : Type :=
| Ok (a : A)
| Err (e : error).
Arguments Ok {A} a.
Arguments Err {A} e.

(** [types.StateAccount] *)
Record StateAccount := {
  Nonce : Z;
  Balance : Z;
  Root : Hash;
  CodeHash : bytes
}.

(** [types.Block], as far as the drivers look at it. *)
Record Block := {
  BlockRoot : Hash;
  NumberU64 : Z
}.

(** The two ways the drivers build a [trie.ID]. *)
Inductive TrieID :=
| StateTrieID (root : Hash)
| StorageTrieID (stateRoot owner root : Hash).

(** One position of a [trie.NodeIterator] after a successful [Next(true)]. *)
Record NodeItem := {
  ItHash : Hash;        (* it.Hash() *)
  ItPath : bytes;       (* it.Path() *)
  ItLeaf : bool;        (* it.Leaf() *)
  ItLeafKey : bytes;    (* it.LeafKey() *)
  ItLeafBlob : bytes    (* it.LeafBlob() *)
}.

(** A node iterator, seen from its consumer: the positions for which
    [Next(true)] answers true, in order, and what [Error()] holds once
    [Next] has answered false. *)
Record NodeIterator := {
  Items : list NodeItem;
  ItError : option error
}.

(** A [trie.StateTrie]: all the drivers do with one is ask for its node
    iterator. *)
Record Trie := {
  TrieNodeIterator : Result NodeIterator
}.

(** A [database.NodeReader]: [Node(owner, path, hash)] gives [(blob, err)]. *)
Definition Reader := Hash -> bytes -> Hash -> bytes * option error.

(** [pruner.Config] *)
Record PrunerConfig := {
  Datadir : string;
  BloomSize : Z
}.

(** [core.Genesis] is opaque to the drivers; a genesis pointer may be nil. *)
Definition Genesis := string.

(** [cli.Context]: positional arguments and the flags the drivers read. *)
Record Context := {
  Args : list string;
  BloomFilterSizeFlag : Z;
  TriesInMemoryFlag : Z;
  ForceFlag : bool;
  AncientFlag : string
}.

(** [ctx.NArg()] *)
Definition NArg (ctx : Context) : Z := Z.of_nat (List.length (Args ctx)).

(** [ctx.Args().First()]: the first argument, or the empty string. *)
Definition First (ctx : Context) : string := hd "" (Args ctx).

(** [ctx.Args().Get(n)]: the n-th argument, or the empty string. *)
Definition Get (ctx : Context) (n : nat) : string := nth n (Args ctx) "".

(** ** Trace *)

Inductive Level := LvlInfo | LvlError | LvlCrit.

(** A value of a log record's key/value context. *)
Inductive LogVal :=
| VHash (h : Hash)
| VBytes (b : bytes)
| VInt (n : Z)
| VErr (e : error)
| VStr (s : string).

Inductive Event :=
| EvLog (lvl : Level) (msg : string) (kv : list (string * LogVal))
| EvStderr (msg : string)                       (* what utils.Fatalf prints *)
| EvStdout (msg : string) (kv : list (string * LogVal))      (* fmt.Println *)
| EvMakeConfigNode
| EvMakeChainDatabase (readonly : bool)
| EvMakeTrieDatabase
| EvSyncAncient
| EvNewPruner (cfg : PrunerConfig) (triesInMemory : Z)
| EvPrune (root : Hash)
| EvOpenFile (path : string)
| EvLoadConfig (path : string)
| EvNewAllPruner
| EvPruneAll (g : option Genesis)
| EvSnapshotNew (root : Hash)
| EvSnapshotVerify (root : Hash)
| EvCheckDanglingStorage
| EvNewStateTrie (id : TrieID)
| EvNodeIterator (id : TrieID)
| EvNodeReader (root : Hash)
| EvNewTrieDatabase
| EvCap (limit : Z)
| EvTrieNew (root : Hash)
| EvNewHbss2Pbss (root : Hash) (blockNumber jobnum : Z)
| EvHbss2PbssRun
| EvResetStateFreezerTableOffset (ancient : string) (id : Z)
| EvPruneHashTrieNodeInDataBase.

(** ** Commands *)

(** How a command ends: it returns an [error] to the cli runner (nil is
    success, anything else a non-zero exit), the process is terminated on
    the spot, or it panics. *)
Inductive Outcome :=
| Returned (err : option error)
| Exited (status : Z)
| Panicked.

(** What the commands can change during a run: the persistent state id in
    the state store, and the trace of calls made so far. *)
Record World := {
  persistentStateID : Z;
  trace : list Event
}.

Inductive Step (A : Type) : Type :=
| Next (a : A)
| Done (o : Outcome).
Arguments Next {A} a.
Arguments Done {A} o.

Definition Cmd (A : Type) : Type := World -> Step A * World.

Definition ret {A} (a : A) : Cmd A := fun w => (Next a, w).

Definition bind {A B} (c : Cmd A) (k : A -> Cmd B) : Cmd B :=
  fun w =>
    match c w with
    | (Next a, w') => k a w'
    | (Done o, w') => (Done o, w')
    end.

Notation "x <- c1 ;; c2" := (bind c1 (fun x => c2))
  (at level 61, c1 at next level, right associativity).
Notation "c1 ;; c2" := (bind c1 (fun _ => c2))
  (at level 61, right associativity).

(** [return err] *)
Definition Return {A} (err : option error) : Cmd A :=
  fun w => (Done (Returned err), w).

Definition panic {A} : Cmd A := fun w => (Done Panicked, w).

Definition emit (e : Event) : Cmd unit :=
  fun w => (Next tt, {| persistentStateID := persistentStateID w;
                        trace := trace w ++ [e] |}).

Definition logInfo (msg : string) (kv : list (string * LogVal)) : Cmd unit :=
  emit (EvLog LvlInfo msg kv).

Definition logError (msg : string) (kv : list (string * LogVal)) : Cmd unit :=
  emit (EvLog LvlError msg kv).

(** Modelled from the spec: package log is not among the sources.  The spec
    has prune-state "fail fast" on a scheme mismatch; [log.Crit] is the
    call that does it: it writes the record and terminates the process with
    status 1, so nothing after it runs (deferred calls included). *)
Definition logCrit {A} (msg : string) (kv : list (string * LogVal)) : Cmd A :=
  fun w => (Done (Exited 1), {| persistentStateID := persistentStateID w;
                                trace := trace w ++ [EvLog LvlCrit msg kv] |}).

(** Modelled from the spec: package utils is not among the sources.
    [utils.Fatalf] prints the message to standard error and terminates the
    process with status 1. *)
Definition Fatalf {A} (msg : string) : Cmd A :=
  fun w => (Done (Exited 1), {| persistentStateID := persistentStateID w;
                                trace := trace w ++ [EvStderr msg] |}).

(** A command started on a store whose persistent state id is [id0]. *)
Definition run (c : Cmd unit) (id0 : Z) : Outcome * World :=
  match c {| persistentStateID := id0; trace := [] |} with
  | (Next _, w) => (Returned None, w)
  | (Done o, w) => (o, w)
  end.

Definition outcome (r : Outcome * World) : Outcome := fst r.
Definition calls (r : Outcome * World) : list Event := trace (snd r).

(** The command reported success to its caller. *)
Definition succeeded (r : Outcome * World) : Prop := outcome r = Returned None.

(** The command failed: a non-nil error or a non-zero exit. *)
Definition failed (r : Outcome * World) : Prop :=
  match outcome r with
  | Returned (Some _) => True
  | Exited s => s <> 0
  | Panicked => True
  | Returned None => False
  end.

(** ** Loops that may stop with [log.Error(...); return err] *)

(** A loop either runs to its end, or stops at a [log.Error] followed by a
    [return] of an error. *)
Inductive Walk (A : Type) : Type :=
| Finished (a : A)
| Aborted (record : Event) (err : error).
Arguments Finished {A} a.
Arguments Aborted {A} record err.

Definition wbind {A B} (c : Walk A) (k : A -> Walk B) : Walk B :=
  match c with
  | Finished a => k a
  | Aborted l e => Aborted l e
  end.

Notation "'walk' x <- c1 ;; c2" := (wbind c1 (fun x => c2))
  (at level 61, x name, c1 at next level, right associativity).

(** Running a loop inside a command: on a stop the record is written and the
    command returns the error. *)
Definition liftWalk {A} (c : Walk A) : Cmd A :=
  match c with
  | Finished a => ret a
  | Aborted l e => emit l ;; Return (Some e)
  end.

(** Go's [int] on the 64-bit targets geth is built for. *)
Definition int (x : Z) : Z := (x + 2 ^ 63) mod 2 ^ 64 - 2 ^ 63.

(** [n += 1] *)
Definition inc (n : Z) : Z := int (n + 1).

(** The counters of the two traversals. *)
Record Counters := {
  nodes : Z;
  accounts : Z;
  slots : Z;
  codes : Z
}.

Definition zeroCounters : Counters :=
  {| nodes := 0; accounts := 0; slots := 0; codes := 0 |}.

Definition incNodes (c : Counters) : Counters :=
  {| nodes := inc (nodes c); accounts := accounts c;
     slots := slots c; codes := codes c |}.
Definition incAccounts (c : Counters) : Counters :=
  {| nodes := nodes c; accounts := inc (accounts c);
     slots := slots c; codes := codes c |}.
Definition incSlots (c : Counters) : Counters :=
  {| nodes := nodes c; accounts := accounts c;
     slots := inc (slots c); codes := codes c |}.
Definition incCodes (c : Counters) : Counters :=
  {| nodes := nodes c; accounts := accounts c;
     slots := slots c; codes := inc (codes c) |}.

(** Modelled from the spec: trie.Iterator (package trie) is not among the
    sources.  Seen from its consumer it is the sequence of [(Key, Value)]
    pairs for which [Next()] answers true, and what [Err] holds after. *)
Record Iterator := {
  Leaves : list (bytes * bytes);
  IterErr : option error
}.

(** Modelled from the spec: trie.NewIterator (package trie) is not among
    the sources.  The spec's account-level walk goes "for each leaf": the
    key/value iterator steps the node iterator from leaf to leaf, [Key] and
    [Value] are that leaf's key and blob, and [Err] is the node iterator's
    error once it is exhausted. *)
Definition NewIterator (it : NodeIterator) : Iterator :=
  {| Leaves := map (fun n => (ItLeafKey n, ItLeafBlob n))
                   (filter ItLeaf (Items it));
     IterErr := ItError it |}.

(** ** snapshot.go *)

Module Snapshot.

(** [rawdb.HashScheme], the value of [--state.scheme=hash]. *)
Definition HashScheme : string := "hash".

(** What the collaborators answer during one run of a command. *)
Record Env := {
  (* node *)
  ResolvePath : string -> string;
  (* rawdb *)
  ReadStateScheme : string;
  ReadHeadBlock : option Block;
  HasCode : Hash -> bool;
  (* common, types, rlp, crypto *)
  EmptyRootHash : Hash;
  EmptyCodeHash : Hash;
  BytesToHash : bytes -> Hash;
  UnmarshalText : string -> Result Hash;
  DecodeBytes : bytes -> Result StateAccount;
  Keccak256 : bytes -> bytes;
  (* pruner *)
  NewPruner : PrunerConfig -> Z -> option error;
  Prune : Hash -> option error;
  NewAllPruner : option error;
  PruneAll : option Genesis -> option error;
  (* os, encoding/json, config.go *)
  osOpen : string -> option error;
  DecodeGenesis : string -> Result Genesis;
  loadConfig : string -> Result (option Genesis);
  (* snapshot *)
  SnapshotNew : Hash -> option error;
  Verify : Hash -> option error;
  CheckDanglingStorage : option error;
  (* trie, triedb *)
  NewStateTrie : TrieID -> Result Trie;
  NodeReader : Hash -> Result Reader
}.

Section WithEnv.

Variable E : Env.

Definition parseRoot (input : string) : Result Hash :=
  match UnmarshalText E input with
  | Err e => Err e
  | Ok h => Ok h
  end.

Definition pruneState (ctx : Context) : Cmd unit :=
  emit EvMakeConfigNode ;;
  emit (EvMakeChainDatabase false) ;;
  let prunerconfig := {| Datadir := ResolvePath E "";
                         BloomSize := BloomFilterSizeFlag ctx |} in
  (if negb (String.eqb (ReadStateScheme E) HashScheme)
   then logCrit "Offline pruning is not required for path scheme" []
   else ret tt) ;;
  emit (EvNewPruner prunerconfig (TriesInMemoryFlag ctx)) ;;
  match NewPruner E prunerconfig (TriesInMemoryFlag ctx) with
  | Some err =>
      logError "Failed to open snapshot tree" [("err", VErr err)] ;;
      Return (Some err)
  | None =>
      (if (NArg ctx >? 1)%Z
       then logError "Too many arguments given" [] ;;
            Return (Some "too many arguments")
       else ret tt) ;;
      targetRoot <-
        (if (NArg ctx =? 1)%Z
         then match parseRoot (First ctx) with
              | Err err =>
                  logError "Failed to resolve state root" [("err", VErr err)] ;;
                  Return (Some err)
              | Ok h => ret h
              end
         else ret zeroHash) ;;
      emit (EvPrune targetRoot) ;;
      match Prune E targetRoot with
      | Some err =>
          logError "Failed to prune state" [("err", VErr err)] ;;
          Return (Some err)
      | None => Return None
      end
  end.

Definition pruneAllState (ctx : Context) : Cmd unit :=
  emit EvMakeConfigNode ;;
  let genesisPath := First ctx in
  (if (String.length genesisPath =? 0)%nat
   then Fatalf "Must supply path to genesis JSON file"
   else ret tt) ;;
  emit (EvOpenFile genesisPath) ;;
  match osOpen E genesisPath with
  | Some err => Fatalf ("Failed to read genesis file: " ++ err)
  | None =>
      g <- match DecodeGenesis E genesisPath with
           | Ok g => ret (Some g)
           | Err _ =>
               emit (EvLoadConfig genesisPath) ;;
               match loadConfig E genesisPath with
               | Err err => Fatalf err
               | Ok g => ret g
               end
           end ;;
      emit (EvMakeChainDatabase false) ;;
      emit EvNewAllPruner ;;
      match NewAllPruner E with
      | Some err =>
          logError "Failed to open snapshot tree" [("err", VErr err)] ;;
          Return (Some err)
      | None =>
          emit (EvPruneAll g) ;;
          match PruneAll E g with
          | Some err =>
              logError "Failed to prune state" [("err", VErr err)] ;;
              Return (Some err)
          | None => Return None
          end
      end
  end.

Definition verifyState (ctx : Context) : Cmd unit :=
  emit EvMakeConfigNode ;;
  emit (EvMakeChainDatabase true) ;;
  match ReadHeadBlock E with
  | None =>
      logError "Failed to load head block" [] ;;
      Return (Some "no head block")
  | Some headBlock =>
      emit EvMakeTrieDatabase ;;
      emit (EvSnapshotNew (BlockRoot headBlock)) ;;
      match SnapshotNew E (BlockRoot headBlock) with
      | Some err =>
          logError "Failed to open snapshot tree" [("err", VErr err)] ;;
          Return (Some err)
      | None =>
          (if (NArg ctx >? 1)%Z
           then logError "Too many arguments given" [] ;;
                Return (Some "too many arguments")
           else ret tt) ;;
          root <-
            (if (NArg ctx =? 1)%Z
             then match parseRoot (First ctx) with
                  | Err err =>
                      logError "Failed to resolve state root"
                               [("err", VErr err)] ;;
                      Return (Some err)
                  | Ok h => ret h
                  end
             else ret (BlockRoot headBlock)) ;;
          emit (EvSnapshotVerify root) ;;
          match Verify E root with
          | Some err =>
              logError "Failed to verify state"
                       [("root", VHash root); ("err", VErr err)] ;;
              Return (Some err)
          | None =>
              logInfo "Verified the state" [("root", VHash root)] ;;
              emit EvCheckDanglingStorage ;;
              Return (CheckDanglingStorage E)
          end
      end
  end.

(** *** traverse-state *)

(** The inner loop of [traverseState]: [for storageIter.Next() { slots += 1 }].
    (The progress record the loops write once eight seconds of wall-clock
    time have passed reads the clock and decides nothing; it is left out,
    and so is the [elapsed] field of the final record.) *)
Fixpoint countSlots (c : Counters) (kvs : list (bytes * bytes)) : Counters :=
  match kvs with
  | [] => c
  | _ :: rest => countSlots (incSlots c) rest
  end.

(** The body of [for accIter.Next()] in [traverseState]. *)
Definition traverseStateStep (root : Hash) (c : Counters)
    (kv : bytes * bytes) : Walk Counters :=
  let c := incAccounts c in
  match DecodeBytes E (snd kv) with
  | Err err =>
      Aborted (EvLog LvlError "Invalid account encountered during traversal"
                     [("err", VErr err)]) err
  | Ok acc =>
      walk c <-
        (if negb (bytes_eqb (Root acc) (EmptyRootHash E))
         then
           let id := StorageTrieID root (BytesToHash E (fst kv)) (Root acc) in
           match NewStateTrie E id with
           | Err err =>
               Aborted (EvLog LvlError "Failed to open storage trie"
                              [("root", VHash (Root acc)); ("err", VErr err)])
                       err
           | Ok storageTrie =>
               match TrieNodeIterator storageTrie with
               | Err err =>
                   Aborted (EvLog LvlError "Failed to open storage iterator"
                                  [("root", VHash (Root acc));
                                   ("err", VErr err)]) err
               | Ok storageIt =>
                   let storageIter := NewIterator storageIt in
                   let c := countSlots c (Leaves storageIter) in
                   match IterErr storageIter with
                   | Some err =>
                       Aborted (EvLog LvlError "Failed to traverse storage trie"
                                      [("root", VHash (Root acc));
                                       ("err", VErr err)]) err
                   | None => Finished c
                   end
               end
           end
         else Finished c) ;;
      if negb (bytes_eqb (CodeHash acc) (EmptyCodeHash E))
      then
        if negb (HasCode E (BytesToHash E (CodeHash acc)))
        then Aborted (EvLog LvlError "Code is missing"
                            [("hash", VHash (BytesToHash E (CodeHash acc)))])
                     "missing code"
        else Finished (incCodes c)
      else Finished c
  end.

(** [for accIter.Next() { ... }] in [traverseState]. *)
Fixpoint traverseStateLoop (root : Hash) (c : Counters)
    (kvs : list (bytes * bytes)) : Walk Counters :=
  match kvs with
  | [] => Finished c
  | kv :: rest =>
      walk c <- traverseStateStep root c kv ;;
      traverseStateLoop root c rest
  end.

Definition countsKV (c : Counters) : list (string * LogVal) :=
  [("accounts", VInt (accounts c)); ("slots", VInt (slots c));
   ("codes", VInt (codes c))].

Definition traverseState (ctx : Context) : Cmd unit :=
  emit EvMakeConfigNode ;;
  emit (EvMakeChainDatabase true) ;;
  emit EvMakeTrieDatabase ;;
  match ReadHeadBlock E with
  | None =>
      logError "Failed to load head block" [] ;;
      Return (Some "no head block")
  | Some headBlock =>
      (if (NArg ctx >? 1)%Z
       then logError "Too many arguments given" [] ;;
            Return (Some "too many arguments")
       else ret tt) ;;
      root <-
        (if (NArg ctx =? 1)%Z
         then match parseRoot (First ctx) with
              | Err err =>
                  logError "Failed to resolve state root"
                           [("err", VErr err)] ;;
                  Return (Some err)
              | Ok root =>
                  logInfo "Start traversing the state"
                          [("root", VHash root)] ;;
                  ret root
              end
         else
           logInfo "Start traversing the state"
                   [("root", VHash (BlockRoot headBlock));
                    ("number", VInt (NumberU64 headBlock))] ;;
           ret (BlockRoot headBlock)) ;;
      emit (EvNewStateTrie (StateTrieID root)) ;;
      match NewStateTrie E (StateTrieID root) with
      | Err err =>
          logError "Failed to open trie"
                   [("root", VHash root); ("err", VErr err)] ;;
          Return (Some err)
      | Ok t =>
          emit (EvNodeIterator (StateTrieID root)) ;;
          match TrieNodeIterator t with
          | Err err =>
              logError "Failed to open iterator"
                       [("root", VHash root); ("err", VErr err)] ;;
              Return (Some err)
          | Ok acctIt =>
              let accIter := NewIterator acctIt in
              c <- liftWalk
                     (traverseStateLoop root zeroCounters (Leaves accIter)) ;;
              match IterErr accIter with
              | Some err =>
                  logError "Failed to traverse state trie"
                           [("root", VHash root); ("err", VErr err)] ;;
                  Return (Some err)
              | None =>
                  logInfo "State is complete" (countsKV c) ;;
                  Return None
              end
          end
      end
  end.

(** *** traverse-rawstate *)

(** Lines 514-527: the check of one account-trie node. *)
Definition checkAccountNode (reader : Reader) (n : NodeItem) : Walk unit :=
  let node := ItHash n in
  if negb (bytes_eqb node zeroHash)
  then
    let blob := fst (reader zeroHash (ItPath n) node) in
    if (List.length blob =? 0)%nat
    then Aborted (EvLog LvlError "Missing trie node(account)"
                        [("hash", VHash node)]) "missing account"
    else
      let got := Keccak256 E blob in
      if negb (bytes_eqb got node)
      then Aborted (EvLog LvlError "Invalid trie node(account)"
                          [("hash", VHash node); ("value", VBytes blob)])
                   "invalid account node"
      else Finished tt
  else Finished tt.

(** Lines 555-568: the check of one storage-trie node of account [owner]. *)
Definition checkStorageNode (reader : Reader) (owner : Hash)
    (n : NodeItem) : Walk unit :=
  let node := ItHash n in
  if negb (bytes_eqb node zeroHash)
  then
    let blob := fst (reader owner (ItPath n) node) in
    if (List.length blob =? 0)%nat
    then Aborted (EvLog LvlError "Missing trie node(storage)"
                        [("hash", VHash node)]) "missing storage"
    else
      let got := Keccak256 E blob in
      if negb (bytes_eqb got node)
      then Aborted (EvLog LvlError "Invalid trie node(storage)"
                          [("hash", VHash node); ("value", VBytes blob)])
                   "invalid storage node"
      else Finished tt
  else Finished tt.

(** [for storageIter.Next(true) { ... }] in [traverseRawState]. *)
Fixpoint rawStorageLoop (reader : Reader) (owner : Hash) (c : Counters)
    (items : list NodeItem) : Walk Counters :=
  match items with
  | [] => Finished c
  | n :: rest =>
      let c := incNodes c in
      walk _ <- checkStorageNode reader owner n ;;
      let c := if ItLeaf n then incSlots c else c in
      rawStorageLoop reader owner c rest
  end.

(** The body of [for accIter.Next(true)] in [traverseRawState]. *)
Definition rawAccountStep (root : Hash) (reader : Reader) (c : Counters)
    (n : NodeItem) : Walk Counters :=
  let c := incNodes c in
  walk _ <- checkAccountNode reader n ;;
  if ItLeaf n
  then
    let c := incAccounts c in
    match DecodeBytes E (ItLeafBlob n) with
    | Err err =>
        Aborted (EvLog LvlError "Invalid account encountered during traversal"
                       [("err", VErr err)]) "invalid account"
    | Ok acc =>
        walk c <-
          (if negb (bytes_eqb (Root acc) (EmptyRootHash E))
           then
             let owner := BytesToHash E (ItLeafKey n) in
             let id := StorageTrieID root owner (Root acc) in
             match NewStateTrie E id with
             | Err err =>
                 Aborted (EvLog LvlError "Failed to open storage trie"
                                [("root", VHash (Root acc));
                                 ("err", VErr err)]) "missing storage trie"
             | Ok storageTrie =>
                 match TrieNodeIterator storageTrie with
                 | Err err =>
                     Aborted (EvLog LvlError "Failed to open storage iterator"
                                    [("root", VHash (Root acc));
                                     ("err", VErr err)]) err
                 | Ok storageIter =>
                     walk c <- rawStorageLoop reader owner c
                                              (Items storageIter) ;;
                     match ItError storageIter with
                     | Some err =>
                         Aborted (EvLog LvlError
                                        "Failed to traverse storage trie"
                                        [("root", VHash (Root acc));
                                         ("err", VErr err)]) err
                     | None => Finished c
                     end
                 end
             end
           else Finished c) ;;
        if negb (bytes_eqb (CodeHash acc) (EmptyCodeHash E))
        then
          if negb (HasCode E (BytesToHash E (CodeHash acc)))
          then Aborted (EvLog LvlError "Code is missing"
                              [("account",
                                VHash (BytesToHash E (ItLeafKey n)))])
                       "missing code"
          else Finished (incCodes c)
        else Finished c
    end
  else Finished c.

(** [for accIter.Next(true) { ... }] in [traverseRawState]. *)
Fixpoint rawAccountLoop (root : Hash) (reader : Reader) (c : Counters)
    (items : list NodeItem) : Walk Counters :=
  match items with
  | [] => Finished c
  | n :: rest =>
      walk c <- rawAccountStep root reader c n ;;
      rawAccountLoop root reader c rest
  end.

Definition rawCountsKV (c : Counters) : list (string * LogVal) :=
  ("nodes", VInt (nodes c)) :: countsKV c.

Definition traverseRawState (ctx : Context) : Cmd unit :=
  emit EvMakeConfigNode ;;
  emit (EvMakeChainDatabase true) ;;
  emit EvMakeTrieDatabase ;;
  match ReadHeadBlock E with
  | None =>
      logError "Failed to load head block" [] ;;
      Return (Some "no head block")
  | Some headBlock =>
      (if (NArg ctx >? 1)%Z
       then logError "Too many arguments given" [] ;;
            Return (Some "too many arguments")
       else ret tt) ;;
      root <-
        (if (NArg ctx =? 1)%Z
         then match parseRoot (First ctx) with
              | Err err =>
                  logError "Failed to resolve state root"
                           [("err", VErr err)] ;;
                  Return (Some err)
              | Ok root =>
                  logInfo "Start traversing the state"
                          [("root", VHash root)] ;;
                  ret root
              end
         else
           logInfo "Start traversing the state"
                   [("root", VHash (BlockRoot headBlock));
                    ("number", VInt (NumberU64 headBlock))] ;;
           ret (BlockRoot headBlock)) ;;
      emit (EvNewStateTrie (StateTrieID root)) ;;
      match NewStateTrie E (StateTrieID root) with
      | Err err =>
          logError "Failed to open trie"
                   [("root", VHash root); ("err", VErr err)] ;;
          Return (Some err)
      | Ok t =>
          emit (EvNodeIterator (StateTrieID root)) ;;
          match TrieNodeIterator t with
          | Err err =>
              logError "Failed to open iterator"
                       [("root", VHash root); ("err", VErr err)] ;;
              Return (Some err)
          | Ok accIter =>
              emit (EvNodeReader root) ;;
              match NodeReader E root with
              | Err _ =>
                  logError "State is non-existent" [("root", VHash root)] ;;
                  Return None
              | Ok reader =>
                  c <- liftWalk
                         (rawAccountLoop root reader zeroCounters
                                         (Items accIter)) ;;
                  match ItError accIter with
                  | Some err =>
                      logError "Failed to traverse state trie"
                               [("root", VHash root); ("err", VErr err)] ;;
                      Return (Some err)
                  | None =>
                      logInfo "State is complete" (rawCountsKV c) ;;
                      Return None
                  end
              end
          end
      end
  end.

End WithEnv.
End Snapshot.

(** ** dbcmd.go *)

Module Dbcmd.

(** [math.MaxUint64] *)
Definition MaxUint64 : Z := 2 ^ 64 - 1.

(** [ctx.Command.ArgsUsage] of [dbHbss2PbssCmd] (line 134). *)
Definition ArgsUsage : string := "<jobnum (optional)>".

(** What the collaborators answer during one run of [hbss2pbss]. *)
Record Env := {
  (* strconv, path/filepath *)
  ParseUint : string -> Result Z;
  Join : string -> string -> string;
  (* node *)
  ResolvePath : string -> string;
  ResolveAncient : string -> string -> string;
  (* ethdb, rawdb *)
  HasSeparateStateStore : bool;
  ReadHeadHeaderHash : Hash;
  ReadHeaderNumber : Hash -> option Z;
  ReadCanonicalHash : Z -> Hash;
  ReadHeader : Hash -> Z -> option Hash;      (* the header's Root; nil header *)
  ResetStateFreezerTableOffset : string -> Z -> option error;
  PruneHashTrieNodeInDataBase : option error;
  (* trie, triedb *)
  TriedbScheme : string;
  TrieNew : Hash -> option error;
  NewHbss2Pbss : Hash -> Z -> Z -> option error;
  (* the persistent state id in the store once [h2p.Run()] is over, from
     the root, block number and job count it was made with and the id
     stored before *)
  Hbss2PbssRun : Hash -> Z -> Z -> Z -> Z
}.

Section WithEnv.

Variable E : Env.

(** [rawdb.ReadPersistentStateID(db.GetStateStore())] *)
Definition ReadPersistentStateID : Cmd Z :=
  fun w => (Next (persistentStateID w), w).

(** [h2p.Run()] *)
Definition Run (root : Hash) (blockNumber jobnum : Z) : Cmd unit :=
  fun w =>
    (Next tt,
     {| persistentStateID :=
          Hbss2PbssRun E root blockNumber jobnum (persistentStateID w);
        trace := trace w ++ [EvHbss2PbssRun] |}).

Definition hbss2pbss (ctx : Context) : Cmd unit :=
  (if (NArg ctx >? 1)%Z
   then Return (Some ("required arguments: " ++ ArgsUsage))
   else ret tt) ;;
  jobnum <-
    (if (NArg ctx =? 1)%Z
     then match ParseUint E (Get ctx 0) with
          | Err err =>
              Return (Some ("failed to Parse jobnum, Args[1]: " ++ Get ctx 1
                            ++ ", err: " ++ err))
          | Ok n => ret n
          end
     else ret 1000%Z) ;;
  let force := ForceFlag ctx in
  emit EvMakeConfigNode ;;
  emit (EvMakeChainDatabase false) ;;
  emit EvSyncAncient ;;
  lastStateID <- ReadPersistentStateID ;;
  (if (lastStateID =? 0)%Z || force
   then
     emit EvNewTrieDatabase ;;
     emit (EvCap 0) ;;
     logInfo "hbss2pbss triedb" [("scheme", VStr (TriedbScheme E))] ;;
     let headerHash := ReadHeadHeaderHash E in
     match ReadHeaderNumber E headerHash with
     | None =>
         logError "read header number failed." [] ;;
         Return (Some "read header number failed")
     | Some blockNumber =>
         logInfo "hbss2pbss converting"
                 [("HeaderHash: ", VHash headerHash);
                  (", blockNumber: ", VInt blockNumber)] ;;
         trieRootHash <-
           (if negb (blockNumber =? MaxUint64)%Z
            then
              let headerBlockHash := ReadCanonicalHash E blockNumber in
              if bytes_eqb headerBlockHash zeroHash
              then Return (Some "ReadHeadBlockHash empty hash")
              else
                match ReadHeader E headerBlockHash blockNumber with
                | None => panic
                | Some headerRoot =>
                    emit (EvStdout "Canonical Hash: "
                                   [("", VHash headerBlockHash);
                                    (", TrieRootHash: ", VHash headerRoot)]) ;;
                    ret headerRoot
                end
            else ret zeroHash) ;;
         (if bytes_eqb trieRootHash zeroHash
          then logError "Empty root hash" [] ;;
               Return (Some "Empty root hash.")
          else ret tt) ;;
         emit (EvTrieNew trieRootHash) ;;
         match TrieNew E trieRootHash with
         | Some err =>
             logError "fail to new trie tree"
                      [("err", VErr err); ("rootHash", VErr err)] ;;
             Return (Some err)
         | None =>
             emit (EvNewHbss2Pbss trieRootHash blockNumber jobnum) ;;
             match NewHbss2Pbss E trieRootHash blockNumber jobnum with
             | Some err =>
                 logError "fail to new hash2pbss"
                          [("err", VErr err); ("rootHash", VErr err)] ;;
                 Return (Some err)
             | None => Run trieRootHash blockNumber jobnum
             end
         end
     end
   else logInfo "Convert hbss to pbss success. Nothing to do." []) ;;
  lastStateID <- ReadPersistentStateID ;;
  (if (lastStateID =? 0)%Z
   then logError
          "Convert hbss to pbss trie node error. The last state id is still 0"
          []
   else ret tt) ;;
  let ancient :=
    if HasSeparateStateStore E
    then Join E (Join E (ResolvePath E "chaindata") "state") "ancient"
    else ResolveAncient E "chaindata" (AncientFlag ctx) in
  emit (EvResetStateFreezerTableOffset ancient lastStateID) ;;
  match ResetStateFreezerTableOffset E ancient lastStateID with
  | Some err =>
      logError "Reset state freezer table offset failed"
               [("error", VErr err)] ;;
      Return (Some err)
  | None =>
      emit EvPruneHashTrieNodeInDataBase ;;
      match PruneHashTrieNodeInDataBase E with
      | Some err =>
          logError "Prune Hash trie node in database failed"
                   [("error", VErr err)] ;;
          Return (Some err)
      | None => Return None
      end
  end.

End WithEnv.
End Dbcmd.

(** ** Vocabulary of the statements *)

(** The root a verification command settles on: the head block's state root
    without an argument, the parsed argument with one. *)
Definition rootChosen (E : Snapshot.Env) (ctx : Context) (hb : Block)
    (root : Hash) : Prop :=
  (NArg ctx = 0 /\ root = BlockRoot hb) \/
  (NArg ctx = 1 /\ Snapshot.parseRoot E (First ctx) = Ok root).

(** Calls that construct or run a pruner. *)
Definition isPrunerCall (ev : Event) : bool :=
  match ev with
  | EvNewPruner _ _ | EvPrune _ | EvNewAllPruner | EvPruneAll _ => true
  | _ => false
  end.

(** Calls that verify a snapshot. *)
Definition isVerification (ev : Event) : bool :=
  match ev with
  | EvSnapshotVerify _ | EvCheckDanglingStorage => true
  | _ => false
  end.

(** Calls that open a trie or a snapshot tree. *)
Definition isOpening (ev : Event) : bool :=
  match ev with
  | EvNewStateTrie _ | EvSnapshotNew _ => true
  | _ => false
  end.

(** Calls that fix the root a command works on. *)
Definition isRootUse (ev : Event) : bool :=
  match ev with
  | EvNewStateTrie _ | EvSnapshotVerify _ => true
  | _ => false
  end.

(** Calls that belong to a traversal or verification proper. *)
Definition isTraversal (ev : Event) : bool :=
  match ev with
  | EvNewStateTrie _ | EvNodeIterator _ | EvNodeReader _
  | EvSnapshotVerify _ | EvCheckDanglingStorage => true
  | _ => false
  end.

(** Calls of the conversion walk of hbss-to-pbss. *)
Definition isConversion (ev : Event) : bool :=
  match ev with
  | EvNewTrieDatabase | EvCap _ | EvTrieNew _ | EvNewHbss2Pbss _ _ _
  | EvHbss2PbssRun => true
  | _ => false
  end.

(** The two calls that close a migration: the freezer offset reset and the
    deletion of the hash-scheme nodes. *)
Definition isReconcile (ev : Event) : bool :=
  match ev with
  | EvResetStateFreezerTableOffset _ _ | EvPruneHashTrieNodeInDataBase => true
  | _ => false
  end.

(** The calls of a migration that write: the walk, the reset, the deletion. *)
Definition isMigrationStep (ev : Event) : bool :=
  match ev with
  | EvHbss2PbssRun | EvResetStateFreezerTableOffset _ _
  | EvPruneHashTrieNodeInDataBase => true
  | _ => false
  end.

(** The genesis handed to the full prune for a path: the file decoded as
    genesis JSON, or else the genesis of the file loaded as a config file. *)
Definition genesisFrom (E : Snapshot.Env) (path : string)
    : option (option Genesis) :=
  match Snapshot.DecodeGenesis E path with
  | Ok g => Some (Some g)
  | Err _ =>
      match Snapshot.loadConfig E path with
      | Ok g => Some g
      | Err _ => None
      end
  end.

(** The same database with another hasher and another node reader. *)
Definition withDigest (E : Snapshot.Env) (keccak : bytes -> bytes)
    (nodeReader : Hash -> Result Reader) : Snapshot.Env :=
  {| Snapshot.ResolvePath := Snapshot.ResolvePath E;
     Snapshot.ReadStateScheme := Snapshot.ReadStateScheme E;
     Snapshot.ReadHeadBlock := Snapshot.ReadHeadBlock E;
     Snapshot.HasCode := Snapshot.HasCode E;
     Snapshot.EmptyRootHash := Snapshot.EmptyRootHash E;
     Snapshot.EmptyCodeHash := Snapshot.EmptyCodeHash E;
     Snapshot.BytesToHash := Snapshot.BytesToHash E;
     Snapshot.UnmarshalText := Snapshot.UnmarshalText E;
     Snapshot.DecodeBytes := Snapshot.DecodeBytes E;
     Snapshot.Keccak256 := keccak;
     Snapshot.NewPruner := Snapshot.NewPruner E;
     Snapshot.Prune := Snapshot.Prune E;
     Snapshot.NewAllPruner := Snapshot.NewAllPruner E;
     Snapshot.PruneAll := Snapshot.PruneAll E;
     Snapshot.osOpen := Snapshot.osOpen E;
     Snapshot.DecodeGenesis := Snapshot.DecodeGenesis E;
     Snapshot.loadConfig := Snapshot.loadConfig E;
     Snapshot.SnapshotNew := Snapshot.SnapshotNew E;
     Snapshot.Verify := Snapshot.Verify E;
     Snapshot.CheckDanglingStorage := Snapshot.CheckDanglingStorage E;
     Snapshot.NewStateTrie := Snapshot.NewStateTrie E;
     Snapshot.NodeReader := nodeReader |}.

(** hbss-to-pbss accepts its arguments and runs with [jobnum] jobs. *)
Definition argsAccepted (E : Dbcmd.Env) (ctx : Context) (jobnum : Z) : Prop :=
  (NArg ctx = 0 /\ jobnum = 1000) \/
  (NArg ctx = 1 /\ Dbcmd.ParseUint E (Get ctx 0) = Ok jobnum).

(** The freezer directory hbss-to-pbss resets (lines 1312-1318). *)
Definition ancientDir (E : Dbcmd.Env) (ctx : Context) : string :=
  if Dbcmd.HasSeparateStateStore E
  then Dbcmd.Join E (Dbcmd.Join E (Dbcmd.ResolvePath E "chaindata") "state")
                  "ancient"
  else Dbcmd.ResolveAncient E "chaindata" (AncientFlag ctx).

(** The conversion walk of hbss-to-pbss is entered and gets to [h2p.Run()],
    made for [root] at block [bn] with [jobnum] jobs. *)
Definition conversionRuns (E : Dbcmd.Env) (ctx : Context) (id0 jobnum : Z)
    (root : Hash) (bn : Z) : Prop :=
  argsAccepted E ctx jobnum /\
  (id0 = 0 \/ ForceFlag ctx = true) /\
  Dbcmd.ReadHeaderNumber E (Dbcmd.ReadHeadHeaderHash E) = Some bn /\
  bn <> Dbcmd.MaxUint64 /\
  Dbcmd.ReadCanonicalHash E bn <> zeroHash /\
  Dbcmd.ReadHeader E (Dbcmd.ReadCanonicalHash E bn) bn = Some root /\
  root <> zeroHash /\
  Dbcmd.TrieNew E root = None /\
  Dbcmd.NewHbss2Pbss E root bn jobnum = None.

(** An error record, with whatever message. *)
Definition isErrorRecord (ev : Event) : Prop :=
  exists msg kv, ev = EvLog LvlError msg kv.

Definition isErrorLog (ev : Event) : bool :=
  match ev with
  | EvLog LvlError _ _ => true
  | _ => false
  end.

(** The message and context of an error record. *)
Definition recordOf (ev : Event) : string * list (string * LogVal) :=
  match ev with
  | EvLog LvlError msg kv => (msg, kv)
  | _ => ("", [])
  end.

(** The records written by the node checks of traverse-rawstate. *)
Definition nodeRecords : list string :=
  ["Missing trie node(account)"; "Invalid trie node(account)";
   "Missing trie node(storage)"; "Invalid trie node(storage)"].

Section Integrity.

Variable E : Snapshot.Env.
Variable root : Hash.

(** An account leaf passes the account-level check: it decodes, its storage
    trie (if it has one) opens and iterates to the end without an error, and
    its code (if it has any) is in the store. *)
Definition accountSound (kv : bytes * bytes) : Prop :=
  exists acc,
    Snapshot.DecodeBytes E (snd kv) = Ok acc /\
    (Root acc <> Snapshot.EmptyRootHash E ->
     exists storageTrie storageIt,
       Snapshot.NewStateTrie E
         (StorageTrieID root (Snapshot.BytesToHash E (fst kv)) (Root acc))
         = Ok storageTrie /\
       TrieNodeIterator storageTrie = Ok storageIt /\
       ItError storageIt = None) /\
    (CodeHash acc <> Snapshot.EmptyCodeHash E ->
     Snapshot.HasCode E (Snapshot.BytesToHash E (CodeHash acc)) = true).

Variable reader : Reader.

(** The bytes stored under a node's reference are absent, or their digest is
    not the node's hash. *)
Definition nodeCorrupt (owner : Hash) (n : NodeItem) : Prop :=
  let blob := fst (reader owner (ItPath n) (ItHash n)) in
  blob = [] \/ Snapshot.Keccak256 E blob <> ItHash n.

(** The nodes of the storage trie below an account-trie position, each with
    the account it belongs to. *)
Definition storageNodes (n : NodeItem) : list (Hash * NodeItem) :=
  if ItLeaf n then
    match Snapshot.DecodeBytes E (ItLeafBlob n) with
    | Ok acc =>
        if bytes_eqb (Root acc) (Snapshot.EmptyRootHash E) then []
        else
          let owner := Snapshot.BytesToHash E (ItLeafKey n) in
          match Snapshot.NewStateTrie E
                  (StorageTrieID root owner (Root acc)) with
          | Ok storageTrie =>
              match TrieNodeIterator storageTrie with
              | Ok storageIter => map (pair owner) (Items storageIter)
              | Err _ => []
              end
          | Err _ => []
          end
    | Err _ => []
    end
  else [].

Definition accountPart (n : NodeItem) : list (Hash * NodeItem) :=
  (zeroHash, n) :: storageNodes n.

(** All nodes of the account trie and of the storage tries under it, in the
    order of the walk, each with the owner it is stored under. *)
Definition visited (items : list NodeItem) : list (Hash * NodeItem) :=
  flat_map accountPart items.

(** A node with a hash of its own has its bytes, and they hash to it. *)
Definition intact (p : Hash * NodeItem) : Prop :=
  ItHash (snd p) <> zeroHash -> ~ nodeCorrupt (fst p) (snd p).

(** A stop record names the hash of a corrupt node among [vs]. *)
Definition names (vs : list (Hash * NodeItem)) (l : Event) : Prop :=
  exists owner n kv,
    In (owner, n) vs /\ ItHash n <> zeroHash /\ nodeCorrupt owner n /\
    snd (recordOf l) = ("hash", VHash (ItHash n)) :: kv.

End Integrity.

(** ** A small database to run the commands on *)

Module Sample.

Definition hexDigit (c : ascii) : option N :=
  let n := N_of_ascii c in
  if ((48 <=? n) && (n <=? 57))%N then Some (n - 48)%N
  else if ((97 <=? n) && (n <=? 102))%N then Some (n - 87)%N
  else if ((65 <=? n) && (n <=? 70))%N then Some (n - 55)%N
  else None.

Fixpoint hexDecode (s : string) : option bytes :=
  match s with
  | EmptyString => Some []
  | String _ EmptyString => None
  | String a (String b rest) =>
      match hexDigit a, hexDigit b, hexDecode rest with
      | Some x, Some y, Some t =>
          match Byte.of_N (16 * x + y) with
          | Some v => Some (v :: t)
          | None => None
          end
      | _, _, _ => None
      end
  end.

Definition fromHex (s : string) : bytes :=
  match hexDecode s with
  | Some b => b
  | None => []
  end.

(** A hash given as 0x and 64 hex digits, as [common.Hash] reads it. *)
Definition unmarshalText (s : string) : Result Hash :=
  match s with
  | String "0" (String x digits) =>
      if (Ascii.eqb x "x" || Ascii.eqb x "X")%char
      then
        match hexDecode digits with
        | Some b => if (List.length b =? 32)%nat then Ok b
                    else Err "hex string has wrong length for Hash"
        | None => Err "invalid hex string"
        end
      else Err "hex string without 0x prefix"
  | _ => Err "hex string without 0x prefix"
  end.

(** Left-cropped to, or left-padded to, 32 bytes. *)
Definition bytesToHash (b : bytes) : Hash :=
  let b' := skipn (List.length b - 32)%nat b in
  (repeat Byte.x00 (32 - List.length b')%nat ++ b')%list.

Definition emptyRoot : Hash := Eval vm_compute in
  fromHex "56e81f171bcc55a6ff8345e692c0f86e5b48e01b996cadc001622fb5e363b421".

Definition emptyCode : Hash := Eval vm_compute in
  fromHex "c5d2460186f7233c927e7db2dcc703c0e500b653ca82273b7bfad8045d85a470".

(** A stand-in for the digest: 32 copies of the first byte of the input. *)
Definition digest (blob : bytes) : bytes := repeat (hd Byte.x00 blob) 32.

Definition stateRoot : Hash := repeat Byte.x11 32.
Definition storageRoot : Hash := repeat Byte.x22 32.
Definition codeHash : Hash := repeat Byte.x33 32.
Definition aliceKey : bytes := repeat Byte.xa1 32.
Definition bobKey : bytes := repeat Byte.xb2 32.
Definition aliceBlob : bytes := [Byte.xc0; Byte.x01].
Definition bobBlob : bytes := [Byte.xc0; Byte.x02].

Definition alice : StateAccount :=
  {| Nonce := 1; Balance := 100; Root := storageRoot; CodeHash := codeHash |}.
Definition bob : StateAccount :=
  {| Nonce := 0; Balance := 5; Root := emptyRoot; CodeHash := emptyCode |}.

Definition decodeBytes (b : bytes) : Result StateAccount :=
  if bytes_eqb b aliceBlob then Ok alice
  else if bytes_eqb b bobBlob then Ok bob
  else Err "rlp: expected input list for types.StateAccount".

(** The account trie: its root node, then two leaves embedded in it. *)
Definition rootNode : NodeItem :=
  {| ItHash := stateRoot; ItPath := []; ItLeaf := false;
     ItLeafKey := []; ItLeafBlob := [] |}.
Definition aliceLeaf : NodeItem :=
  {| ItHash := zeroHash; ItPath := [Byte.x0a]; ItLeaf := true;
     ItLeafKey := aliceKey; ItLeafBlob := aliceBlob |}.
Definition bobLeaf : NodeItem :=
  {| ItHash := zeroHash; ItPath := [Byte.x0b]; ItLeaf := true;
     ItLeafKey := bobKey; ItLeafBlob := bobBlob |}.

(** Alice's storage trie: its root node and one leaf embedded in it. *)
Definition storageRootNode : NodeItem :=
  {| ItHash := storageRoot; ItPath := []; ItLeaf := false;
     ItLeafKey := []; ItLeafBlob := [] |}.
Definition slotLeaf : NodeItem :=
  {| ItHash := zeroHash; ItPath := [Byte.x05]; ItLeaf := true;
     ItLeafKey := repeat Byte.x55 32; ItLeafBlob := [Byte.x2a] |}.

Definition accountTrie : Trie :=
  {| TrieNodeIterator :=
       Ok {| Items := [rootNode; aliceLeaf; bobLeaf]; ItError := None |} |}.
Definition storageTrie : Trie :=
  {| TrieNodeIterator :=
       Ok {| Items := [storageRootNode; slotLeaf]; ItError := None |} |}.

Definition newStateTrie (id : TrieID) : Result Trie :=
  match id with
  | StateTrieID r =>
      if bytes_eqb r stateRoot then Ok accountTrie
      else Err "missing trie node"
  | StorageTrieID _ _ r =>
      if bytes_eqb r storageRoot then Ok storageTrie
      else Err "missing trie node"
  end.

(** A node store under the hash scheme: blobs by hash. *)
Definition NodeStore := list (Hash * bytes).

Fixpoint lookup (store : NodeStore) (h : Hash) : option bytes :=
  match store with
  | [] => None
  | (k, v) :: rest => if bytes_eqb k h then Some v else lookup rest h
  end.

Definition readerOf (store : NodeStore) : Reader :=
  fun _ _ h =>
    match lookup store h with
    | Some blob => (blob, None)
    | None => ([], Some "not found")
    end.

(** Every stored blob hashes to its key. *)
Definition soundStore : NodeStore :=
  [(stateRoot, [Byte.x11; Byte.x01]); (storageRoot, [Byte.x22; Byte.x07])].

(** The storage root's blob with its first byte flipped. *)
Definition flippedStore : NodeStore :=
  [(stateRoot, [Byte.x11; Byte.x01]); (storageRoot, [Byte.x23; Byte.x07])].

Definition headBlock : Block := {| BlockRoot := stateRoot; NumberU64 := 128 |}.

(** The collaborators of snapshot.go over a database with the given state
    scheme, head block and node store, whose node reader opens or not. *)
Definition env (scheme : string) (head : option Block) (store : NodeStore)
    (readerOpens : bool) : Snapshot.Env :=
  {| Snapshot.ResolvePath := fun p => "/data/geth/" ++ p;
     Snapshot.ReadStateScheme := scheme;
     Snapshot.ReadHeadBlock := head;
     Snapshot.HasCode := fun h => bytes_eqb h codeHash;
     Snapshot.EmptyRootHash := emptyRoot;
     Snapshot.EmptyCodeHash := emptyCode;
     Snapshot.BytesToHash := bytesToHash;
     Snapshot.UnmarshalText := unmarshalText;
     Snapshot.DecodeBytes := decodeBytes;
     Snapshot.Keccak256 := digest;
     Snapshot.NewPruner := fun _ _ => None;
     Snapshot.Prune := fun _ => None;
     Snapshot.NewAllPruner := None;
     Snapshot.PruneAll := fun _ => None;
     Snapshot.osOpen := fun p =>
       if String.eqb p "genesis.json" || String.eqb p "config.toml"
       then None else Some "no such file or directory";
     Snapshot.DecodeGenesis := fun p =>
       if String.eqb p "genesis.json" then Ok "mainnet"
       else Err "invalid character";
     Snapshot.loadConfig := fun p =>
       if String.eqb p "config.toml" then Ok (Some "testnet")
       else Err "toml: syntax error";
     Snapshot.SnapshotNew := fun _ => None;
     Snapshot.Verify := fun r =>
       if bytes_eqb r stateRoot then None else Some "snapshot not found";
     Snapshot.CheckDanglingStorage := None;
     Snapshot.NewStateTrie := newStateTrie;
     Snapshot.NodeReader := fun _ =>
       if readerOpens then Ok (readerOf store)
       else Err "state is not available" |}.

Definition hashEnv : Snapshot.Env := env "hash" (Some headBlock) soundStore true.
Definition pathEnv : Snapshot.Env := env "path" (Some headBlock) soundStore true.
Definition emptyEnv : Snapshot.Env := env "hash" None soundStore true.
Definition flippedEnv : Snapshot.Env :=
  env "hash" (Some headBlock) flippedStore true.
Definition noReaderEnv : Snapshot.Env :=
  env "hash" (Some headBlock) soundStore false.

Definition context (args : list string) (force : bool) : Context :=
  {| Args := args; BloomFilterSizeFlag := 2048; TriesInMemoryFlag := 128;
     ForceFlag := force; AncientFlag := "" |}.

Definition noArgs : Context := context [] false.
Definition rootArg : Context := context
  ["0x1111111111111111111111111111111111111111111111111111111111111111"]
  false.
Definition badRootArg : Context := context ["0x11zz"] false.
Definition genesisArg : Context := context ["genesis.json"] false.
Definition configArg : Context := context ["config.toml"] false.

(** The collaborators of hbss-to-pbss.  [afterRun] is the persistent state
    id the conversion leaves in the store; the freezer reset answers
    [resetErr]. *)
Definition dbEnv (afterRun : Z -> Z) (resetErr : option error) : Dbcmd.Env :=
  {| Dbcmd.ParseUint := fun s =>
       if String.eqb s "4" then Ok 4 else Err "invalid syntax";
     Dbcmd.Join := fun a b => a ++ "/" ++ b;
     Dbcmd.ResolvePath := fun p => "/data/geth/" ++ p;
     Dbcmd.ResolveAncient := fun name ancient =>
       if String.eqb ancient "" then "/data/geth/" ++ name ++ "/ancient"
       else ancient;
     Dbcmd.HasSeparateStateStore := false;
     Dbcmd.ReadHeadHeaderHash := repeat Byte.xcc 32;
     Dbcmd.ReadHeaderNumber := fun _ => Some 128;
     Dbcmd.ReadCanonicalHash := fun _ => repeat Byte.xcc 32;
     Dbcmd.ReadHeader := fun _ _ => Some stateRoot;
     Dbcmd.ResetStateFreezerTableOffset := fun _ _ => resetErr;
     Dbcmd.PruneHashTrieNodeInDataBase := None;
     Dbcmd.TriedbScheme := "hash";
     Dbcmd.TrieNew := fun _ => None;
     Dbcmd.NewHbss2Pbss := fun _ _ _ => None;
     Dbcmd.Hbss2PbssRun := fun _ _ _ id => afterRun id |}.

(** A conversion that commits one new state version. *)
Definition convertingEnv : Dbcmd.Env := dbEnv (fun id => id + 1) None.

(** A conversion that produces no state version. *)
Definition stuckEnv : Dbcmd.Env := dbEnv (fun id => id) None.

End Sample.

(** ** More of dbcmd.go and snapshot.go

    The other drivers of the two files that decide something themselves:
    the export iterators, the key-value and trie commands of [geth db],
    [removedb], the history inspection and the snapshot commands
    [dump], [export-preimages] and [inspect-account].  They are embedded
    the same way; their calls are written to a trace of [Op]s. *)

(** [bytes.HasPrefix(s, prefix)] *)
Definition HasPrefix (s prefix : bytes) : bool :=
  (List.length prefix <=? List.length s)%nat &&
  bytes_eqb (firstn (List.length prefix) s) prefix.

(** [common.HashLength] *)
Definition HashLength : nat := 32.

(** An [ethdb.Iterator], seen from its consumer: the entries [Next()] has
    still to step to, in order.  On an exhausted iterator [Next()] answers
    false and leaves it exhausted. *)
Definition KVIterator := list (bytes * bytes).

(** What [ChainDataIterator.Next] returns: [(op, key, value, ok)]. *)
Definition Exported : Type := Z * bytes * bytes * bool.

(** [return 0, nil, nil, false] *)
Definition noMore : Exported := (0, [], [], false).

Module Exporters.
Section WithKeys.

(** [utils.OpBatchAdd], [utils.OpBatchDel] and the key prefixes of rawdb. *)
Variables OpBatchAdd OpBatchDel : Z.
Variables PreimagePrefix SnapshotAccountPrefix SnapshotStoragePrefix : bytes.
Variable SnapshotRootKey : bytes.

(** The test of line 1108: a preimage key. *)
Definition isPreimageKey (key : bytes) : bool :=
  HasPrefix key PreimagePrefix &&
  (List.length key =? List.length PreimagePrefix + HashLength)%nat.

(** The test of line 1132: a snapshot account key. *)
Definition isAccountKey (key : bytes) : bool :=
  HasPrefix key SnapshotAccountPrefix &&
  (List.length key =? List.length SnapshotAccountPrefix + HashLength)%nat.

(** The test of line 1138: a snapshot storage key. *)
Definition isStorageKey (key : bytes) : bool :=
  HasPrefix key SnapshotStoragePrefix &&
  (List.length key =? List.length SnapshotStoragePrefix + 2 * HashLength)%nat.

(** [preimageIterator]: its state is the state of [iter.iter]. *)
Fixpoint preimageNext (iter : KVIterator) : Exported * KVIterator :=
  match iter with
  | [] => (noMore, [])
  | (key, value) :: rest =>
      if isPreimageKey key
      then ((OpBatchAdd, key, value, true), rest)
      else preimageNext rest
  end.

(** [snapshotIterator] *)
Record snapshotIterator := {
  init : bool;
  account : KVIterator;
  storage : KVIterator
}.

(** [for iter.account.Next() { ... return }] *)
Fixpoint scanAccount (it : KVIterator) : option (bytes * bytes) * KVIterator :=
  match it with
  | [] => (None, [])
  | (key, value) :: rest =>
      if isAccountKey key then (Some (key, value), rest)
      else scanAccount rest
  end.

(** [for iter.storage.Next() { ... return }] *)
Fixpoint scanStorage (it : KVIterator) : option (bytes * bytes) * KVIterator :=
  match it with
  | [] => (None, [])
  | (key, value) :: rest =>
      if isStorageKey key then (Some (key, value), rest)
      else scanStorage rest
  end.

Definition snapshotNext (iter : snapshotIterator)
    : Exported * snapshotIterator :=
  if negb (init iter)
  then ((OpBatchDel, SnapshotRootKey, [], true),
        {| init := true; account := account iter; storage := storage iter |})
  else
    match scanAccount (account iter) with
    | (Some (key, value), rest) =>
        ((OpBatchAdd, key, value, true),
         {| init := init iter; account := rest; storage := storage iter |})
    | (None, rest) =>
        match scanStorage (storage iter) with
        | (Some (key, value), rest') =>
            ((OpBatchAdd, key, value, true),
             {| init := init iter; account := rest; storage := rest' |})
        | (None, rest') =>
            (noMore, {| init := init iter; account := rest; storage := rest' |})
        end
    end.

(** The "snapshot" entry of [chainExporters]: a fresh iterator over the
    account and storage entries of the database. *)
Definition newSnapshotIterator (accounts storages : KVIterator)
    : snapshotIterator :=
  {| init := false; account := accounts; storage := storages |}.

End WithKeys.
End Exporters.

(** ** Commands over the key-value stores and the file system *)

(** The two stores a chain database is made of: [db] itself and
    [db.GetStateStore()]. *)
Inductive Store := ChainDB | StateStore.

(** A value of a log record or of a formatted print. *)
Inductive Val :=
| OfLog (v : LogVal)
| VStrs (l : list string)
| VNil.                                          (* a nil error *)

(** [types.SlimAccount] *)
Record SlimAccount := {
  SlimNonce : Z;
  SlimBalance : Z;
  SlimRoot : bytes;
  SlimCodeHash : bytes
}.

(** What [AccountHistory] and [StorageHistory] return. *)
Record HistoryStats := {
  HistStart : Z;
  HistEnd : Z;
  Blocks : list Z;
  Origins : list bytes
}.

(** The [content] of one line of a history listing. *)
Inductive Content :=
| Empty                                          (* "<empty>" *)
| Hex (b : bytes)                                (* "%#x" *)
| AccountFields (nonce balance : Z) (code root : option bytes).

(** [state.DumpAccount]; the storage map is held as the entries in the
    order they were put. *)
Record DumpAccount := {
  DumpBalance : Z;
  DumpNonce : Z;
  DumpRoot : bytes;
  DumpCodeHash : bytes;
  DumpAddressHash : bytes;
  DumpCode : bytes;
  DumpStorage : option (list (Hash * bytes))
}.

(** [state.DumpConfig] *)
Record DumpConfig := {
  SkipCode : bool;
  SkipStorage : bool;
  Start : bytes;
  Max : Z
}.

(** An [ethdb.Iterator] run to its end: its entries and its [Error()]. *)
Record DbIterator := {
  Entries : KVIterator;
  DbIterError : option error
}.

(** The [*triedb.Config] inspect-trie opens the trie database with. *)
Inductive TrieConfig :=
| PathReadOnly                   (* PathDB: ..., Cache: 0 *)
| HashDefaults                   (* triedb.HashDefaults *)
| NilConfig.                     (* neither scheme: config stays nil *)

Inductive Op :=
| OLog (lvl : Level) (msg : string) (kv : list (string * Val))
| OPrintf (format : string) (args : list Val)   (* fmt.Printf, fmt.Println *)
| OStderr (msg : string)                        (* what utils.Fatalf prints *)
| OMakeConfigNode
| OMakeChainDatabase (readonly : bool)
| OMakeTrieDatabase
| ONewIterator (prefix start : bytes)
| OGet (s : Store) (key : bytes)
| OPut (s : Store) (key value : bytes)
| ODelete (s : Store) (key : bytes)
| ODeleteAccountTrieNode (path : bytes)
| ODeleteStorageTrieNode (owner : Hash) (path : bytes)
| OTrieNew (id : TrieID)
| OTrieNewRoot (root : Hash)                    (* trie.New(trie.TrieID(root), ...) *)
| ONodeIterator (id : TrieID) (start : bytes)
| OPrompt (question : string)
| ORemoveFolder (dir : string)
| OSnapshotNew (root : Hash)
| OCheckJournalAccount (hash : Hash)
| OExportSnapshotPreimages (dumpfile : string) (root : Hash)
| OAccountHistory (address : bytes) (first last : Z)
| OStorageHistory (address : bytes) (slot : Hash) (first last : Z)
| OHistoryLine (from to : Z) (content : Content)
| OAccountIterator (root start : Hash)
| OStorageIterator (root account : Hash)
| OEncodeRoot (root : Hash)
| OEncodeAccount (da : DumpAccount)
| OReadAccountTrieNode (path : bytes)
| OReadStorageTrieNode (owner : Hash) (path : bytes)
| ONewTrieDatabase (config : TrieConfig)
| ONewInspector (root : Hash) (blockNumber jobnum topN : Z)
| OInspectorRun
| ODisplayResult
| ODeleteTrieState
| ORemoveTree (dir : string).

(** A command that writes its calls to a trace of [Op]s. *)
Definition Prog (A : Type) : Type := list Op -> Step A * list Op.

Definition pret {A} (a : A) : Prog A := fun t => (Next a, t).

Definition pbind {A B} (c : Prog A) (k : A -> Prog B) : Prog B :=
  fun t =>
    match c t with
    | (Next a, t') => k a t'
    | (Done o, t') => (Done o, t')
    end.

Declare Scope prog_scope.
Delimit Scope prog_scope with prog.
Bind Scope prog_scope with Prog.

Notation "x <- c1 ;; c2" := (pbind c1 (fun x => c2))
  (at level 61, c1 at next level, right associativity) : prog_scope.
Notation "c1 ;; c2" := (pbind c1 (fun _ => c2))
  (at level 61, right associativity) : prog_scope.

(** [return err] *)
Definition preturn {A} (err : option error) : Prog A :=
  fun t => (Done (Returned err), t).

(** [panic(...)], or a nil dereference, or an index out of range. *)
Definition ppanic {A} : Prog A := fun t => (Done Panicked, t).

Definition call (o : Op) : Prog unit := fun t => (Next tt, (t ++ [o])%list).

(** Modelled from the spec: package utils is not among the sources.
    [utils.Fatalf] prints the message to standard error and terminates the
    process with status 1. *)
Definition pFatalf {A} (msg : string) : Prog A :=
  fun t => (Done (Exited 1), (t ++ [OStderr msg])%list).

Definition prun (c : Prog unit) : Outcome * list Op :=
  match c [] with
  | (Next _, t) => (Returned None, t)
  | (Done o, t) => (o, t)
  end.

Module Tools.

(** [rawdb.PathScheme]'s counterpart [rawdb.HashScheme] is [Snapshot.HashScheme];
    the flag names are those of lines 53 and 57. *)
Definition removeStateDataFlag : string := "remove.state".
Definition removeChainDataFlag : string := "remove.chain".

(** What the collaborators answer during one run of a command. *)
Record Env := {
  (* fmt *)
  Errorf : string -> list Val -> error;
  Sprintf : string -> list Val -> string;
  (* hexutil, common, strconv, crypto, rlp, types *)
  Decode : string -> Result bytes;
  ParseHexOrString : string -> Result bytes;
  ParseInt : string -> Result Z;
  ParseUint : string -> Result Z;
  Bytes2Hex : bytes -> string;
  FromHex : string -> bytes;
  HexToAddress : string -> bytes;
  HexToHash : string -> Hash;
  BytesToHash : bytes -> Hash;
  UnmarshalAddress : string -> Result bytes;
  UnmarshalHash : string -> Result Hash;
  Keccak256 : bytes -> bytes;
  DecodeSlimAccount : bytes -> Result SlimAccount;
  Split : bytes -> Result bytes;
  FullAccount : bytes -> Result StateAccount;
  EmptyCodeHash : Hash;
  (* path/filepath, node, config *)
  Join : string -> string -> string;
  IsAbs : string -> bool;
  ResolvePath : string -> string;
  NodeResolvePath : string -> string;
  DatabaseFreezer : string;
  FileExist : string -> bool;
  WalkRemove : string -> option error;
  (* cli flags, prompt *)
  IsSet : string -> bool;
  FlagBool : string -> bool;
  FlagUint64 : string -> Z;
  StateSchemeFlag : string;
  PromptConfirm : string -> Result bool;
  (* ethdb, rawdb *)
  PathScheme : string;
  MerkleStateFreezerName : string;
  VerkleStateFreezerName : string;
  ChainFreezerName : string;
  CheckIfMultiDataBase : bool;
  HasSeparateStateStore : bool;
  DataTypeByKey : bytes -> Z;
  StateDataType : Z;
  DbGet : Store -> bytes -> Result bytes;
  DbPut : Store -> bytes -> bytes -> option error;
  DbDelete : Store -> bytes -> option error;
  NewKeyLengthIterator : bytes -> bytes -> DbIterator;
  ReadHeadBlock : option Block;
  ReadHeadHeaderHash : Hash;
  ReadHeaderNumber : Hash -> option Z;
  ReadSnapshotRoot : Hash;
  ReadStateScheme : string;
  ReadAccountTrieNodeAndHash : bytes -> bytes * Hash;
  ReadStorageTrieNodeAndHash : Hash -> bytes -> bytes * Hash;
  DeleteTrieState : option error;
  ReadCanonicalHash : Z -> Hash;
  ReadHeader : Hash -> Z -> option Hash;
  ReadStateID : Hash -> option Z;
  ReadCode : Hash -> bytes;
  (* trie, triedb, snapshot, utils *)
  TrieNew : TrieID -> option error;
  TrieNewRoot : Hash -> option error;
  NodeString : bytes -> bytes -> string;
  NewInspector : Hash -> Z -> Z -> Z -> option error;
  NodeIterator : TrieID -> bytes -> Result NodeIterator;
  HistoryRange : Result (Z * Z);
  AccountHistory : bytes -> Z -> Z -> Result HistoryStats;
  StorageHistory : bytes -> Hash -> Z -> Z -> Result HistoryStats;
  SnapshotNew : Hash -> option error;
  AccountIterator : Hash -> Hash -> Result (list (Hash * bytes));
  StorageIterator : Hash -> Hash -> Result (list (Hash * bytes));
  CheckJournalAccount : Hash -> option error;
  ExportSnapshotPreimages : string -> Hash -> option error;
  parseDumpConfig : Result (DumpConfig * Hash)
}.

Section WithEnv.

Variable E : Env.

Local Open Scope prog_scope.

Definition logInfo (msg : string) (kv : list (string * Val)) : Prog unit :=
  call (OLog LvlInfo msg kv).

Definition logError (msg : string) (kv : list (string * Val)) : Prog unit :=
  call (OLog LvlError msg kv).

(** [fmt.Printf(format, args...)] *)
Definition Printf (format : string) (args : list Val) : Prog unit :=
  call (OPrintf format args).

(** [return fmt.Errorf(format, args...)] *)
Definition returnErrorf {A} (format : string) (args : list Val) : Prog A :=
  preturn (Some (Errorf E format args)).

Definition vBytes (b : bytes) : Val := OfLog (VBytes b).
Definition vInt (n : Z) : Val := OfLog (VInt n).
Definition vStr (s : string) : Val := OfLog (VStr s).
Definition vErr (e : error) : Val := OfLog (VErr e).
Definition vHash (h : Hash) : Val := OfLog (VHash h).

(** *** inspect-trie *)

Definition inspectTrieUsage : string := "<blocknum> <jobnum> <topn>".

Definition inspectTrie (ctx : Context) : Prog unit :=
  (if (NArg ctx <? 1)%Z
   then returnErrorf "required arguments: %v" [vStr inspectTrieUsage]
   else pret tt) ;;
  (if (NArg ctx >? 3)%Z
   then returnErrorf "Max 3 arguments: %v" [vStr inspectTrieUsage]
   else pret tt) ;;
  call OMakeConfigNode ;;
  call (OMakeChainDatabase true) ;;
  (if (NArg ctx >=? 1)%Z
   then
     br <-
       (if String.eqb (Get ctx 0) "latest"
        then
          match ReadHeaderNumber E (ReadHeadHeaderHash E) with
          | None => ppanic
          | Some n => pret (n, zeroHash)
          end
        else if String.eqb (Get ctx 0) "snapshot"
        then pret (Dbcmd.MaxUint64, ReadSnapshotRoot E)
        else
          match ParseUint E (Get ctx 0) with
          | Err err =>
              returnErrorf "failed to parse blocknum, Args[0]: %v, err: %v"
                           [vStr (Get ctx 0); vErr err]
          | Ok n => pret (n, zeroHash)
          end) ;;
     let blockNumber := fst br in
     let trieRootHash := snd br in
     jt <-
       (if (NArg ctx =? 1)%Z then pret (1000, 10)%Z
        else if (NArg ctx =? 2)%Z
        then
          match ParseUint E (Get ctx 1) with
          | Err err =>
              returnErrorf "failed to parse jobnum, Args[1]: %v, err: %v"
                           [vStr (Get ctx 1); vErr err]
          | Ok j => pret (j, 10%Z)
          end
        else
          match ParseUint E (Get ctx 1) with
          | Err err =>
              returnErrorf "failed to parse jobnum, Args[1]: %v, err: %v"
                           [vStr (Get ctx 1); vErr err]
          | Ok j =>
              match ParseUint E (Get ctx 2) with
              | Err err =>
                  returnErrorf "failed to parse topn, Args[1]: %v, err: %v"
                               [vStr (Get ctx 1); vErr err]
              | Ok n => pret (j, n)
              end
          end) ;;
     let jobnum := fst jt in
     let topN := snd jt in
     trieRootHash <-
       (if negb (blockNumber =? Dbcmd.MaxUint64)%Z
        then
          let headerBlockHash := ReadCanonicalHash E blockNumber in
          if bytes_eqb headerBlockHash zeroHash
          then preturn (Some "ReadHeadBlockHash empty hash")
          else
            match ReadHeader E headerBlockHash blockNumber with
            | None => ppanic
            | Some headerRoot => pret headerRoot
            end
        else pret trieRootHash) ;;
     (if bytes_eqb trieRootHash zeroHash
      then logError "Empty root hash" []
      else pret tt) ;;
     Printf "ReadBlockHeader, root: %v, blocknum: %v\n"
            [vHash trieRootHash; vInt blockNumber] ;;
     let dbScheme := ReadStateScheme E in
     let config :=
       if String.eqb dbScheme (PathScheme E) then PathReadOnly
       else if String.eqb dbScheme Snapshot.HashScheme then HashDefaults
       else NilConfig in
     call (ONewTrieDatabase config) ;;
     call (OTrieNewRoot trieRootHash) ;;
     match TrieNewRoot E trieRootHash with
     | Some err =>
         Printf "fail to new trie tree, err: %v, rootHash: %v\n"
                [vErr err; vHash trieRootHash] ;;
         preturn (Some err)
     | None =>
         call (ONewInspector trieRootHash blockNumber jobnum (int topN)) ;;
         match NewInspector E trieRootHash blockNumber jobnum (int topN) with
         | Some err => preturn (Some err)
         | None =>
             call OInspectorRun ;;
             call ODisplayResult
         end
     end
   else pret tt) ;;
  preturn None.

(** *** check-state-content *)

(** The body of [for it.Next()] in [checkStateContent], on the counters
    [(errs, count)].  (The progress record is left out, as before.) *)
Fixpoint checkLoop (errs count : Z) (entries : KVIterator) : Prog (Z * Z) :=
  match entries with
  | [] => pret (errs, count)
  | (k, v) :: rest =>
      let count := inc count in
      let got := Keccak256 E v in
      if negb (bytes_eqb k got)
      then
        let errs := inc errs in
        Printf "Error at %#x\n" [vBytes k] ;;
        Printf "  Hash:  %#x\n" [vBytes got] ;;
        Printf "  Data:  %#x\n" [vBytes v] ;;
        checkLoop errs count rest
      else checkLoop errs count rest
  end.

Definition checkStateContent (ctx : Context) : Prog unit :=
  let prefix : bytes := [] in
  (if (NArg ctx >? 1)%Z
   then returnErrorf "max 1 argument: %v" [vStr "<start (optional)>"]
   else pret tt) ;;
  start <-
    (if (NArg ctx >? 0)%Z
     then match Decode E (First ctx) with
          | Err err =>
              returnErrorf "failed to hex-decode 'start': %v" [vErr err]
          | Ok d => pret d
          end
     else pret []) ;;
  call OMakeConfigNode ;;
  call (OMakeChainDatabase true) ;;
  call (ONewIterator prefix start) ;;
  let it := NewKeyLengthIterator E prefix start in
  c <- checkLoop 0 0 (Entries it) ;;
  match DbIterError it with
  | Some err => preturn (Some err)
  | None =>
      logInfo "Iterated the state content"
              [("errors", vInt (fst c)); ("items", vInt (snd c))] ;;
      preturn None
  end.

(** *** get, delete, put *)

Definition dbGet (ctx : Context) : Prog unit :=
  (if negb (NArg ctx =? 1)%Z
   then returnErrorf "required arguments: %v" [vStr "<hex-encoded key>"]
   else pret tt) ;;
  call OMakeConfigNode ;;
  call (OMakeChainDatabase true) ;;
  match ParseHexOrString E (Get ctx 0) with
  | Err err =>
      logInfo "Could not decode the key" [("error", vErr err)] ;;
      preturn (Some err)
  | Ok key =>
      let opDb :=
        if CheckIfMultiDataBase E &&
           (DataTypeByKey E key =? StateDataType E)%Z
        then StateStore else ChainDB in
      call (OGet opDb key) ;;
      match DbGet E opDb key with
      | Err err =>
          logInfo "Get operation failed"
                  [("key", vBytes key); ("error", vErr err)] ;;
          preturn (Some err)
      | Ok data =>
          Printf "key %#x: %#x\n" [vBytes key; vBytes data] ;;
          preturn None
      end
  end.

Definition dbDelete (ctx : Context) : Prog unit :=
  (if negb (NArg ctx =? 1)%Z
   then returnErrorf "required arguments: %v" [vStr "<hex-encoded key>"]
   else pret tt) ;;
  call OMakeConfigNode ;;
  call (OMakeChainDatabase false) ;;
  match ParseHexOrString E (Get ctx 0) with
  | Err err =>
      logInfo "Could not decode the key" [("error", vErr err)] ;;
      preturn (Some err)
  | Ok key =>
      let opDb :=
        if HasSeparateStateStore E &&
           (DataTypeByKey E key =? StateDataType E)%Z
        then StateStore else ChainDB in
      call (OGet opDb key) ;;
      match DbGet E opDb key with
      | Ok data => Printf "Previous value: %#x\n" [vBytes data]
      | Err _ => pret tt
      end ;;
      call (ODelete opDb key) ;;
      match DbDelete E opDb key with
      | Some err =>
          logInfo "Delete operation returned an error"
                  [("key", vBytes key); ("error", vErr err)] ;;
          preturn (Some err)
      | None => preturn None
      end
  end.

(** *** delete-trie-state *)

(** The first [filepath.Walk] of [dbDeleteTrieState] removes every file
    below [statePath], at any depth, and answers with [WalkRemove]; the
    second removes the files directly inside [dbPath], as the walk of
    [removeFolder] does. *)
Definition dbDeleteTrieState (ctx : Context) : Prog unit :=
  (if (NArg ctx >? 0)%Z
   then returnErrorf "no arguments required" []
   else pret tt) ;;
  call OMakeConfigNode ;;
  call (OMakeChainDatabase false) ;;
  if HasSeparateStateStore E
  then
    let statePath := Join E (ResolvePath E "chaindata") "state" in
    logInfo "Removing separate trie database" [("path", vStr statePath)] ;;
    call (ORemoveTree statePath) ;;
    let err := WalkRemove E statePath in
    logInfo "Separate trie database deleted"
            [("err", match err with Some e => vErr e | None => VNil end)] ;;
    preturn err
  else
    call ODeleteTrieState ;;
    match DeleteTrieState E with
    | Some err => preturn (Some err)
    | None =>
        let dbPath := DatabaseFreezer E in
        let dbPath :=
          if String.eqb dbPath ""
          then Join E (ResolvePath E "chaindata") "ancient/state"
          else if negb (IsAbs E dbPath)
          then NodeResolvePath E dbPath
          else dbPath in
        if negb (FileExist E dbPath)
        then preturn None
        else
          logInfo "Removing ancient state database" [("path", vStr dbPath)] ;;
          call (ORemoveFolder dbPath) ;;
          logInfo "State database successfully deleted"
                  [("path", vStr dbPath)] ;;
          preturn None
    end.

Definition dbPut (ctx : Context) : Prog unit :=
  (if negb (NArg ctx =? 2)%Z
   then returnErrorf "required arguments: %v"
                     [vStr "<hex-encoded key> <hex-encoded value>"]
   else pret tt) ;;
  call OMakeConfigNode ;;
  call (OMakeChainDatabase false) ;;
  match ParseHexOrString E (Get ctx 0) with
  | Err err =>
      logInfo "Could not decode the key" [("error", vErr err)] ;;
      preturn (Some err)
  | Ok key =>
      match Decode E (Get ctx 1) with
      | Err err =>
          logInfo "Could not decode the value" [("error", vErr err)] ;;
          preturn (Some err)
      | Ok value =>
          let opDb :=
            if HasSeparateStateStore E &&
               (DataTypeByKey E key =? StateDataType E)%Z
            then StateStore else ChainDB in
          call (OGet opDb key) ;;
          match DbGet E opDb key with
          | Ok data => Printf "Previous value: %#x\n" [vBytes data]
          | Err _ => pret tt
          end ;;
          call (OPut opDb key value) ;;
          preturn (DbPut E opDb key value)
      end
  end.

(** *** trie-get, trie-delete *)

Definition dbTrieGet (ctx : Context) : Prog unit :=
  (if (NArg ctx <? 1)%Z || (NArg ctx >? 2)%Z
   then returnErrorf "required arguments: %v"
          [vStr "[trie owner] <path-base key>"]
   else pret tt) ;;
  call OMakeConfigNode ;;
  call (OMakeChainDatabase true) ;;
  let scheme := StateSchemeFlag E in
  let scheme := if String.eqb scheme "" then Snapshot.HashScheme else scheme in
  (if String.eqb scheme (PathScheme E)
   then
     if (NArg ctx =? 1)%Z
     then
       match Decode E (Get ctx 0) with
       | Err err =>
           logInfo "Could not decode the value" [("error", vErr err)] ;;
           preturn (Some err)
       | Ok pathKey =>
           call (OReadAccountTrieNode pathKey) ;;
           let (nodeVal, hash) := ReadAccountTrieNodeAndHash E pathKey in
           logInfo "TrieGet result "
                   [("PathKey", vStr (Bytes2Hex E pathKey));
                    ("Hash: ", vHash hash);
                    ("node: ", vStr (NodeString E hash nodeVal))]
       end
     else if (NArg ctx =? 2)%Z
     then
       match Decode E (Get ctx 0) with
       | Err err =>
           logInfo "Could not decode the value" [("error", vErr err)] ;;
           preturn (Some err)
       | Ok owner =>
           match Decode E (Get ctx 1) with
           | Err err =>
               logInfo "Could not decode the value" [("error", vErr err)] ;;
               preturn (Some err)
           | Ok pathKey =>
               call (OReadStorageTrieNode (BytesToHash E owner) pathKey) ;;
               let (nodeVal, hash) :=
                 ReadStorageTrieNodeAndHash E (BytesToHash E owner) pathKey in
               logInfo "TrieGet result "
                       [("PathKey: ", vStr (Bytes2Hex E pathKey));
                        ("Owner: ", vHash (BytesToHash E owner));
                        ("Hash: ", vHash hash);
                        ("node: ", vStr (NodeString E hash nodeVal))]
           end
       end
     else pret tt
   else if String.eqb scheme Snapshot.HashScheme
   then
     if (NArg ctx =? 1)%Z
     then
       match Decode E (Get ctx 0) with
       | Err err =>
           logInfo "Could not decode the value" [("error", vErr err)] ;;
           preturn (Some err)
       | Ok hashKey =>
           call (OGet StateStore hashKey) ;;
           match DbGet E StateStore hashKey with
           | Err err =>
               logError "db get failed, " [("error: ", vErr err)] ;;
               preturn (Some err)
           | Ok val =>
               logInfo "TrieGet result "
                       [("HashKey: ", vHash (BytesToHash E hashKey));
                        ("node: ", vStr (NodeString E hashKey val))]
           end
       end
     else logError "args too much" []
   else pret tt) ;;
  preturn None.

Definition dbTrieDelete (ctx : Context) : Prog unit :=
  (if (NArg ctx <? 1)%Z || (NArg ctx >? 2)%Z
   then returnErrorf "required arguments: %v"
          [vStr "[trie owner] <hash-base key> | <path-base key>"]
   else pret tt) ;;
  call OMakeConfigNode ;;
  call (OMakeChainDatabase true) ;;
  let scheme := StateSchemeFlag E in
  let scheme := if String.eqb scheme "" then Snapshot.HashScheme else scheme in
  (if String.eqb scheme (PathScheme E)
   then
     if (NArg ctx =? 1)%Z
     then
       match Decode E (Get ctx 0) with
       | Err err =>
           logInfo "Could not decode the value" [("error", vErr err)] ;;
           preturn (Some err)
       | Ok pathKey => call (ODeleteAccountTrieNode pathKey)
       end
     else if (NArg ctx =? 2)%Z
     then
       match Decode E (Get ctx 0) with
       | Err err =>
           logInfo "Could not decode the value" [("error", vErr err)] ;;
           preturn (Some err)
       | Ok owner =>
           match Decode E (Get ctx 1) with
           | Err err =>
               logInfo "Could not decode the value" [("error", vErr err)] ;;
               preturn (Some err)
           | Ok pathKey =>
               call (ODeleteStorageTrieNode (BytesToHash E owner) pathKey)
           end
       end
     else pret tt
   else if String.eqb scheme Snapshot.HashScheme
   then
     if (NArg ctx =? 1)%Z
     then
       match Decode E (Get ctx 0) with
       | Err err =>
           logInfo "Could not decode the value" [("error", vErr err)] ;;
           preturn (Some err)
       | Ok hashKey =>
           call (ODelete StateStore hashKey) ;;
           match DbDelete E StateStore hashKey with
           | Some err =>
               logError "db delete failed" [("err", vErr err)] ;;
               preturn (Some err)
           | None => pret tt
           end
       end
     else logError "args too much" []
   else pret tt) ;;
  preturn None.

(** *** removedb *)

(** [removeFolder] hands its work to [filepath.Walk]; what it does to a
    directory is one call for this model. *)
Definition removeFolder (dir : string) : Prog unit := call (ORemoveFolder dir).

(** The body of [for _, path := range paths] in [confirmAndRemoveDB], on the
    slice [deleted]. *)
Fixpoint removeEach (deleted : list string) (paths : list string)
    : Prog (list string) :=
  match paths with
  | [] => pret deleted
  | path :: rest =>
      if FileExist E path
      then removeFolder path ;; removeEach (deleted ++ [path])%list rest
      else logInfo "Folder is not existent" [("path", vStr path)] ;;
           removeEach deleted rest
  end.

Definition confirmAndRemoveDB (paths : list string) (kind : string)
    (removeFlagName : string) : Prog unit :=
  let msg := Sprintf E "Location(s) of '%s': \n" [vStr kind] in
  let msg :=
    fold_left (fun msg path => msg ++ Sprintf E "\t- %s\n" [vStr path])
              paths msg in
  Printf "%v\n" [vStr msg] ;;
  answer <-
    (if IsSet E removeFlagName
     then
       let confirm := FlagBool E removeFlagName in
       (if confirm
        then Printf "Remove '%s'? [y/n] y\n" [vStr kind]
        else Printf "Remove '%s'? [y/n] n\n" [vStr kind]) ;;
       pret (Ok confirm)
     else
       let question := Sprintf E "Remove '%s'?" [vStr kind] in
       call (OPrompt question) ;;
       pret (PromptConfirm E question)) ;;
  match answer with
  | Err err => pFatalf err
  | Ok false =>
      logInfo "Database deletion skipped"
              [("kind", vStr kind); ("paths", VStrs paths)]
  | Ok true =>
      deleted <- removeEach [] paths ;;
      logInfo "Database successfully deleted"
              [("kind", vStr kind); ("paths", VStrs deleted)]
  end.

Definition removeDB (ctx : Context) : Prog unit :=
  call OMakeConfigNode ;;
  let rootDir := ResolvePath E "chaindata" in
  let ancientDir := DatabaseFreezer E in
  let ancientDir :=
    if String.eqb ancientDir ""
    then Join E (ResolvePath E "chaindata") "ancient"
    else if negb (IsAbs E ancientDir)
    then NodeResolvePath E ancientDir
    else ancientDir in
  let statePaths :=
    [rootDir;
     Join E ancientDir (MerkleStateFreezerName E);
     Join E ancientDir (VerkleStateFreezerName E)] in
  confirmAndRemoveDB statePaths "state data" removeStateDataFlag ;;
  let chainPaths := [Join E ancientDir (ChainFreezerName E)] in
  confirmAndRemoveDB chainPaths "ancient chain" removeChainDataFlag ;;
  preturn None.

(** *** dumptrie *)

(** [count++] on an [int64]. *)
Definition inc64 (n : Z) : Z := int (n + 1).

(** [for it.Next() { ... }] of [dbDumpTrie].  The answer is what [it.Err]
    holds when the loop is left: nothing when it is left by [break], the
    node iterator's error when [Next()] has answered false. *)
Fixpoint dumpLoop (max count : Z) (leaves : list (bytes * bytes))
    (err : option error) : Prog (option error) :=
  match leaves with
  | [] => pret err
  | (key, value) :: rest =>
      if (max >? 0)%Z && (count =? max)%Z
      then Printf "Exiting after %d values\n" [vInt count] ;; pret None
      else
        Printf "  %d. key %#x: %#x\n" [vInt count; vBytes key; vBytes value] ;;
        dumpLoop max (inc64 count) rest err
  end.

Definition dumpTrieUsage : string :=
  "<hex-encoded state root> <hex-encoded account hash> <hex-encoded storage trie root> <hex-encoded start (optional)> <int max elements (optional)>".

Definition dbDumpTrie (ctx : Context) : Prog unit :=
  (if (NArg ctx <? 3)%Z
   then returnErrorf "required arguments: %v" [vStr dumpTrieUsage]
   else pret tt) ;;
  call OMakeConfigNode ;;
  call (OMakeChainDatabase true) ;;
  call OMakeTrieDatabase ;;
  match Decode E (Get ctx 0) with
  | Err err =>
      logInfo "Could not decode the state root" [("error", vErr err)] ;;
      preturn (Some err)
  | Ok state =>
  match Decode E (Get ctx 1) with
  | Err err =>
      logInfo "Could not decode the account hash" [("error", vErr err)] ;;
      preturn (Some err)
  | Ok account =>
  match Decode E (Get ctx 2) with
  | Err err =>
      logInfo "Could not decode the storage trie root" [("error", vErr err)] ;;
      preturn (Some err)
  | Ok storage =>
      start <-
        (if (NArg ctx >? 3)%Z
         then match Decode E (Get ctx 3) with
              | Err err =>
                  logInfo "Could not decode the seek position"
                          [("error", vErr err)] ;;
                  preturn (Some err)
              | Ok d => pret d
              end
         else pret []) ;;
      max <-
        (if (NArg ctx >? 4)%Z
         then match ParseInt E (Get ctx 4) with
              | Err err =>
                  logInfo "Could not decode the max count"
                          [("error", vErr err)] ;;
                  preturn (Some err)
              | Ok n => pret n
              end
         else pret (-1)%Z) ;;
      let id := StorageTrieID (BytesToHash E state) (BytesToHash E account)
                              (BytesToHash E storage) in
      call (OTrieNew id) ;;
      match TrieNew E id with
      | Some err => preturn (Some err)
      | None =>
          call (ONodeIterator id start) ;;
          match NodeIterator E id start with
          | Err err => preturn (Some err)
          | Ok trieIt =>
              let it := NewIterator trieIt in
              err <- dumpLoop max 0 (Leaves it) (IterErr it) ;;
              preturn err
          end
      end
  end end end.

(** *** inspect-history *)

(** The body of the loop of [inspectAccount] at index [i]; [origins[i]]
    panics when [i] is out of range. *)
Fixpoint accountLines (raw : bool) (origins : list bytes) (from : Z) (i : nat)
    (blocks : list Z) : Prog unit :=
  match blocks with
  | [] => pret tt
  | block :: rest =>
      match nth_error origins i with
      | None => ppanic
      | Some origin =>
          content <-
            (if (List.length origin =? 0)%nat then pret Empty
             else if negb raw then pret (Hex origin)
             else
               match DecodeSlimAccount E origin with
               | Err _ => ppanic
               | Ok account =>
                   let code :=
                     if (0 <? List.length (SlimCodeHash account))%nat
                     then Some (SlimCodeHash account) else None in
                   let root :=
                     if (0 <? List.length (SlimRoot account))%nat
                     then Some (SlimRoot account) else None in
                   pret (AccountFields (SlimNonce account)
                                       (SlimBalance account) code root)
               end) ;;
          call (OHistoryLine from block content) ;;
          accountLines raw origins block (Datatypes.S i) rest
      end
  end.

Definition inspectAccount (first last : Z) (address : bytes) (raw : bool)
    : Prog unit :=
  call (OAccountHistory address first last) ;;
  match AccountHistory E address first last with
  | Err err => preturn (Some err)
  | Ok stats =>
      Printf "Account history:\n\taddress: %s\n\tblockrange: [#%d-#%d]\n"
             [vBytes address; vInt (HistStart stats); vInt (HistEnd stats)] ;;
      accountLines raw (Origins stats) (HistStart stats) 0 (Blocks stats) ;;
      preturn None
  end.

(** The body of the loop of [inspectStorage] at index [i]. *)
Fixpoint storageLines (raw : bool) (origins : list bytes) (from : Z) (i : nat)
    (blocks : list Z) : Prog unit :=
  match blocks with
  | [] => pret tt
  | block :: rest =>
      match nth_error origins i with
      | None => ppanic
      | Some origin =>
          content <-
            (if (List.length origin =? 0)%nat then pret Empty
             else if negb raw then pret (Hex origin)
             else
               match Split E origin with
               | Err err =>
                   Printf "Failed to decode storage slot, %v" [vErr err] ;;
                   preturn (Some err)
               | Ok data => pret (Hex data)
               end) ;;
          call (OHistoryLine from block content) ;;
          storageLines raw origins block (Datatypes.S i) rest
      end
  end.

Definition inspectStorage (first last : Z) (address : bytes) (slot : Hash)
    (raw : bool) : Prog unit :=
  call (OStorageHistory address slot first last) ;;
  match StorageHistory E address slot first last with
  | Err err => preturn (Some err)
  | Ok stats =>
      Printf
        "Storage history:\n\taddress: %s\n\tslot: %s\n\tblockrange: [#%d-#%d]\n"
        [vBytes address; vHash slot; vInt (HistStart stats);
         vInt (HistEnd stats)] ;;
      storageLines raw (Origins stats) (HistStart stats) 0 (Blocks stats) ;;
      preturn None
  end.

(** The closure [blockToID] of [inspectHistory]. *)
Definition blockToID (blockNumber : Z) : Result Z :=
  match ReadHeader E (ReadCanonicalHash E blockNumber) blockNumber with
  | None => Err (Errorf E "block #%d is not existent" [vInt blockNumber])
  | Some headerRoot =>
      match ReadStateID E headerRoot with
      | None =>
          match HistoryRange E with
          | Ok (first, last) =>
              Err (Errorf E
                     "history of block #%d is not existent, available history range: [#%d-#%d]"
                     [vInt blockNumber; vInt first; vInt last])
          | Err _ =>
              Err (Errorf E "history of block #%d is not existent"
                          [vInt blockNumber])
          end
      | Some id => Ok id
      end
  end.

Definition inspectHistory (ctx : Context) : Prog unit :=
  (if (NArg ctx =? 0)%Z || (NArg ctx >? 2)%Z
   then returnErrorf "required arguments: %v"
                     [vStr "<address> [OPTIONAL <storage-slot>]"]
   else pret tt) ;;
  match UnmarshalAddress E (Get ctx 0) with
  | Err err => preturn (Some err)
  | Ok address =>
      slot <-
        (if (NArg ctx >? 1)%Z
         then match UnmarshalHash E (Get ctx 1) with
              | Err err => preturn (Some err)
              | Ok h => pret h
              end
         else pret zeroHash) ;;
      call OMakeConfigNode ;;
      call (OMakeChainDatabase true) ;;
      call OMakeTrieDatabase ;;
      let startNumber := FlagUint64 E "start" in
      first <-
        (if negb (startNumber =? 0)%Z
         then match blockToID startNumber with
              | Err err => preturn (Some err)
              | Ok id => pret id
              end
         else pret 0%Z) ;;
      let endBlock := FlagUint64 E "end" in
      last <-
        (if negb (endBlock =? 0)%Z
         then match blockToID endBlock with
              | Err err => preturn (Some err)
              | Ok id => pret id
              end
         else pret 0%Z) ;;
      if bytes_eqb slot zeroHash
      then inspectAccount first last address (FlagBool E "raw")
      else inspectStorage first last address slot (FlagBool E "raw")
  end.

(** *** snapshot.go: inspect-account, export-preimages, dump *)

(** [common.Address{}] *)
Definition zeroAddress : bytes := repeat Byte.x00 20.

Definition checkAccount (ctx : Context) : Prog unit :=
  (if negb (NArg ctx =? 1)%Z
   then preturn (Some "need <address|hash> arg")
   else pret tt) ;;
  let arg := First ctx in
  let n := String.length arg in
  ah <-
    (if (n =? 40)%nat || (n =? 42)%nat
     then
       let addr := HexToAddress E arg in
       pret (addr, Keccak256 E addr)
     else if (n =? 64)%nat || (n =? 66)%nat
     then pret (zeroAddress, HexToHash E arg)
     else preturn (Some "malformed address or hash")) ;;
  let addr := fst ah in
  let hash := snd ah in
  call OMakeConfigNode ;;
  call (OMakeChainDatabase true) ;;
  logInfo "Checking difflayer journal"
          [("address", vBytes addr); ("hash", vHash hash)] ;;
  call (OCheckJournalAccount hash) ;;
  match CheckJournalAccount E hash with
  | Some err => preturn (Some err)
  | None =>
      logInfo "Checked the snapshot journalled storage" [] ;;
      preturn None
  end.

Definition snapshotExportPreimages (ctx : Context) : Prog unit :=
  (if (NArg ctx <? 1)%Z
   then pFatalf "This command requires an argument."
   else pret tt) ;;
  call OMakeConfigNode ;;
  call (OMakeChainDatabase true) ;;
  call OMakeTrieDatabase ;;
  root <-
    (if (NArg ctx >? 1)%Z
     then
       let rootBytes := FromHex E (Get ctx 1) in
       if negb (List.length rootBytes =? HashLength)%nat
       then returnErrorf "invalid hash: %s" [vStr (Get ctx 1)]
       else pret (BytesToHash E rootBytes)
     else
       match ReadHeadBlock E with
       | None =>
           logError "Failed to load head block" [] ;;
           preturn (Some "no head block")
       | Some headBlock => pret (BlockRoot headBlock)
       end) ;;
  call (OSnapshotNew root) ;;
  match SnapshotNew E root with
  | Some err => preturn (Some err)
  | None =>
      call (OExportSnapshotPreimages (First ctx) root) ;;
      preturn (ExportSnapshotPreimages E (First ctx) root)
  end.

(** [accounts++] on a [uint64]. *)
Definition incU64 (n : Z) : Z := (n + 1) mod 2 ^ 64.

(** [for accIt.Next() { ... }] of [dumpState], on the counter [accounts]. *)
Fixpoint dumpAccounts (conf : DumpConfig) (root : Hash) (accounts : Z)
    (accIt : list (Hash * bytes)) : Prog Z :=
  match accIt with
  | [] => pret accounts
  | (hash, slim) :: rest =>
      match FullAccount E slim with
      | Err err => preturn (Some err)
      | Ok account =>
          let code :=
            if negb (SkipCode conf) &&
               negb (bytes_eqb (CodeHash account) (EmptyCodeHash E))
            then ReadCode E (BytesToHash E (CodeHash account))
            else [] in
          storage <-
            (if negb (SkipStorage conf)
             then
               call (OStorageIterator root hash) ;;
               match StorageIterator E root hash with
               | Err err => preturn (Some err)
               | Ok stIt => pret (Some stIt)
               end
             else pret None) ;;
          let da :=
            {| DumpBalance := Balance account;
               DumpNonce := Nonce account;
               DumpRoot := Root account;
               DumpCodeHash := CodeHash account;
               DumpAddressHash := hash;
               DumpCode := code;
               DumpStorage := storage |} in
          call (OEncodeAccount da) ;;
          let accounts := incU64 accounts in
          if (Max conf >? 0)%Z && (accounts >=? Max conf)%Z
          then pret accounts
          else dumpAccounts conf root accounts rest
      end
  end.

Definition dumpState (ctx : Context) : Prog unit :=
  call OMakeConfigNode ;;
  call (OMakeChainDatabase true) ;;
  match parseDumpConfig E with
  | Err err => preturn (Some err)
  | Ok (conf, root) =>
      call OMakeTrieDatabase ;;
      call (OSnapshotNew root) ;;
      match SnapshotNew E root with
      | Some err => preturn (Some err)
      | None =>
          call (OAccountIterator root (BytesToHash E (Start conf))) ;;
          match AccountIterator E root (BytesToHash E (Start conf)) with
          | Err err => preturn (Some err)
          | Ok accIt =>
              logInfo "Snapshot dumping started" [("root", vHash root)] ;;
              call (OEncodeRoot root) ;;
              accounts <- dumpAccounts conf root 0 accIt ;;
              logInfo "Snapshot dumping complete"
                      [("accounts", vInt accounts)] ;;
              preturn None
          end
      end
  end.

End WithEnv.
End Tools.

(** ** More vocabulary of the statements *)

(** What a [ChainDataIterator] hands out: the answers of [Next], called
    until it answers false (and at most [fuel] times). *)
Fixpoint drain {S : Type} (next : S -> Exported * S) (fuel : nat) (s : S)
    : list Exported :=
  match fuel with
  | O => []
  | Datatypes.S fuel' =>
      match next s with
      | ((op, key, value, true), s') =>
          (op, key, value, true) :: drain next fuel' s'
      | ((_, _, _, false), _) => []
      end
  end.

(** The entries of a state iterator whose key is not the digest of their
    value. *)
Definition mismatches (E : Tools.Env) (entries : KVIterator) : KVIterator :=
  filter (fun kv => negb (bytes_eqb (fst kv) (Tools.Keccak256 E (snd kv))))
         entries.

(** What check-state-content prints for a mismatching entry. *)
Definition mismatchReport (E : Tools.Env) (kv : bytes * bytes) : list Op :=
  [OPrintf "Error at %#x\n" [Tools.vBytes (fst kv)];
   OPrintf "  Hash:  %#x\n" [Tools.vBytes (Tools.Keccak256 E (snd kv))];
   OPrintf "  Data:  %#x\n" [Tools.vBytes (snd kv)]].

(** The line dumptrie prints for the [i]-th leaf. *)
Definition dumpLine (i : nat) (kv : bytes * bytes) : Op :=
  OPrintf "  %d. key %#x: %#x\n"
          [Tools.vInt (int (Z.of_nat i)); Tools.vBytes (fst kv);
           Tools.vBytes (snd kv)].

Definition dumpLines (from : nat) (leaves : list (bytes * bytes)) : list Op :=
  map (fun p => dumpLine (fst p) (snd p))
      (combine (seq from (List.length leaves)) leaves).

(** dumptrie accepts its arguments: they name the trie [id], the seek
    position [start] and the limit [max]. *)
Definition dumpArgs (E : Tools.Env) (ctx : Context) (id : TrieID)
    (start : bytes) (max : Z) : Prop :=
  3 <= NArg ctx /\
  (exists state account storage,
      Tools.Decode E (Get ctx 0) = Ok state /\
      Tools.Decode E (Get ctx 1) = Ok account /\
      Tools.Decode E (Get ctx 2) = Ok storage /\
      id = StorageTrieID (Tools.BytesToHash E state)
                         (Tools.BytesToHash E account)
                         (Tools.BytesToHash E storage)) /\
  (NArg ctx <= 3 /\ start = [] \/
   3 < NArg ctx /\ Tools.Decode E (Get ctx 3) = Ok start) /\
  (NArg ctx <= 4 /\ max = -1 \/
   4 < NArg ctx /\ Tools.ParseInt E (Get ctx 4) = Ok max).

(** The calls dumptrie makes before it prints. *)
Definition dumpOpening (id : TrieID) (start : bytes) : list Op :=
  [OMakeConfigNode; OMakeChainDatabase true; OMakeTrieDatabase;
   OTrieNew id; ONodeIterator id start].

(** The store [put] and [delete] work on for a key. *)
Definition routed (E : Tools.Env) (key : bytes) : Store :=
  if Tools.HasSeparateStateStore E &&
     (Tools.DataTypeByKey E key =? Tools.StateDataType E)%Z
  then StateStore else ChainDB.

(** Calls that change a key-value store. *)
Definition isMutation (o : Op) : bool :=
  match o with
  | OPut _ _ _ | ODelete _ _ | ODeleteAccountTrieNode _
  | ODeleteStorageTrieNode _ _ => true
  | _ => false
  end.

Definition isRemoval (o : Op) : bool :=
  match o with
  | ORemoveFolder _ => true
  | _ => false
  end.

Definition isPrompt (o : Op) : bool :=
  match o with
  | OPrompt _ => true
  | _ => false
  end.

(** The scheme trie-delete works under: the flag, or the hash scheme when
    the flag is empty. *)
Definition effectiveScheme (E : Tools.Env) : string :=
  if String.eqb (Tools.StateSchemeFlag E) "" then Snapshot.HashScheme
  else Tools.StateSchemeFlag E.

(** The answer removedb gets for a kind of data: the flag when it is set,
    the user's otherwise. *)
Definition removalAnswer (E : Tools.Env) (flag kind : string) : Result bool :=
  if Tools.IsSet E flag then Ok (Tools.FlagBool E flag)
  else Tools.PromptConfirm E (Tools.Sprintf E "Remove '%s'?" [Tools.vStr kind]).

(** The freezer folder removedb resolves, and the folders it offers for
    removal (lines 320-342). *)
Definition freezerDir (E : Tools.Env) : string :=
  if String.eqb (Tools.DatabaseFreezer E) ""
  then Tools.Join E (Tools.ResolvePath E "chaindata") "ancient"
  else if negb (Tools.IsAbs E (Tools.DatabaseFreezer E))
  then Tools.NodeResolvePath E (Tools.DatabaseFreezer E)
  else Tools.DatabaseFreezer E.

Definition statePaths (E : Tools.Env) : list string :=
  [Tools.ResolvePath E "chaindata";
   Tools.Join E (freezerDir E) (Tools.MerkleStateFreezerName E);
   Tools.Join E (freezerDir E) (Tools.VerkleStateFreezerName E)].

Definition chainPaths (E : Tools.Env) : list string :=
  [Tools.Join E (freezerDir E) (Tools.ChainFreezerName E)].

(** The folders of a list that exist, as removals. *)
Definition removals (E : Tools.Env) (paths : list string) : list Op :=
  map ORemoveFolder (filter (Tools.FileExist E) paths).

(** How a history listing shows an origin when not asked for raw values. *)
Definition plainContent (origin : bytes) : Content :=
  if (List.length origin =? 0)%nat then Empty else Hex origin.

(** The lines of a history listing that is not raw: the ranges are the
    consecutive pairs of [start :: blocks], each with its origin. *)
Definition listing (start : Z) (blocks : list Z) (origins : list bytes)
    : list Op :=
  map (fun p => OHistoryLine (fst (fst p)) (snd (fst p)) (plainContent (snd p)))
      (combine (combine (start :: blocks) blocks) origins).

Definition isHistoryQuery (o : Op) : bool :=
  match o with
  | OAccountHistory _ _ _ | OStorageHistory _ _ _ _ => true
  | _ => false
  end.

(** The first or last state id inspect-history queries for a flag: 0 when
    the flag is 0, the id of that block otherwise. *)
Definition boundFor (E : Tools.Env) (flag : string) : Result Z :=
  if (Tools.FlagUint64 E flag =? 0)%Z then Ok 0
  else Tools.blockToID E (Tools.FlagUint64 E flag).

Definition isJournalCheck (o : Op) : bool :=
  match o with
  | OCheckJournalAccount _ => true
  | _ => false
  end.

Definition isSnapshotCall (o : Op) : bool :=
  match o with
  | OSnapshotNew _ | OExportSnapshotPreimages _ _ => true
  | _ => false
  end.

(** The address hashes of the accounts a dump has encoded, in order. *)
Definition encoded (ops : list Op) : list bytes :=
  flat_map (fun o => match o with
                     | OEncodeAccount da => [DumpAddressHash da]
                     | _ => []
                     end) ops.

(** An entry of the account iterator that dump can encode: it expands to a
    full account, and its storage iterator opens when storage is dumped. *)
Definition dumpable (E : Tools.Env) (conf : DumpConfig) (root : Hash)
    (a : Hash * bytes) : Prop :=
  (exists acc, Tools.FullAccount E (snd a) = Ok acc) /\
  (SkipStorage conf = false ->
   exists st, Tools.StorageIterator E root (fst a) = Ok st).

(** How many accounts a dump encodes out of [n]. *)
Definition dumpLimit (conf : DumpConfig) (n : nat) : nat :=
  if (Max conf >? 0)%Z then Nat.min (Z.to_nat (Max conf)) n else n.

(** The pruning call proper. *)
Definition isPrune (ev : Event) : bool :=
  match ev with
  | EvPrune _ => true
  | _ => false
  end.

(** The target prune-state settles on: the zero hash without an argument,
    the parsed argument with one. *)
Definition pruneTarget (E : Snapshot.Env) (ctx : Context) (target : Hash)
    : Prop :=
  (NArg ctx = 0 /\ target = zeroHash) \/
  (NArg ctx = 1 /\ Snapshot.parseRoot E (First ctx) = Ok target).

(** Two tallies agree on what both traversals count: accounts, slots and
    codes. *)
Definition sameTallies (c c' : Counters) : Prop :=
  accounts c = accounts c' /\ slots c = slots c' /\ codes c = codes c'.

(** The slots traverse-state walks under an account leaf: the leaves of its
    storage trie, when it has one. *)
Definition slotsUnder (E : Snapshot.Env) (root : Hash) (kv : bytes * bytes)
    : nat :=
  match Snapshot.DecodeBytes E (snd kv) with
  | Ok acc =>
      if bytes_eqb (Root acc) (Snapshot.EmptyRootHash E) then 0%nat
      else
        match Snapshot.NewStateTrie E
                (StorageTrieID root (Snapshot.BytesToHash E (fst kv))
                               (Root acc)) with
        | Ok storageTrie =>
            match TrieNodeIterator storageTrie with
            | Ok storageIt => List.length (Leaves (NewIterator storageIt))
            | Err _ => 0%nat
            end
        | Err _ => 0%nat
        end
  | Err _ => 0%nat
  end.

(** An account leaf carries code of its own. *)
Definition carriesCode (E : Snapshot.Env) (kv : bytes * bytes) : bool :=
  match Snapshot.DecodeBytes E (snd kv) with
  | Ok acc => negb (bytes_eqb (CodeHash acc) (Snapshot.EmptyCodeHash E))
  | Err _ => false
  end.

(** An entry as the exporters hand it out: an addition of the key and its
    value. *)
Definition addition (OpBatchAdd : Z) (kv : bytes * bytes) : Exported :=
  (OpBatchAdd, fst kv, snd kv, true).

(** What a trie command looks up or deletes: a key of a store, or a node of
    the account trie or of a storage trie by its path. *)
Inductive NodeRef :=
| KeyRef (s : Store) (key : bytes)
| AccountNodeRef (path : bytes)
| StorageNodeRef (owner : Hash) (path : bytes).

Definition readTarget (o : Op) : list NodeRef :=
  match o with
  | OGet s key => [KeyRef s key]
  | OReadAccountTrieNode path => [AccountNodeRef path]
  | OReadStorageTrieNode owner path => [StorageNodeRef owner path]
  | _ => []
  end.

Definition deleteTarget (o : Op) : list NodeRef :=
  match o with
  | ODelete s key => [KeyRef s key]
  | ODeleteAccountTrieNode path => [AccountNodeRef path]
  | ODeleteStorageTrieNode owner path => [StorageNodeRef owner path]
  | _ => []
  end.

Definition isStoreRead (o : Op) : bool :=
  match o with
  | OGet _ _ => true
  | _ => false
  end.

(** Calls that erase state data: key-value pairs or files. *)
Definition isErasure (o : Op) : bool :=
  match o with
  | ODeleteTrieState | ORemoveFolder _ | ORemoveTree _ => true
  | _ => false
  end.

(** The folder delete-trie-state clears after the key-value pairs
    (lines 915-921). *)
Definition stateFreezerDir (E : Tools.Env) : string :=
  if String.eqb (Tools.DatabaseFreezer E) ""
  then Tools.Join E (Tools.ResolvePath E "chaindata") "ancient/state"
  else if negb (Tools.IsAbs E (Tools.DatabaseFreezer E))
  then Tools.NodeResolvePath E (Tools.DatabaseFreezer E)
  else Tools.DatabaseFreezer E.

(** inspect-trie accepts its second and third argument: it runs [jobnum]
    jobs and shows the top [topN]. *)
Definition jobsAccepted (E : Tools.Env) (ctx : Context) (jobnum topN : Z)
    : Prop :=
  (NArg ctx = 1 /\ jobnum = 1000 /\ topN = 10) \/
  (NArg ctx = 2 /\ Tools.ParseUint E (Get ctx 1) = Ok jobnum /\ topN = 10) \/
  (NArg ctx = 3 /\ Tools.ParseUint E (Get ctx 1) = Ok jobnum /\
   Tools.ParseUint E (Get ctx 2) = Ok topN).

(** The first argument of inspect-trie is a block number. *)
Definition blockGiven (E : Tools.Env) (ctx : Context) (blockNumber : Z)
    : Prop :=
  Get ctx 0 <> "latest" /\ Get ctx 0 <> "snapshot" /\
  Tools.ParseUint E (Get ctx 0) = Ok blockNumber.

(** Calls of inspect-trie on the trie itself. *)
Definition isInspection (o : Op) : bool :=
  match o with
  | OTrieNewRoot _ | ONewInspector _ _ _ _ | OInspectorRun
  | ODisplayResult => true
  | _ => false
  end.

(** ** A second sample: the stores and flags of the database commands *)

Module Demo.

(** The operation codes of package utils and the key schema of rawdb. *)
Definition OpBatchAdd : Z := 0.
Definition OpBatchDel : Z := 1.
Definition PreimagePrefix : bytes := list_byte_of_string "secure-key-".
Definition SnapshotAccountPrefix : bytes := list_byte_of_string "a".
Definition SnapshotStoragePrefix : bytes := list_byte_of_string "o".
Definition SnapshotRootKey : bytes := list_byte_of_string "SnapshotRoot".

Definition preimageKey : bytes :=
  (PreimagePrefix ++ Sample.aliceKey)%list.
Definition accountKey : bytes :=
  (SnapshotAccountPrefix ++ Sample.aliceKey)%list.
Definition storageKey : bytes :=
  (SnapshotStoragePrefix ++ Sample.aliceKey ++ repeat Byte.x55 32)%list.

(** Entries of a database: the snapshot root, an account entry, a key that
    only starts like one, a storage entry and a preimage. *)
Definition database : KVIterator :=
  [(list_byte_of_string "SnapshotRoot", Sample.stateRoot);
   (accountKey, Sample.aliceBlob);
   (list_byte_of_string "ab", [Byte.x07]);
   (storageKey, [Byte.x2a]);
   (preimageKey, [Byte.xde; Byte.xad])].

(** [hexutil.Decode]: 0x and an even number of hex digits. *)
Definition decode (s : string) : Result bytes :=
  match s with
  | String "0" (String "x" digits) =>
      match Sample.hexDecode digits with
      | Some b => Ok b
      | None => Err "invalid hex string"
      end
  | _ => Err "hex string without 0x prefix"
  end.

(** [common.ParseHexOrString]: hex when it has the prefix, the text itself
    otherwise. *)
Definition parseHexOrString (s : string) : Result bytes :=
  match s with
  | String "0" (String "x" _) => decode s
  | _ => Ok (list_byte_of_string s)
  end.

(** [common.FromHex]: the prefix is optional. *)
Definition fromHex (s : string) : bytes :=
  match s with
  | String "0" (String "x" digits) => Sample.fromHex digits
  | _ => Sample.fromHex s
  end.

Fixpoint decimal (s : string) (acc : Z) : option Z :=
  match s with
  | EmptyString => Some acc
  | String c rest =>
      let n := Z.of_N (N_of_ascii c) in
      if ((48 <=? n) && (n <=? 57))%Z then decimal rest (10 * acc + (n - 48))
      else None
  end.

(** [strconv.ParseInt(s, 10, 64)] on short inputs. *)
Definition parseInt (s : string) : Result Z :=
  match s with
  | EmptyString => Err "invalid syntax"
  | String "-" rest =>
      match rest, decimal rest 0 with
      | String _ _, Some n => Ok (- n)
      | _, _ => Err "invalid syntax"
      end
  | _ =>
      match decimal s 0 with
      | Some n => Ok n
      | None => Err "invalid syntax"
      end
  end.

Definition unmarshalAddress (s : string) : Result bytes :=
  match decode s with
  | Ok b => if (List.length b =? 20)%nat then Ok b
            else Err "hex string has wrong length for Address"
  | Err e => Err e
  end.

(** Two state entries: the first is stored under its digest, the second is
    not. *)
Definition stateEntries : KVIterator :=
  [(Sample.stateRoot, [Byte.x11; Byte.x01]);
   (Sample.storageRoot, [Byte.x23; Byte.x07])].

(** The history of an account over blocks 5 and 9, deleted at the second. *)
Definition history : HistoryStats :=
  {| HistStart := 3; HistEnd := 9; Blocks := [5; 9];
     Origins := [[Byte.xc0; Byte.x01]; []] |}.

Definition trieIterator : NodeIterator :=
  {| Items := [Sample.rootNode; Sample.aliceLeaf; Sample.bobLeaf];
     ItError := None |}.

Definition snapshotAccounts : list (Hash * bytes) :=
  [(Sample.aliceKey, Sample.aliceBlob); (Sample.bobKey, Sample.bobBlob)].

Definition dumpConfig (max : Z) : DumpConfig :=
  {| SkipCode := false; SkipStorage := false; Start := []; Max := max |}.

(** The collaborators of the database commands.  [separate] says whether
    the state has a store of its own, [headNumber] is the number of the head
    header if there is one, [answers] holds the removal flags that are set,
    [prompt] what the user answers when asked, [uints] the numeric flags and
    [max] the limit of a dump. *)
Definition toolsOn (separate : bool) (headNumber : option Z)
    (answers : string -> option bool) (prompt : Result bool)
    (uints : string -> Z) (max : Z) : Tools.Env :=
  {| Tools.Errorf := fun format _ => format;
     Tools.Sprintf := fun format _ => format;
     Tools.Decode := decode;
     Tools.ParseHexOrString := parseHexOrString;
     Tools.ParseInt := parseInt;
     Tools.ParseUint := fun s =>
       match s, decimal s 0 with
       | String _ _, Some n => Ok n
       | _, _ => Err "invalid syntax"
       end;
     Tools.Bytes2Hex := fun _ => "";
     Tools.FromHex := fromHex;
     Tools.HexToAddress := fromHex;
     Tools.HexToHash := fun s => Sample.bytesToHash (fromHex s);
     Tools.BytesToHash := Sample.bytesToHash;
     Tools.UnmarshalAddress := unmarshalAddress;
     Tools.UnmarshalHash := Sample.unmarshalText;
     Tools.Keccak256 := Sample.digest;
     Tools.DecodeSlimAccount := fun _ => Err "rlp: expected input list";
     Tools.Split := fun b => Ok b;
     Tools.FullAccount := Sample.decodeBytes;
     Tools.EmptyCodeHash := Sample.emptyCode;
     Tools.Join := fun a b => a ++ "/" ++ b;
     Tools.IsAbs := fun p => String.prefix "/" p;
     Tools.ResolvePath := fun p => "/data/geth/" ++ p;
     Tools.NodeResolvePath := fun p => "/data/" ++ p;
     Tools.DatabaseFreezer := "";
     Tools.FileExist := fun p =>
       String.eqb p "/data/geth/chaindata" ||
       String.eqb p "/data/geth/chaindata/ancient/state" ||
       String.eqb p "/data/geth/chaindata/ancient/chain";
     Tools.WalkRemove := fun _ => None;
     Tools.IsSet := fun flag =>
       match answers flag with Some _ => true | None => false end;
     Tools.FlagBool := fun flag =>
       match answers flag with Some b => b | None => false end;
     Tools.FlagUint64 := uints;
     Tools.StateSchemeFlag := "";
     Tools.PromptConfirm := fun _ => prompt;
     Tools.PathScheme := "path";
     Tools.MerkleStateFreezerName := "state";
     Tools.VerkleStateFreezerName := "state_verkle";
     Tools.ChainFreezerName := "chain";
     Tools.CheckIfMultiDataBase := separate;
     Tools.HasSeparateStateStore := separate;
     Tools.DataTypeByKey := fun key =>
       if HasPrefix key SnapshotAccountPrefix then 1 else 0;
     Tools.StateDataType := 1;
     Tools.DbGet := fun _ key =>
       match Sample.lookup database key with
       | Some v => Ok v
       | None => Err "not found"
       end;
     Tools.DbPut := fun _ _ _ => None;
     Tools.DbDelete := fun _ _ => None;
     Tools.NewKeyLengthIterator := fun _ _ =>
       {| Entries := stateEntries; DbIterError := None |};
     Tools.ReadHeadBlock := Some Sample.headBlock;
     Tools.ReadHeadHeaderHash := repeat Byte.xcc 32;
     Tools.ReadHeaderNumber := fun _ => headNumber;
     Tools.ReadSnapshotRoot := zeroHash;
     Tools.ReadStateScheme := "hash";
     Tools.ReadAccountTrieNodeAndHash := fun _ => ([], zeroHash);
     Tools.ReadStorageTrieNodeAndHash := fun _ _ => ([], zeroHash);
     Tools.DeleteTrieState := None;
     Tools.ReadCanonicalHash := fun _ => repeat Byte.xcc 32;
     Tools.ReadHeader := fun _ number =>
       if (number <=? 128)%Z then Some Sample.stateRoot else None;
     Tools.ReadStateID := fun _ => Some 7;
     Tools.ReadCode := fun _ => [Byte.x60; Byte.x00];
     Tools.TrieNew := fun _ => None;
     Tools.TrieNewRoot := fun _ => None;
     Tools.NodeString := fun _ _ => "";
     Tools.NewInspector := fun _ _ _ _ => None;
     Tools.NodeIterator := fun _ _ => Ok trieIterator;
     Tools.HistoryRange := Ok (1, 7);
     Tools.AccountHistory := fun _ _ _ => Ok history;
     Tools.StorageHistory := fun _ _ _ _ => Ok history;
     Tools.SnapshotNew := fun _ => None;
     Tools.AccountIterator := fun _ _ => Ok snapshotAccounts;
     Tools.StorageIterator := fun _ _ => Ok [(repeat Byte.x55 32, [Byte.x2a])];
     Tools.CheckJournalAccount := fun _ => None;
     Tools.ExportSnapshotPreimages := fun _ _ => None;
     Tools.parseDumpConfig := Ok (dumpConfig max, Sample.stateRoot) |}.

(** A database with a state store of its own and a head header. *)
Definition tools : (string -> option bool) -> Result bool -> (string -> Z)
                   -> Z -> Tools.Env :=
  toolsOn true (Some 128).

Definition noFlags : string -> option bool := fun _ => None.
Definition noUints : string -> Z := fun _ => 0.

(** No flag set, a user who answers yes. *)
Definition plain : Tools.Env := tools noFlags (Ok true) noUints 0.

(** The state data confirmed by flag, the ancient chain declined by flag. *)
Definition stateOnly : Tools.Env :=
  tools (fun flag => if String.eqb flag "remove.state" then Some true
                     else if String.eqb flag "remove.chain" then Some false
                     else None)
        (Ok true) noUints 0.

(** No flag set, and standard input closed. *)
Definition noTerminal : Tools.Env := tools noFlags (Err "EOF") noUints 0.

(** A start block beyond the head of the chain. *)
Definition beyondHead : Tools.Env :=
  tools noFlags (Ok true)
        (fun flag => if String.eqb flag "start" then 500 else 0) 0.

(** One store for everything. *)
Definition shared : Tools.Env :=
  toolsOn false (Some 128) noFlags (Ok true) noUints 0.

(** A database without a head header. *)
Definition headless : Tools.Env :=
  toolsOn true None noFlags (Ok true) noUints 0.

(** A dump limited to one account. *)
Definition oneAccount : Tools.Env := tools noFlags (Ok true) noUints 1.

Definition args (l : list string) : Context := Sample.context l false.

Definition stateArg : string :=
  "0x1111111111111111111111111111111111111111111111111111111111111111".
Definition accountArg : string :=
  "0xa1a1a1a1a1a1a1a1a1a1a1a1a1a1a1a1a1a1a1a1a1a1a1a1a1a1a1a1a1a1a1a1".
Definition storageArg : string :=
  "0x2222222222222222222222222222222222222222222222222222222222222222".
Definition addressArg : string :=
  "0xa1a1a1a1a1a1a1a1a1a1a1a1a1a1a1a1a1a1a1a1".

Definition trieID : TrieID :=
  StorageTrieID Sample.stateRoot Sample.aliceKey Sample.storageRoot.

End Demo.

(** ** Proof tools *)

Ltac cmd_unfold :=
  cbv [run outcome calls succeeded failed bind ret Return emit logInfo logError
       logCrit Fatalf panic liftWalk fst snd trace persistentStateID
       Dbcmd.ReadPersistentStateID Dbcmd.Run].

(** Case analysis on the innermost collaborator answer still scrutinised. *)
Ltac split_match :=
  match goal with
  | |- context [match ?x with _ => _ end] =>
      lazymatch x with
      | context [match _ with _ => _ end] => fail
      | _ => destruct x eqn:?
      end
  end.

Ltac run_cases := repeat (split_match; simpl).

Lemma bytes_eqb_eq a b : bytes_eqb a b = true <-> a = b.
Proof.
  revert b. induction a as [|x a IH]; intros [|y b]; simpl; split;
    try congruence; auto.
  - intros H. apply andb_true_iff in H as [H1 H2].
    apply Byte.byte_dec_bl in H1. apply IH in H2. congruence.
  - intros H. inversion H; subst. apply andb_true_iff. split.
    + now apply Byte.byte_dec_lb.
    + now apply IH.
Qed.

Lemma bytes_eqb_neq a b : bytes_eqb a b = false <-> a <> b.
Proof.
  split; intros H.
  - intros ->. assert (bytes_eqb b b = true) by now apply bytes_eqb_eq.
    congruence.
  - destruct (bytes_eqb a b) eqn:Heq; auto. apply bytes_eqb_eq in Heq. easy.
Qed.

Ltac reflect_bytes :=
  repeat match goal with
         | H : bytes_eqb _ _ = true |- _ => apply bytes_eqb_eq in H
         | H : bytes_eqb _ _ = false |- _ => apply bytes_eqb_neq in H
         | H : negb _ = true |- _ => apply negb_true_iff in H
         | H : negb _ = false |- _ => apply negb_false_iff in H
         end.

Lemma length_zero_nil (b : bytes) : (List.length b =? 0)%nat = true <-> b = [].
Proof. destruct b; simpl; split; congruence. Qed.

Lemma string_length_zero (s : string) :
  (String.length s =? 0)%nat = true <-> s = "".
Proof. destruct s; simpl; split; congruence. Qed.

Lemma int_add a b : int (int a + b) = int (a + b).
Proof.
  unfold int. f_equal.
  replace ((a + 2 ^ 63) mod 2 ^ 64 - 2 ^ 63 + b + 2 ^ 63)
    with ((a + 2 ^ 63) mod 2 ^ 64 + b) by ring.
  rewrite Zplus_mod_idemp_l. f_equal. ring.
Qed.

Lemma inc_int a : inc (int a) = int (a + 1).
Proof. unfold inc. apply int_add. Qed.

Lemma rootChosen_tests E ctx hb root :
  rootChosen E ctx hb root ->
  (NArg ctx >? 1)%Z = false /\
  ((NArg ctx =? 1)%Z = false /\ root = BlockRoot hb \/
   (NArg ctx =? 1)%Z = true /\ Snapshot.parseRoot E (First ctx) = Ok root).
Proof.
  intros [[H ->]|[H Hp]]; rewrite H; simpl; auto.
Qed.

(** The loops stop with error records only. *)
Lemma traverseStateLoop_record E root kvs : forall c l e,
  Snapshot.traverseStateLoop E root c kvs = Aborted l e -> isErrorRecord l.
Proof.
  induction kvs as [|kv kvs IH]; intros c l e; simpl; [discriminate|].
  destruct (Snapshot.traverseStateStep E root c kv) as [c1|l1 e1] eqn:Hs;
    simpl; [apply IH|].
  intros H. inversion H; subst. clear H. revert Hs.
  unfold Snapshot.traverseStateStep, isErrorRecord, wbind.
  run_cases; intros H; inversion H; eauto.
Qed.

Lemma rawStorageLoop_record E reader owner items : forall c l e,
  Snapshot.rawStorageLoop E reader owner c items = Aborted l e ->
  isErrorRecord l.
Proof.
  induction items as [|n items IH]; intros c l e; simpl; [discriminate|].
  destruct (Snapshot.checkStorageNode E reader owner n) as [[]|l1 e1] eqn:Hs;
    simpl; [apply IH|].
  intros H. inversion H; subst. clear H. revert Hs.
  unfold Snapshot.checkStorageNode, isErrorRecord, wbind.
  run_cases; intros H; inversion H; eauto.
Qed.

Lemma rawAccountLoop_record E root reader items : forall c l e,
  Snapshot.rawAccountLoop E root reader c items = Aborted l e ->
  isErrorRecord l.
Proof.
  induction items as [|n items IH]; intros c l e; simpl; [discriminate|].
  destruct (Snapshot.rawAccountStep E root reader c n) as [c1|l1 e1] eqn:Hs;
    simpl; [apply IH|].
  intros H. inversion H; subst. clear H. revert Hs.
  unfold Snapshot.rawAccountStep, Snapshot.checkAccountNode, isErrorRecord,
    wbind.
  run_cases; intros H; inversion H; subst; eauto;
    match goal with
    | H : Snapshot.rawStorageLoop _ _ _ _ _ = Aborted _ _ |- _ =>
        exact (rawStorageLoop_record _ _ _ _ _ _ _ H)
    end.
Qed.

Ltac loop_records :=
  repeat match goal with
         | H : Snapshot.traverseStateLoop _ _ _ _ = Aborted _ _ |- _ =>
             apply traverseStateLoop_record in H as (? & ? & ->)
         | H : Snapshot.rawAccountLoop _ _ _ _ _ = Aborted _ _ |- _ =>
             apply rawAccountLoop_record in H as (? & ? & ->)
         end.

(** ** prune-state *)

(** C3.  When the store's state scheme is not the hash scheme, prune-state
    stops at once: the process exits with status 1 after the critical
    record, and all it has done is set up the node and open the database.
    No pruner is constructed and nothing is pruned. *)
Theorem pruneState_scheme_mismatch E ctx id0 :
  Snapshot.ReadStateScheme E <> Snapshot.HashScheme ->
  let r := run (Snapshot.pruneState E ctx) id0 in
  r = (Exited 1,
       {| persistentStateID := id0;
          trace := [EvMakeConfigNode; EvMakeChainDatabase false;
                    EvLog LvlCrit
                          "Offline pruning is not required for path scheme"
                          []] |}) /\
  failed r /\
  filter isPrunerCall (calls r) = [].
Proof.
  intros H. apply String.eqb_neq in H.
  unfold Snapshot.pruneState. cmd_unfold. rewrite H. simpl.
  repeat split. discriminate.
Qed.

Lemma pruneState_scheme_mismatch_witness :
  Snapshot.ReadStateScheme Sample.pathEnv <> Snapshot.HashScheme /\
  outcome (run (Snapshot.pruneState Sample.pathEnv Sample.rootArg) 0)
    = Exited 1 /\
  filter isPrunerCall
         (calls (run (Snapshot.pruneState Sample.pathEnv Sample.rootArg) 0))
    = [].
Proof.
  assert (H : Snapshot.ReadStateScheme Sample.pathEnv <> Snapshot.HashScheme)
    by (vm_compute; discriminate).
  split; [exact H|].
  destruct (pruneState_scheme_mismatch Sample.pathEnv Sample.rootArg 0 H)
    as (Hr & _ & Hp).
  split; [rewrite Hr; reflexivity | exact Hp].
Defined.

(** With the hash scheme the guard lets the command through to the pruner. *)
Lemma pruneState_hash_scheme E ctx id0 :
  Snapshot.ReadStateScheme E = Snapshot.HashScheme ->
  exists cfg, In (EvNewPruner cfg (TriesInMemoryFlag ctx))
                 (calls (run (Snapshot.pruneState E ctx) id0)).
Proof.
  intros H. apply String.eqb_eq in H.
  unfold Snapshot.pruneState. cmd_unfold. rewrite H. simpl.
  eexists. run_cases; auto 10.
Qed.

(** ** insecure-prune-all *)



(** ** verify-state *)

(** Whatever the database, verify-state makes its verification calls in one
    of three ways: none at all, and it fails; the snapshot verification
    alone, which failed, and its error is returned; or the snapshot
    verification, which passed, followed by the dangling-storage check,
    whose result is returned. *)
Lemma verifyState_order E ctx id0 :
  let r := run (Snapshot.verifyState E ctx) id0 in
  (filter isVerification (calls r) = [] /\ failed r) \/
  (exists root err,
      filter isVerification (calls r) = [EvSnapshotVerify root] /\
      Snapshot.Verify E root = Some err /\
      outcome r = Returned (Some err)) \/
  (exists root,
      filter isVerification (calls r) =
        [EvSnapshotVerify root; EvCheckDanglingStorage] /\
      Snapshot.Verify E root = None /\
      outcome r = Returned (Snapshot.CheckDanglingStorage E)).
Proof.
  unfold Snapshot.verifyState. cmd_unfold.
  run_cases; cbv [failed outcome fst]; eauto 8.
Qed.

(** C5.  Once the head block is read, the snapshot tree opens and a root is
    chosen, verify-state verifies the snapshot for that root first.  If the
    verification fails its error is returned and the dangling-storage check
    is not run; otherwise the dangling-storage check runs next and its
    result is what the command returns. *)
Theorem verifyState_verify_then_dangling E ctx id0 hb root :
  Snapshot.ReadHeadBlock E = Some hb ->
  Snapshot.SnapshotNew E (BlockRoot hb) = None ->
  rootChosen E ctx hb root ->
  let r := run (Snapshot.verifyState E ctx) id0 in
  match Snapshot.Verify E root with
  | Some err =>
      filter isVerification (calls r) = [EvSnapshotVerify root] /\
      outcome r = Returned (Some err)
  | None =>
      filter isVerification (calls r) =
        [EvSnapshotVerify root; EvCheckDanglingStorage] /\
      outcome r = Returned (Snapshot.CheckDanglingStorage E)
  end.
Proof.
  intros Hh Hs Hc. unfold Snapshot.verifyState. cmd_unfold.
  rewrite Hh. simpl. rewrite Hs. simpl.
  destruct Hc as [[Hn ->]|[Hn Hp]]; rewrite Hn; simpl.
  - destruct (Snapshot.Verify E (BlockRoot hb)); simpl; auto.
  - rewrite Hp. destruct (Snapshot.Verify E root); simpl; auto.
Qed.

Lemma verifyState_verify_then_dangling_witness :
  Snapshot.ReadHeadBlock Sample.hashEnv = Some Sample.headBlock /\
  Snapshot.SnapshotNew Sample.hashEnv (BlockRoot Sample.headBlock) = None /\
  rootChosen Sample.hashEnv Sample.rootArg Sample.headBlock Sample.stateRoot /\
  filter isVerification
         (calls (run (Snapshot.verifyState Sample.hashEnv Sample.rootArg) 0))
    = [EvSnapshotVerify Sample.stateRoot; EvCheckDanglingStorage] /\
  outcome (run (Snapshot.verifyState Sample.hashEnv Sample.rootArg) 0)
    = Returned None.
Proof.
  assert (H1 : Snapshot.ReadHeadBlock Sample.hashEnv = Some Sample.headBlock)
    by reflexivity.
  assert (H2 : Snapshot.SnapshotNew Sample.hashEnv
                 (BlockRoot Sample.headBlock) = None) by reflexivity.
  assert (H3 : rootChosen Sample.hashEnv Sample.rootArg Sample.headBlock
                 Sample.stateRoot) by (right; split; reflexivity).
  split; [exact H1|]. split; [exact H2|]. split; [exact H3|].
  exact (verifyState_verify_then_dangling Sample.hashEnv Sample.rootArg 0
           Sample.headBlock Sample.stateRoot H1 H2 H3).
Defined.

(** ** Root selection of the three verification commands *)



(** ** hbss-to-pbss *)

Lemma argsAccepted_tests E ctx jobnum :
  argsAccepted E ctx jobnum ->
  (NArg ctx >? 1)%Z = false /\
  ((NArg ctx =? 1)%Z = false /\ jobnum = 1000 \/
   (NArg ctx =? 1)%Z = true /\ Dbcmd.ParseUint E (Get ctx 0) = Ok jobnum).
Proof.
  intros [[H ->]|[H Hp]]; rewrite H; simpl; auto.
Qed.

(** Whatever the database, hbss-to-pbss makes its two closing calls in one
    of three ways: none, and the command fails; the freezer reset alone,
    which failed, and its error is returned; or the freezer reset, which
    succeeded, followed by the deletion, whose result is returned.  The
    reset is always to the persistent state id the store holds then. *)
Lemma hbss2pbss_order E ctx id0 :
  let r := run (Dbcmd.hbss2pbss E ctx) id0 in
  let id := persistentStateID (snd r) in
  (filter isReconcile (calls r) = [] /\ failed r) \/
  (exists err,
      filter isReconcile (calls r)
        = [EvResetStateFreezerTableOffset (ancientDir E ctx) id] /\
      Dbcmd.ResetStateFreezerTableOffset E (ancientDir E ctx) id = Some err /\
      outcome r = Returned (Some err)) \/
  (filter isReconcile (calls r)
     = [EvResetStateFreezerTableOffset (ancientDir E ctx) id;
        EvPruneHashTrieNodeInDataBase] /\
   Dbcmd.ResetStateFreezerTableOffset E (ancientDir E ctx) id = None /\
   outcome r = Returned (Dbcmd.PruneHashTrieNodeInDataBase E)).
Proof.
  unfold Dbcmd.hbss2pbss, ancientDir. cmd_unfold.
  run_cases; cbv [failed outcome fst]; eauto 8.
Qed.

(** C6.  hbss-to-pbss closes a migration in this order and no other: the
    state freezer table offset is reset to the persistent state id held by
    the store, and only when that reset has succeeded are the hash-scheme
    trie nodes deleted; when the reset fails its error is returned and the
    deletion is not called.  When the conversion walk runs, the id is the
    one the walk left in the store, and the walk comes before both. *)
Theorem hbss2pbss_reset_before_delete E ctx id0 :
  let r := run (Dbcmd.hbss2pbss E ctx) id0 in
  let id := persistentStateID (snd r) in
  let reset := EvResetStateFreezerTableOffset (ancientDir E ctx) id in
  ((filter isReconcile (calls r) = [] /\ failed r) \/
   (exists err,
       filter isReconcile (calls r) = [reset] /\
       Dbcmd.ResetStateFreezerTableOffset E (ancientDir E ctx) id
         = Some err /\
       outcome r = Returned (Some err)) \/
   (filter isReconcile (calls r) = [reset; EvPruneHashTrieNodeInDataBase] /\
    Dbcmd.ResetStateFreezerTableOffset E (ancientDir E ctx) id = None /\
    outcome r = Returned (Dbcmd.PruneHashTrieNodeInDataBase E))) /\
  (forall jobnum root bn,
      conversionRuns E ctx id0 jobnum root bn ->
      id = Dbcmd.Hbss2PbssRun E root bn jobnum id0 /\
      filter isMigrationStep (calls r) =
        EvHbss2PbssRun :: reset ::
        match Dbcmd.ResetStateFreezerTableOffset E (ancientDir E ctx) id with
        | Some _ => []
        | None => [EvPruneHashTrieNodeInDataBase]
        end).
Proof.
  split; [apply hbss2pbss_order|].
  intros jobnum root bn (Ha & Hf & Hn & Hm & Hc & Hh & Hr & Ht & Hp).
  apply argsAccepted_tests in Ha as [Hgt Ha].
  assert (Hforce : (id0 =? 0)%Z || ForceFlag ctx = true).
  { destruct Hf as [ -> | -> ]; [reflexivity|apply orb_true_r]. }
  apply Z.eqb_neq in Hm. apply bytes_eqb_neq in Hc, Hr.
  unfold Dbcmd.hbss2pbss, ancientDir. cmd_unfold. rewrite Hgt.
  destruct Ha as [[Hone ->]|[Hone Hparse]]; rewrite Hone; try rewrite Hparse;
    simpl; rewrite Hforce; simpl; rewrite Hn; simpl; rewrite Hm; simpl;
    rewrite Hc, Hh; simpl; rewrite Hr; simpl; rewrite Ht; simpl;
    rewrite Hp; simpl; run_cases; try congruence; auto.
Qed.

Lemma hbss2pbss_reset_before_delete_witness :
  conversionRuns Sample.convertingEnv Sample.noArgs 0 1000 Sample.stateRoot
                 128 /\
  persistentStateID (snd (run (Dbcmd.hbss2pbss Sample.convertingEnv
                                               Sample.noArgs) 0)) = 1 /\
  filter isMigrationStep
         (calls (run (Dbcmd.hbss2pbss Sample.convertingEnv Sample.noArgs) 0))
    = [EvHbss2PbssRun;
       EvResetStateFreezerTableOffset "/data/geth/chaindata/ancient" 1;
       EvPruneHashTrieNodeInDataBase].
Proof.
  assert (H : conversionRuns Sample.convertingEnv Sample.noArgs 0 1000
                             Sample.stateRoot 128).
  { unfold conversionRuns, argsAccepted.
    repeat split; auto; vm_compute; discriminate. }
  split; [exact H|].
  destruct (hbss2pbss_reset_before_delete Sample.convertingEnv Sample.noArgs 0)
    as [_ Hrun].
  destruct (Hrun _ _ _ H) as [Hid Hsteps].
  split; [exact Hid | exact Hsteps].
Defined.

(** C7.  A store whose persistent state id is 0, converted by a walk that
    produces no state version: the id read back is still 0, the command
    writes the error record -- and goes on.  The freezer offset is reset to
    0, the hash-scheme trie nodes are deleted, and the command reports
    success. *)
Theorem hbss2pbss_zero_state_id_continues :
  persistentStateID
    (snd (run (Dbcmd.hbss2pbss Sample.stuckEnv Sample.noArgs) 0)) = 0 /\
  filter (fun ev => isMigrationStep ev || isErrorLog ev)
         (calls (run (Dbcmd.hbss2pbss Sample.stuckEnv Sample.noArgs) 0))
    = [EvHbss2PbssRun;
       EvLog LvlError
         "Convert hbss to pbss trie node error. The last state id is still 0"
         [];
       EvResetStateFreezerTableOffset "/data/geth/chaindata/ancient" 0;
       EvPruneHashTrieNodeInDataBase] /\
  outcome (run (Dbcmd.hbss2pbss Sample.stuckEnv Sample.noArgs) 0)
    = Returned None.
Proof. vm_compute. repeat split. Qed.

(** The same for every database and every argument list: when the id held
    by the store at the end is 0 and the command got past the conversion
    phase, the reset to 0 is called all the same. *)
Lemma hbss2pbss_zero_state_id_general E ctx id0 :
  let r := run (Dbcmd.hbss2pbss E ctx) id0 in
  In (EvLog LvlError
        "Convert hbss to pbss trie node error. The last state id is still 0"
        []) (calls r) ->
  In (EvResetStateFreezerTableOffset (ancientDir E ctx) 0) (calls r).
Proof.
  unfold Dbcmd.hbss2pbss, ancientDir. cmd_unfold.
  run_cases; intros Hin;
    repeat (destruct Hin as [Hin|Hin]; try discriminate Hin);
    try contradiction;
    repeat match goal with
           | H : (_ =? 0)%Z = true |- _ => apply Z.eqb_eq in H; rewrite H
           end; simpl; auto 20.
Qed.



(** ** traverse-state *)

Lemma traverseStateStep_sound E root c kv :
  (exists c', Snapshot.traverseStateStep E root c kv = Finished c') <->
  accountSound E root kv.
Proof.
  unfold Snapshot.traverseStateStep, accountSound.
  destruct (Snapshot.DecodeBytes E (snd kv)) as [acc|err] eqn:Hd.
  2:{ split; [intros [c' H]; discriminate | intros (acc & H & _); discriminate]. }
  destruct (bytes_eqb (Root acc) (Snapshot.EmptyRootHash E)) eqn:Hr;
  destruct (bytes_eqb (CodeHash acc) (Snapshot.EmptyCodeHash E)) eqn:Hc;
  simpl.
  all: repeat match goal with
       | H : bytes_eqb _ _ = true |- _ => apply bytes_eqb_eq in H
       | H : bytes_eqb _ _ = false |- _ => apply bytes_eqb_neq in H
       end.
  - split; [intros _|eauto]. exists acc. repeat split; intros; try congruence; eauto.
  - destruct (Snapshot.HasCode E _) eqn:Hh; simpl.
    + split; [intros _|eauto]. exists acc. repeat split; intros; try congruence; eauto.
    + split; [intros [c' H]; discriminate|].
      intros (acc' & Ha & _ & Hcode). inversion Ha; subst acc'.
      rewrite Hcode in Hh by assumption. discriminate.
  - destruct (Snapshot.NewStateTrie E _) as [st|e] eqn:Hn; simpl.
    2:{ split; [intros [c' H]; discriminate|].
        intros (acc' & Ha & Hs & _). inversion Ha; subst acc'.
        destruct (Hs Hr) as (st & it & H1 & _). congruence. }
    destruct (TrieNodeIterator st) as [it|e] eqn:Hi; simpl.
    2:{ split; [intros [c' H]; discriminate|].
        intros (acc' & Ha & Hs & _). inversion Ha; subst acc'.
        destruct (Hs Hr) as (st' & it & H1 & H2 & _). congruence. }
    destruct (ItError it) as [e|] eqn:He; simpl.
    1:{ split; [intros [c' H]; discriminate|].
        intros (acc' & Ha & Hs & _). inversion Ha; subst acc'.
        destruct (Hs Hr) as (st' & it' & H1 & H2 & H3). congruence. }
    split; [intros _|eauto]. exists acc. repeat split; intros; try congruence; eauto.
  - destruct (Snapshot.NewStateTrie E _) as [st|e] eqn:Hn; simpl.
    2:{ split; [intros [c' H]; discriminate|].
        intros (acc' & Ha & Hs & _). inversion Ha; subst acc'.
        destruct (Hs Hr) as (st & it & H1 & _). congruence. }
    destruct (TrieNodeIterator st) as [it|e] eqn:Hi; simpl.
    2:{ split; [intros [c' H]; discriminate|].
        intros (acc' & Ha & Hs & _). inversion Ha; subst acc'.
        destruct (Hs Hr) as (st' & it & H1 & H2 & _). congruence. }
    destruct (ItError it) as [e|] eqn:He; simpl.
    1:{ split; [intros [c' H]; discriminate|].
        intros (acc' & Ha & Hs & _). inversion Ha; subst acc'.
        destruct (Hs Hr) as (st' & it' & H1 & H2 & H3). congruence. }
    destruct (Snapshot.HasCode E _) eqn:Hh; simpl.
    + split; [intros _|eauto]. exists acc. repeat split; intros; try congruence; eauto.
    + split; [intros [c' H]; discriminate|].
      intros (acc' & Ha & _ & Hcode). inversion Ha; subst acc'.
      rewrite Hcode in Hh by assumption. discriminate.
Qed.

Lemma traverseStateLoop_sound E root kvs : forall c,
  (exists c', Snapshot.traverseStateLoop E root c kvs = Finished c') <->
  Forall (accountSound E root) kvs.
Proof.
  induction kvs as [|kv kvs IH]; intros c; simpl.
  - split; eauto.
  - split.
    + intros [c' H].
      destruct (Snapshot.traverseStateStep E root c kv) as [c1|l e] eqn:Hs;
        simpl in H; [|discriminate].
      constructor.
      * apply (traverseStateStep_sound E root c kv). eauto.
      * apply (IH c1). eauto.
    + intros H. inversion H as [|? ? Hkv Hrest]; subst.
      apply (traverseStateStep_sound E root c kv) in Hkv as [c1 Hc1].
      rewrite Hc1. simpl. now apply IH.
Qed.


Lemma traverseStateLoop_withDigest E keccak nodeReader root kvs : forall c,
  Snapshot.traverseStateLoop (withDigest E keccak nodeReader) root c kvs
  = Snapshot.traverseStateLoop E root c kvs.
Proof.
  induction kvs as [|kv kvs IH]; intros c; simpl; [reflexivity|].
  change (Snapshot.traverseStateStep (withDigest E keccak nodeReader)
            root c kv)
    with (Snapshot.traverseStateStep E root c kv).
  destruct (Snapshot.traverseStateStep E root c kv); simpl; auto.
Qed.

Lemma traverseState_withDigest E keccak nodeReader ctx id0 :
  run (Snapshot.traverseState (withDigest E keccak nodeReader) ctx) id0
  = run (Snapshot.traverseState E ctx) id0.
Proof.
  unfold Snapshot.traverseState. cmd_unfold. simpl.
  change (Snapshot.parseRoot (withDigest E keccak nodeReader))
    with (Snapshot.parseRoot E).
  repeat setoid_rewrite traverseStateLoop_withDigest. reflexivity.
Qed.

(** C4.  Once traverse-state has opened the account trie of the chosen
    root, it succeeds exactly when every leaf of the account trie is sound
    -- the account record decodes; if its storage root is not the empty
    root, the storage trie opens and is walked to its end without an
    error; if its code hash is not the empty code hash, the code is in the
    store -- and the walk of the account trie itself ends without an error.
    Otherwise it returns an error.  No digest is recomputed: the run is the
    same whatever the hasher and the node reader. *)
Theorem traverseState_account_level E ctx id0 hb root t acctIt :
  Snapshot.ReadHeadBlock E = Some hb ->
  rootChosen E ctx hb root ->
  Snapshot.NewStateTrie E (StateTrieID root) = Ok t ->
  TrieNodeIterator t = Ok acctIt ->
  let r := run (Snapshot.traverseState E ctx) id0 in
  (succeeded r <->
   Forall (accountSound E root) (Leaves (NewIterator acctIt)) /\
   IterErr (NewIterator acctIt) = None) /\
  (succeeded r \/ exists err, outcome r = Returned (Some err)) /\
  (forall keccak nodeReader,
      run (Snapshot.traverseState (withDigest E keccak nodeReader) ctx) id0
      = r).
Proof.
  intros Hh Hc Ht Hi r.
  assert (H : (succeeded r <->
               Forall (accountSound E root) (Leaves (NewIterator acctIt)) /\
               IterErr (NewIterator acctIt) = None) /\
              (succeeded r \/ exists err, outcome r = Returned (Some err))).
  2:{ destruct H as [H1 H2]. split; [exact H1|]. split; [exact H2|].
      intros keccak nodeReader. apply traverseState_withDigest. }
  subst r. apply rootChosen_tests in Hc as [Hgt Hc].
  pose proof (traverseStateLoop_sound E root (Leaves (NewIterator acctIt))
                zeroCounters) as Hl.
  unfold Snapshot.traverseState. cmd_unfold. rewrite Hh, Hgt.
  destruct Hc as [[Hone Hroot]|[Hone Hparse]]; rewrite Hone;
    try rewrite Hparse; try rewrite <- Hroot; simpl; rewrite Ht, Hi.
  all: destruct (Snapshot.traverseStateLoop E root zeroCounters _) as [c|l e];
    simpl;
    [ simpl IterErr; destruct (ItError acctIt) as [e|] eqn:He; simpl;
      [ split; [|eauto]; split; [discriminate|]; intros [_ H]; discriminate
      | split; [|eauto]; split; [|reflexivity]; intros _;
        split; [|reflexivity]; apply Hl; eauto ]
    | split; [|eauto]; split; [discriminate|];
      intros [H _]; apply Hl in H as [c' H]; discriminate ].
Qed.

Lemma traverseState_account_level_witness :
  Snapshot.ReadHeadBlock Sample.hashEnv = Some Sample.headBlock /\
  rootChosen Sample.hashEnv Sample.noArgs Sample.headBlock Sample.stateRoot /\
  Snapshot.NewStateTrie Sample.hashEnv (StateTrieID Sample.stateRoot)
    = Ok Sample.accountTrie /\
  Forall (accountSound Sample.hashEnv Sample.stateRoot)
         [(Sample.aliceKey, Sample.aliceBlob);
          (Sample.bobKey, Sample.bobBlob)].
Proof.
  assert (H1 : Snapshot.ReadHeadBlock Sample.hashEnv = Some Sample.headBlock)
    by reflexivity.
  assert (H2 : rootChosen Sample.hashEnv Sample.noArgs Sample.headBlock
                 Sample.stateRoot) by (left; split; reflexivity).
  assert (H3 : Snapshot.NewStateTrie Sample.hashEnv
                 (StateTrieID Sample.stateRoot) = Ok Sample.accountTrie)
    by reflexivity.
  split; [exact H1|]. split; [exact H2|]. split; [exact H3|].
  destruct (traverseState_account_level Sample.hashEnv Sample.noArgs 0
              Sample.headBlock Sample.stateRoot Sample.accountTrie
              {| Items := [Sample.rootNode; Sample.aliceLeaf; Sample.bobLeaf];
                 ItError := None |} H1 H2 H3 eq_refl) as [[Hs _] _].
  apply Hs. reflexivity.
Defined.

(** ** traverse-rawstate *)

Section RawProofs.

Variable E : Snapshot.Env.
Variable root : Hash.
Variable reader : Reader.

Local Abbreviation nodeCorrupt := (nodeCorrupt E reader).
Local Abbreviation storageNodes := (storageNodes E root).
Local Abbreviation accountPart := (accountPart E root).
Local Abbreviation visited := (visited E root).
Local Abbreviation intact := (intact E reader).
Local Abbreviation names := (names E reader).

Lemma checkAccountNode_spec n :
  match Snapshot.checkAccountNode E reader n with
  | Finished _ => intact (zeroHash, n)
  | Aborted l e => names [(zeroHash, n)] l /\ In (fst (recordOf l)) nodeRecords
  end.
Proof.
  unfold Snapshot.checkAccountNode, intact, names, nodeCorrupt. simpl.
  destruct (negb (bytes_eqb (ItHash n) zeroHash)) eqn:Hz; reflect_bytes;
    [|congruence].
  destruct (List.length _ =? 0)%nat eqn:Hl.
  { apply length_zero_nil in Hl. simpl. split; [|auto].
    exists zeroHash, n, []. simpl. auto. }
  destruct (negb (bytes_eqb _ (ItHash n))) eqn:Hk; reflect_bytes; simpl.
  - split; [|auto]. exists zeroHash, n. eexists. simpl. repeat split; auto.
  - intros _ [H|H]; [|congruence]. apply length_zero_nil in H. congruence.
Qed.

Lemma checkStorageNode_spec owner n :
  match Snapshot.checkStorageNode E reader owner n with
  | Finished _ => intact (owner, n)
  | Aborted l e => names [(owner, n)] l /\ In (fst (recordOf l)) nodeRecords
  end.
Proof.
  unfold Snapshot.checkStorageNode, intact, names, nodeCorrupt. simpl.
  destruct (negb (bytes_eqb (ItHash n) zeroHash)) eqn:Hz; reflect_bytes;
    [|congruence].
  destruct (List.length _ =? 0)%nat eqn:Hl.
  { apply length_zero_nil in Hl. simpl. split; [|auto 6].
    exists owner, n, []. simpl. auto. }
  destruct (negb (bytes_eqb _ (ItHash n))) eqn:Hk; reflect_bytes; simpl.
  - split; [|auto 6]. exists owner, n. eexists. simpl. repeat split; auto.
  - intros _ [H|H]; [|congruence]. apply length_zero_nil in H. congruence.
Qed.

Lemma names_incl vs vs' l : incl vs vs' -> names vs l -> names vs' l.
Proof. intros Hi (o & n & kv & H & Hr). exists o, n, kv. split; auto. Qed.

(** Counters other than [nodes] do not feed back into it. *)
Lemma rawStorageLoop_spec owner items : forall c k,
  nodes c = int k ->
  match Snapshot.rawStorageLoop E reader owner c items with
  | Finished c' =>
      Forall intact (map (pair owner) items) /\
      nodes c' = int (k + Z.of_nat (List.length items))
  | Aborted l e =>
      names (map (pair owner) items) l /\ In (fst (recordOf l)) nodeRecords
  end.
Proof.
  induction items as [|n items IH]; intros c k Hk.
  - simpl. split; [constructor|]. now rewrite Z.add_0_r.
  - cbn [Snapshot.rawStorageLoop].
    pose proof (checkStorageNode_spec owner n) as Hn.
    destruct (Snapshot.checkStorageNode E reader owner n) as [[]|l e];
      cbn [wbind].
    2:{ destruct Hn as [Hn Hm]. split; [|exact Hm].
        eapply names_incl; [|exact Hn]. intros p [<-|[]]. now left. }
    specialize (IH (if ItLeaf n then incSlots (incNodes c) else incNodes c)
                   (k + 1)).
    match type of IH with ?A -> _ => assert (Ha : A) end.
    { destruct (ItLeaf n); simpl; rewrite Hk; apply inc_int. }
    specialize (IH Ha).
    destruct (Snapshot.rawStorageLoop E reader owner _ items) as [c'|l e].
    + destruct IH as [IH1 IH2]. split.
      * simpl. constructor; assumption.
      * rewrite IH2. f_equal. cbn [List.length]. lia.
    + destruct IH as [IH1 IH2]. split; [|exact IH2].
      eapply names_incl; [|exact IH1]. intros p Hp. now right.
Qed.

Lemma rawAccountStep_spec n : forall c k,
  nodes c = int k ->
  match Snapshot.rawAccountStep E root reader c n with
  | Finished c' =>
      Forall intact (accountPart n) /\
      nodes c' = int (k + Z.of_nat (List.length (accountPart n)))
  | Aborted l e =>
      In (fst (recordOf l)) nodeRecords -> names (accountPart n) l
  end.
Proof.
  intros c k Hk. unfold Snapshot.rawAccountStep, accountPart, storageNodes.
  pose proof (checkAccountNode_spec n) as Hn.
  destruct (Snapshot.checkAccountNode E reader n) as [[]|l e]; cbn [wbind].
  2:{ intros _. destruct Hn as [Hn _]. eapply names_incl; [|exact Hn].
      intros p [<-|[]]. now left. }
  assert (Hk1 : nodes (incNodes c) = int (k + 1)).
  { simpl. rewrite Hk. apply inc_int. }
  destruct (ItLeaf n) eqn:Hleaf.
  2:{ split; [repeat constructor; assumption|]. rewrite Hk1. reflexivity. }
  assert (Hk2 : nodes (incAccounts (incNodes c)) = int (k + 1)) by exact Hk1.
  destruct (Snapshot.DecodeBytes E (ItLeafBlob n)) as [acc|err].
  2:{ simpl. intros [H|[H|[H|[H|[]]]]]; discriminate. }
  destruct (bytes_eqb (Root acc) (Snapshot.EmptyRootHash E)); cbn [negb wbind].
  { destruct (negb (bytes_eqb (CodeHash acc) _)).
    - destruct (negb (Snapshot.HasCode E _)).
      + simpl. intros [H|[H|[H|[H|[]]]]]; discriminate.
      + split; [repeat constructor; assumption|].
        cbn [nodes incCodes incAccounts incNodes] in *. rewrite Hk1.
        reflexivity.
    - split; [repeat constructor; assumption|].
      cbn [nodes incCodes incAccounts incNodes] in *. rewrite Hk1.
      reflexivity. }
  destruct (Snapshot.NewStateTrie E _) as [st|err]; cbn [wbind].
  2:{ simpl. intros [H|[H|[H|[H|[]]]]]; discriminate. }
  destruct (TrieNodeIterator st) as [sit|err]; cbn [wbind].
  2:{ simpl. intros [H|[H|[H|[H|[]]]]]; discriminate. }
  pose proof (rawStorageLoop_spec (Snapshot.BytesToHash E (ItLeafKey n))
                (Items sit) (incAccounts (incNodes c)) (k + 1) Hk2) as Hs.
  destruct (Snapshot.rawStorageLoop E reader _ _ (Items sit)) as [c'|l e];
    cbn [wbind].
  2:{ intros _. destruct Hs as [Hs _]. eapply names_incl; [|exact Hs].
      intros p Hp. now right. }
  destruct Hs as [Hs1 Hs2].
  destruct (ItError sit); cbn [wbind].
  { simpl. intros [H|[H|[H|[H|[]]]]]; discriminate. }
  destruct (negb (bytes_eqb (CodeHash acc) _)).
  - destruct (negb (Snapshot.HasCode E _)).
    + simpl. intros [H|[H|[H|[H|[]]]]]; discriminate.
    + split; [constructor; assumption|]. cbn [nodes incCodes]. rewrite Hs2.
      f_equal. cbn [List.length]. rewrite length_map. lia.
  - split; [constructor; assumption|]. rewrite Hs2.
    f_equal. cbn [List.length]. rewrite length_map. lia.
Qed.

Lemma rawAccountLoop_spec items : forall c k,
  nodes c = int k ->
  match Snapshot.rawAccountLoop E root reader c items with
  | Finished c' =>
      Forall intact (visited items) /\
      nodes c' = int (k + Z.of_nat (List.length (visited items)))
  | Aborted l e =>
      In (fst (recordOf l)) nodeRecords -> names (visited items) l
  end.
Proof.
  induction items as [|n items IH]; intros c k Hk.
  - simpl. split; [constructor|]. now rewrite Z.add_0_r.
  - cbn [Snapshot.rawAccountLoop]. unfold visited. cbn [flat_map].
    fold (accountPart n). fold (visited items).
    pose proof (rawAccountStep_spec n c k Hk) as Hn.
    destruct (Snapshot.rawAccountStep E root reader c n) as [c1|l e];
      cbn [wbind].
    2:{ intros Hm. eapply names_incl; [|exact (Hn Hm)].
        intros p Hp. apply in_or_app. now left. }
    destruct Hn as [Hn1 Hn2].
    specialize (IH c1 _ Hn2).
    destruct (Snapshot.rawAccountLoop E root reader c1 items) as [c'|l e].
    + destruct IH as [IH1 IH2]. split.
      * apply Forall_app. split; assumption.
      * rewrite IH2. f_equal. rewrite length_app. lia.
    + intros Hm. eapply names_incl; [|exact (IH Hm)].
      intros p Hp. apply in_or_app. now right.
Qed.


End RawProofs.




(** C1.  traverse-rawstate on a database whose node reader for the head
    root cannot be opened: the command writes the error record "State is
    non-existent" and returns nil, that is, success. *)
Theorem traverseRawState_reader_unavailable :
  Snapshot.NodeReader Sample.noReaderEnv Sample.stateRoot
    = Err "state is not available" /\
  last (calls (run (Snapshot.traverseRawState Sample.noReaderEnv
                                              Sample.noArgs) 0))
       EvMakeConfigNode
    = EvLog LvlError "State is non-existent"
            [("root", VHash Sample.stateRoot)] /\
  outcome (run (Snapshot.traverseRawState Sample.noReaderEnv Sample.noArgs) 0)
    = Returned None.
Proof. vm_compute. repeat split. Qed.

(** The same for every database: when the node reader of the chosen root
    does not open, traverse-rawstate reports success. *)
Lemma traverseRawState_reader_error_is_success E ctx id0 hb root t accIter e :
  Snapshot.ReadHeadBlock E = Some hb ->
  rootChosen E ctx hb root ->
  Snapshot.NewStateTrie E (StateTrieID root) = Ok t ->
  TrieNodeIterator t = Ok accIter ->
  Snapshot.NodeReader E root = Err e ->
  succeeded (run (Snapshot.traverseRawState E ctx) id0).
Proof.
  intros Hh Hc Ht Hi Hr. apply rootChosen_tests in Hc as [Hgt Hc].
  unfold Snapshot.traverseRawState. cmd_unfold. rewrite Hh, Hgt.
  destruct Hc as [[Hone Hroot]|[Hone Hparse]]; rewrite Hone;
    try rewrite Hparse; try rewrite <- Hroot; simpl; rewrite Ht, Hi, Hr;
    reflexivity.
Qed.

(** ** The export iterators *)

Open Scope Z_scope.

Section ExporterProofs.

Variables OpBatchAdd OpBatchDel : Z.
Variables PreimagePrefix SnapshotAccountPrefix SnapshotStoragePrefix : bytes.
Variable SnapshotRootKey : bytes.

Local Abbreviation preimageNext :=
  (Exporters.preimageNext OpBatchAdd PreimagePrefix).
Local Abbreviation snapshotNext :=
  (Exporters.snapshotNext OpBatchAdd OpBatchDel SnapshotAccountPrefix
                          SnapshotStoragePrefix SnapshotRootKey).
Local Abbreviation isPreimageKey := (Exporters.isPreimageKey PreimagePrefix).
Local Abbreviation isAccountKey :=
  (Exporters.isAccountKey SnapshotAccountPrefix).
Local Abbreviation isStorageKey :=
  (Exporters.isStorageKey SnapshotStoragePrefix).
Local Abbreviation scanAccount :=
  (Exporters.scanAccount SnapshotAccountPrefix).
Local Abbreviation scanStorage :=
  (Exporters.scanStorage SnapshotStoragePrefix).

Local Abbreviation added := (addition OpBatchAdd).

Lemma preimageNext_spec iter :
  match filter (fun kv => isPreimageKey (fst kv)) iter with
  | [] => preimageNext iter = (noMore, [])
  | kv :: _ =>
      exists rest,
        preimageNext iter = (added kv, rest) /\
        (List.length rest < List.length iter)%nat /\
        filter (fun kv => isPreimageKey (fst kv)) iter
          = kv :: filter (fun kv => isPreimageKey (fst kv)) rest
  end.
Proof.
  induction iter as [|[k v] iter IH]; simpl; [reflexivity|].
  destruct (isPreimageKey k) eqn:Hk; simpl.
  - exists iter. repeat split; try lia.
  - destruct (filter _ iter) as [|kv l] eqn:Hf; [exact IH|].
    destruct IH as (rest & H1 & H2 & H3). exists rest.
    repeat split; auto; lia.
Qed.

(** X1.  Draining a preimage iterator gives exactly the database entries
    whose key is the preimage prefix followed by 32 bytes, in database
    order, each as an addition; every other entry is skipped. *)
Theorem preimageIterator_drain (fuel : nat) : forall iter : KVIterator,
  (List.length iter < fuel)%nat ->
  drain preimageNext fuel iter
    = map added (filter (fun kv => isPreimageKey (fst kv)) iter).
Proof.
  induction fuel as [|fuel IH]; intros iter Hf; [lia|]. cbn [drain].
  pose proof (preimageNext_spec iter) as Hs.
  destruct (filter (fun kv => isPreimageKey (fst kv)) iter) as [|kv l] eqn:Hl.
  - rewrite Hs. reflexivity.
  - destruct Hs as (rest & H1 & H2 & H3). rewrite H1.
    inversion H3; subst l. unfold addition at 1.
    rewrite (IH rest) by lia. reflexivity.
Qed.

Lemma scanAccount_spec it :
  match filter (fun kv => isAccountKey (fst kv)) it with
  | [] => scanAccount it = (None, [])
  | kv :: _ =>
      exists rest,
        scanAccount it = (Some kv, rest) /\
        (List.length rest < List.length it)%nat /\
        filter (fun kv => isAccountKey (fst kv)) it
          = kv :: filter (fun kv => isAccountKey (fst kv)) rest
  end.
Proof.
  induction it as [|[k v] it IH]; simpl; [reflexivity|].
  destruct (isAccountKey k) eqn:Hk; simpl.
  - exists it. repeat split; try lia.
  - destruct (filter _ it) as [|kv l] eqn:Hf; [exact IH|].
    destruct IH as (rest & H1 & H2 & H3). exists rest.
    repeat split; auto; lia.
Qed.

Lemma scanStorage_spec it :
  match filter (fun kv => isStorageKey (fst kv)) it with
  | [] => scanStorage it = (None, [])
  | kv :: _ =>
      exists rest,
        scanStorage it = (Some kv, rest) /\
        (List.length rest < List.length it)%nat /\
        filter (fun kv => isStorageKey (fst kv)) it
          = kv :: filter (fun kv => isStorageKey (fst kv)) rest
  end.
Proof.
  induction it as [|[k v] it IH]; simpl; [reflexivity|].
  destruct (isStorageKey k) eqn:Hk; simpl.
  - exists it. repeat split; try lia.
  - destruct (filter _ it) as [|kv l] eqn:Hf; [exact IH|].
    destruct IH as (rest & H1 & H2 & H3). exists rest.
    repeat split; auto; lia.
Qed.

Lemma snapshotIterator_drain_started (fuel : nat) : forall acc st,
  (List.length acc + List.length st < fuel)%nat ->
  drain snapshotNext fuel
        {| Exporters.init := true; Exporters.account := acc;
           Exporters.storage := st |}
    = (map added (filter (fun kv => isAccountKey (fst kv)) acc) ++
       map added (filter (fun kv => isStorageKey (fst kv)) st))%list.
Proof.
  induction fuel as [|fuel IH]; intros acc st Hf; [lia|].
  cbn [drain].
  destruct (snapshotNext _) as [out it'] eqn:Hn.
  unfold Exporters.snapshotNext in Hn.
  cbn [Exporters.init negb Exporters.account Exporters.storage] in Hn.
  pose proof (scanAccount_spec acc) as Ha.
  destruct (filter (fun kv => isAccountKey (fst kv)) acc) as [|kv l] eqn:Hl.
  - rewrite Ha in Hn. pose proof (scanStorage_spec st) as Hs.
    destruct (filter (fun kv => isStorageKey (fst kv)) st) as [|kv l] eqn:Hl'.
    + rewrite Hs in Hn. inversion Hn; subst. reflexivity.
    + destruct Hs as (rest & H1 & H2 & H3). rewrite H1 in Hn.
      inversion H3; subst l. destruct kv as [k v].
      inversion Hn; subst.
      rewrite (IH [] rest) by (simpl; lia). reflexivity.
  - destruct Ha as (rest & H1 & H2 & H3). rewrite H1 in Hn.
    inversion H3; subst l. destruct kv as [k v].
    inversion Hn; subst.
    rewrite (IH rest st) by lia. reflexivity.
Qed.

(** X2.  Draining a fresh snapshot iterator gives first the deletion of the
    snapshot root key, then the account entries whose key is the account
    prefix followed by 32 bytes, then the storage entries whose key is the
    storage prefix followed by 64 bytes, each in database order; every
    other entry is skipped. *)
Theorem snapshotIterator_drain (fuel : nat) (accounts storages : KVIterator) :
  (List.length accounts + List.length storages + 1 < fuel)%nat ->
  drain snapshotNext fuel (Exporters.newSnapshotIterator accounts storages)
    = ((OpBatchDel, SnapshotRootKey, [], true) ::
       map added (filter (fun kv => isAccountKey (fst kv)) accounts) ++
       map added (filter (fun kv => isStorageKey (fst kv)) storages))%list.
Proof.
  intros Hf. destruct fuel as [|fuel]; [lia|].
  cbn [drain].
  destruct (snapshotNext _) as [out it'] eqn:Hn.
  unfold Exporters.snapshotNext, Exporters.newSnapshotIterator in Hn.
  cbn [Exporters.init negb Exporters.account Exporters.storage] in Hn.
  inversion Hn; subst.
  rewrite snapshotIterator_drain_started by lia. reflexivity.
Qed.


End ExporterProofs.

Lemma preimageIterator_drain_witness :
  (List.length Demo.database < 6)%nat /\
  drain (Exporters.preimageNext Demo.OpBatchAdd Demo.PreimagePrefix) 6
        Demo.database
  = [(Demo.OpBatchAdd, Demo.preimageKey, [Byte.xde; Byte.xad], true)].
Proof.
  assert (H : (List.length Demo.database < 6)%nat) by (simpl; lia).
  split; [exact H|].
  exact (preimageIterator_drain Demo.OpBatchAdd Demo.PreimagePrefix 6
           Demo.database H).
Defined.

Lemma snapshotIterator_drain_witness :
  (List.length Demo.database + List.length Demo.database + 1 < 12)%nat /\
  drain (Exporters.snapshotNext Demo.OpBatchAdd Demo.OpBatchDel
           Demo.SnapshotAccountPrefix Demo.SnapshotStoragePrefix
           Demo.SnapshotRootKey)
        12 (Exporters.newSnapshotIterator Demo.database Demo.database)
  = [(Demo.OpBatchDel, Demo.SnapshotRootKey, [], true);
     (Demo.OpBatchAdd, Demo.accountKey, Sample.aliceBlob, true);
     (Demo.OpBatchAdd, Demo.storageKey, [Byte.x2a], true)].
Proof.
  assert (H : (List.length Demo.database + List.length Demo.database + 1
               < 12)%nat) by (simpl; lia).
  split; [exact H|].
  exact (snapshotIterator_drain Demo.OpBatchAdd Demo.OpBatchDel
           Demo.SnapshotAccountPrefix Demo.SnapshotStoragePrefix
           Demo.SnapshotRootKey 12 Demo.database Demo.database H).
Defined.


(** ** check-state-content, dumptrie *)

Ltac prog_unfold :=
  cbv [prun pbind pret preturn ppanic call pFatalf Tools.logInfo
       Tools.logError Tools.Printf Tools.returnErrorf Tools.removeFolder
       fst snd].

Lemma int_zero : int 0 = 0.
Proof. reflexivity. Qed.

Lemma checkLoop_spec E entries : forall e0 c0 t,
  Tools.checkLoop E (int e0) (int c0) entries t
  = (Next (int (e0 + Z.of_nat (List.length (mismatches E entries))),
           int (c0 + Z.of_nat (List.length entries))),
     (t ++ flat_map (mismatchReport E) (mismatches E entries))%list).
Proof.
  induction entries as [|[k v] entries IH]; intros e0 c0 t.
  - simpl. rewrite !Z.add_0_r, app_nil_r. reflexivity.
  - cbn [Tools.checkLoop mismatches filter fst snd].
    destruct (negb (bytes_eqb k (Tools.Keccak256 E v))) eqn:Hk.
    + prog_unfold. rewrite !inc_int, IH.
      cbn [List.length flat_map mismatchReport fst snd].
      fold (mismatches E entries).
      rewrite <- !app_assoc. cbn [app]. rewrite !Nat2Z.inj_succ.
      replace (e0 + 1 + Z.of_nat (List.length (mismatches E entries)))
        with (e0 + Z.succ (Z.of_nat (List.length (mismatches E entries))))
        by lia.
      replace (c0 + 1 + Z.of_nat (List.length entries))
        with (c0 + Z.succ (Z.of_nat (List.length entries))) by lia.
      reflexivity.
    + rewrite inc_int, IH. fold (mismatches E entries).
      cbn [List.length]. rewrite !Nat2Z.inj_succ.
      replace (c0 + 1 + Z.of_nat (List.length entries))
        with (c0 + Z.succ (Z.of_nat (List.length entries))) by lia.
      reflexivity.
Qed.

(** X4.  check-state-content never fails on a mismatch.  With its argument
    accepted it returns what the state iterator's [Error()] holds, nil if
    nothing; what it prints is the report of every entry whose key is not
    the digest of its value, in database order, and its closing record
    counts those entries as [errors] and all entries as [items]. *)
Theorem checkStateContent_reports E ctx start :
  (NArg ctx = 0 /\ start = [] \/
   NArg ctx = 1 /\ Tools.Decode E (First ctx) = Ok start) ->
  let it := Tools.NewKeyLengthIterator E [] start in
  let r := prun (Tools.checkStateContent E ctx) in
  fst r = Returned (DbIterError it) /\
  snd r =
    ([OMakeConfigNode; OMakeChainDatabase true; ONewIterator [] start]
     ++ flat_map (mismatchReport E) (mismatches E (Entries it))
     ++ match DbIterError it with
        | Some _ => []
        | None =>
            [OLog LvlInfo "Iterated the state content"
               [("errors",
                 Tools.vInt
                   (int (Z.of_nat
                           (List.length (mismatches E (Entries it))))));
                ("items",
                 Tools.vInt (int (Z.of_nat (List.length (Entries it)))))]]
        end)%list.
Proof.
  intros Ha. unfold Tools.checkStateContent.
  assert (Hc : forall t,
    Tools.checkLoop E 0 0 (Entries (Tools.NewKeyLengthIterator E [] start)) t
    = (Next (int (Z.of_nat (List.length (mismatches E
               (Entries (Tools.NewKeyLengthIterator E [] start))))),
             int (Z.of_nat (List.length
               (Entries (Tools.NewKeyLengthIterator E [] start))))),
       (t ++ flat_map (mismatchReport E) (mismatches E
               (Entries (Tools.NewKeyLengthIterator E [] start))))%list)).
  { intros t. rewrite <- int_zero at 1. rewrite <- int_zero at 2.
    rewrite checkLoop_spec. reflexivity. }
  destruct Ha as [[Hn ->]|[Hn Hd]]; prog_unfold; rewrite Hn; simpl;
    try rewrite Hd; rewrite Hc;
    destruct (DbIterError (Tools.NewKeyLengthIterator E [] _)); simpl;
    (split; [reflexivity|]); rewrite ?app_nil_r; reflexivity.
Qed.

Lemma checkStateContent_reports_witness :
  NArg Sample.noArgs = 0 /\
  prun (Tools.checkStateContent Demo.plain Sample.noArgs)
  = (Returned None,
     [OMakeConfigNode; OMakeChainDatabase true; ONewIterator [] [];
      OPrintf "Error at %#x\n" [Tools.vBytes Sample.storageRoot];
      OPrintf "  Hash:  %#x\n" [Tools.vBytes (repeat Byte.x23 32)];
      OPrintf "  Data:  %#x\n" [Tools.vBytes [Byte.x23; Byte.x07]];
      OLog LvlInfo "Iterated the state content"
           [("errors", Tools.vInt 1); ("items", Tools.vInt 2)]]).
Proof.
  assert (H : NArg Sample.noArgs = 0) by reflexivity.
  split; [exact H|].
  destruct (checkStateContent_reports Demo.plain Sample.noArgs []
              (or_introl (conj H eq_refl))) as [H1 H2].
  apply injective_projections; [exact H1 | exact H2].
Defined.

Lemma int_small z : 0 <= z < 2 ^ 63 -> int z = z.
Proof.
  intros H. unfold int. rewrite Z.mod_small; lia.
Qed.

Lemma dumpLines_cons i kv leaves :
  dumpLines i (kv :: leaves) = dumpLine i kv :: dumpLines (S i) leaves.
Proof. reflexivity. Qed.

Lemma dumpLoop_unlimited max err leaves : forall i t,
  max <= 0 ->
  Tools.dumpLoop max (int (Z.of_nat i)) leaves err t
  = (Next err, (t ++ dumpLines i leaves)%list).
Proof.
  induction leaves as [|[k v] leaves IH]; intros i t Hmax.
  - simpl. rewrite app_nil_r. reflexivity.
  - cbn [Tools.dumpLoop].
    replace (max >? 0)%Z with false
      by (symmetry; rewrite Z.gtb_ltb; apply Z.ltb_ge; lia).
    cbn [andb]. prog_unfold. unfold Tools.inc64. rewrite int_add.
    replace (Z.of_nat i + 1) with (Z.of_nat (S i)) by lia.
    rewrite IH by assumption. rewrite dumpLines_cons, <- app_assoc.
    reflexivity.
Qed.

Lemma dumpLoop_limited max err leaves : forall i t,
  0 < max < 2 ^ 63 -> Z.of_nat i <= max ->
  Tools.dumpLoop max (int (Z.of_nat i)) leaves err t
  = if (Z.of_nat (List.length leaves) <=? max - Z.of_nat i)
    then (Next err, (t ++ dumpLines i leaves)%list)
    else (Next None,
          (t ++ dumpLines i (firstn (Z.to_nat max - i) leaves)
             ++ [OPrintf "Exiting after %d values\n" [Tools.vInt max]])%list).
Proof.
  induction leaves as [|[k v] leaves IH]; intros i t Hmax Hi.
  - simpl. replace (0 <=? max - Z.of_nat i) with true
      by (symmetry; apply Z.leb_le; lia).
    rewrite app_nil_r. reflexivity.
  - cbn [Tools.dumpLoop].
    replace (max >? 0)%Z with true
      by (symmetry; rewrite Z.gtb_ltb; apply Z.ltb_lt; lia).
    cbn [andb].
    assert (Hs : int (Z.of_nat i) = Z.of_nat i) by (apply int_small; lia).
    destruct (int (Z.of_nat i) =? max)%Z eqn:He; rewrite Hs in He.
    + apply Z.eqb_eq in He. prog_unfold.
      replace (Z.of_nat (List.length ((k, v) :: leaves)) <=? max - Z.of_nat i)
        with false by (symmetry; apply Z.leb_gt; cbn [List.length]; lia).
      replace (Z.to_nat max - i)%nat with 0%nat by lia.
      rewrite Hs, He. reflexivity.
    + apply Z.eqb_neq in He. prog_unfold. unfold Tools.inc64.
      rewrite int_add.
      replace (Z.of_nat i + 1) with (Z.of_nat (S i)) by lia.
      rewrite IH by lia.
      replace (max - Z.of_nat (S i)) with (max - Z.of_nat i - 1) by lia.
      cbn [List.length]. rewrite Nat2Z.inj_succ.
      destruct (Z.of_nat (List.length leaves) <=? max - Z.of_nat i - 1) eqn:Hl.
      * replace (Z.succ (Z.of_nat (List.length leaves)) <=? max - Z.of_nat i)
          with true by (symmetry; apply Z.leb_le; apply Z.leb_le in Hl; lia).
        rewrite dumpLines_cons, <- app_assoc. reflexivity.
      * replace (Z.succ (Z.of_nat (List.length leaves)) <=? max - Z.of_nat i)
          with false by (symmetry; apply Z.leb_gt; apply Z.leb_gt in Hl; lia).
        replace (Z.to_nat max - i)%nat with (S (Z.to_nat max - S i))%nat by lia.
        cbn [firstn]. rewrite dumpLines_cons, <- !app_assoc. reflexivity.
Qed.

Lemma dbDumpTrie_run E ctx id start max trieIt :
  dumpArgs E ctx id start max ->
  Tools.TrieNew E id = None ->
  Tools.NodeIterator E id start = Ok trieIt ->
  prun (Tools.dbDumpTrie E ctx)
  = match Tools.dumpLoop max 0 (Leaves (NewIterator trieIt))
                         (IterErr (NewIterator trieIt))
                         (dumpOpening id start) with
    | (Next err, t) => (Returned err, t)
    | (Done o, t) => (o, t)
    end.
Proof.
  intros (Hn & (state & account & storage & H0 & H1 & H2 & ->) & Hs & Hm)
         Ht Hi.
  assert (L3 : (NArg ctx <? 3) = false) by (apply Z.ltb_ge; lia).
  unfold Tools.dbDumpTrie. prog_unfold. rewrite L3, H0, H1, H2.
  destruct Hs as [[Hle ->]|[Hlt Hd]];
    [ assert (G3 : (NArg ctx >? 3) = false)
        by (rewrite Z.gtb_ltb; apply Z.ltb_ge; lia)
    | assert (G3 : (NArg ctx >? 3) = true)
        by (rewrite Z.gtb_ltb; apply Z.ltb_lt; lia) ];
    rewrite G3; try rewrite Hd;
    (destruct Hm as [[Hle' ->]|[Hlt' Hd']];
     [ assert (G4 : (NArg ctx >? 4) = false)
         by (rewrite Z.gtb_ltb; apply Z.ltb_ge; lia)
     | assert (G4 : (NArg ctx >? 4) = true)
         by (rewrite Z.gtb_ltb; apply Z.ltb_lt; lia) ];
     rewrite G4; try rewrite Hd');
    simpl; rewrite Ht, Hi; simpl; unfold dumpOpening;
    destruct (Tools.dumpLoop _ _ _ _ _) as [[err|o] t]; reflexivity.
Qed.

(** X5.  dumptrie without a positive limit -- the default -1, and 0 as
    well -- prints every leaf of the trie, numbered from 0, and returns the
    iterator's error. *)
Theorem dbDumpTrie_unlimited E ctx id start max trieIt :
  dumpArgs E ctx id start max ->
  Tools.TrieNew E id = None ->
  Tools.NodeIterator E id start = Ok trieIt ->
  max <= 0 ->
  prun (Tools.dbDumpTrie E ctx)
  = (Returned (ItError trieIt),
     (dumpOpening id start
        ++ dumpLines 0 (Leaves (NewIterator trieIt)))%list).
Proof.
  intros Ha Ht Hi Hmax. rewrite (dbDumpTrie_run _ _ _ _ _ _ Ha Ht Hi).
  rewrite (dumpLoop_unlimited max _ _ 0 _ Hmax). reflexivity.
Qed.

Lemma dbDumpTrie_unlimited_witness :
  dumpArgs Demo.plain
           (Demo.args [Demo.stateArg; Demo.accountArg; Demo.storageArg])
           Demo.trieID [] (-1) /\
  prun (Tools.dbDumpTrie Demo.plain
          (Demo.args [Demo.stateArg; Demo.accountArg; Demo.storageArg]))
  = (Returned None,
     (dumpOpening Demo.trieID []
        ++ [dumpLine 0 (Sample.aliceKey, Sample.aliceBlob);
            dumpLine 1 (Sample.bobKey, Sample.bobBlob)])%list).
Proof.
  assert (H : dumpArgs Demo.plain
                (Demo.args [Demo.stateArg; Demo.accountArg; Demo.storageArg])
                Demo.trieID [] (-1)).
  { split; [vm_compute; discriminate|].
    split; [exists Sample.stateRoot, Sample.aliceKey, Sample.storageRoot;
            split; [reflexivity|]; split; [reflexivity|];
            split; reflexivity|].
    split; left; (split; [vm_compute; discriminate|reflexivity]). }
  split; [exact H|].
  exact (dbDumpTrie_unlimited Demo.plain _ Demo.trieID [] (-1)
           Demo.trieIterator H eq_refl eq_refl ltac:(lia)).
Defined.

(** X6.  dumptrie with a limit [max] prints the first [max] leaves.  When
    the trie has more, it then prints "Exiting after max values" and
    returns nil, whatever the iterator would have reported; when it has
    [max] leaves or fewer, it prints them all and returns the iterator's
    error. *)
Theorem dbDumpTrie_limited E ctx id start max trieIt :
  dumpArgs E ctx id start max ->
  Tools.TrieNew E id = None ->
  Tools.NodeIterator E id start = Ok trieIt ->
  0 < max < 2 ^ 63 ->
  let leaves := Leaves (NewIterator trieIt) in
  prun (Tools.dbDumpTrie E ctx)
  = if Z.of_nat (List.length leaves) <=? max
    then (Returned (ItError trieIt),
          (dumpOpening id start ++ dumpLines 0 leaves)%list)
    else (Returned None,
          (dumpOpening id start
             ++ dumpLines 0 (firstn (Z.to_nat max) leaves)
             ++ [OPrintf "Exiting after %d values\n" [Tools.vInt max]])%list).
Proof.
  intros Ha Ht Hi Hmax leaves. rewrite (dbDumpTrie_run _ _ _ _ _ _ Ha Ht Hi).
  pose proof (dumpLoop_limited max (IterErr (NewIterator trieIt)) leaves 0
                (dumpOpening id start) Hmax) as Hl.
  change (int (Z.of_nat 0)) with 0 in Hl. change (Z.of_nat 0) with 0 in Hl.
  rewrite Z.sub_0_r, Nat.sub_0_r in Hl. fold leaves. rewrite Hl by lia.
  destruct (Z.of_nat (List.length leaves) <=? max); reflexivity.
Qed.

Lemma dbDumpTrie_limited_witness :
  dumpArgs Demo.plain
           (Demo.args [Demo.stateArg; Demo.accountArg; Demo.storageArg;
                       "0x"; "1"])
           Demo.trieID [] 1 /\
  prun (Tools.dbDumpTrie Demo.plain
          (Demo.args [Demo.stateArg; Demo.accountArg; Demo.storageArg;
                      "0x"; "1"]))
  = (Returned None,
     (dumpOpening Demo.trieID []
        ++ [dumpLine 0 (Sample.aliceKey, Sample.aliceBlob);
            OPrintf "Exiting after %d values\n" [Tools.vInt 1]])%list).
Proof.
  assert (H : dumpArgs Demo.plain
                (Demo.args [Demo.stateArg; Demo.accountArg; Demo.storageArg;
                            "0x"; "1"])
                Demo.trieID [] 1).
  { split; [vm_compute; discriminate|].
    split; [exists Sample.stateRoot, Sample.aliceKey, Sample.storageRoot;
            split; [reflexivity|]; split; [reflexivity|];
            split; reflexivity|].
    split; right; (split; [reflexivity|reflexivity]). }
  split; [exact H|].
  exact (dbDumpTrie_limited Demo.plain _ Demo.trieID [] 1
           Demo.trieIterator H eq_refl eq_refl ltac:(lia)).
Defined.

(** ** get, put, delete, trie-delete, removedb *)

Ltac prog_cases := repeat (split_match; simpl).

(** X7.  put writes at most once.  With both arguments decoded it makes
    exactly one write, of the decoded value under the decoded key, to the
    state store when there is a separate one and the key is state data,
    to the chain database otherwise, and returns what that write returns
    -- whether or not the key had a value before.  Otherwise it fails
    without a write. *)
Theorem dbPut_writes_once E ctx :
  let r := prun (Tools.dbPut E ctx) in
  (forall key value,
      NArg ctx = 2 ->
      Tools.ParseHexOrString E (Get ctx 0) = Ok key ->
      Tools.Decode E (Get ctx 1) = Ok value ->
      filter isMutation (snd r) = [OPut (routed E key) key value] /\
      fst r = Returned (Tools.DbPut E (routed E key) key value)) /\
  ((NArg ctx <> 2 \/
    (exists e, Tools.ParseHexOrString E (Get ctx 0) = Err e) \/
    (exists e, Tools.Decode E (Get ctx 1) = Err e)) ->
   filter isMutation (snd r) = [] /\
   exists e, fst r = Returned (Some e)).
Proof.
  unfold Tools.dbPut, routed. split.
  - intros key value Hn Hk Hv. prog_unfold. rewrite Hn, Hk, Hv. simpl.
    destruct (Tools.DbGet E _ key); simpl; auto.
  - intros H. prog_unfold.
    destruct (NArg ctx =? 2) eqn:Hn; simpl; [|eauto].
    apply Z.eqb_eq in Hn.
    destruct (Tools.ParseHexOrString E (Get ctx 0)) as [key|e] eqn:Hk;
      simpl; [|eauto].
    destruct (Tools.Decode E (Get ctx 1)) as [value|e] eqn:Hv;
      simpl; [|eauto].
    destruct H as [H|[[e H]|[e H]]]; congruence.
Qed.

Lemma dbPut_writes_once_witness :
  NArg (Demo.args ["0x61a1"; "0x2a"]) = 2 /\
  filter isMutation (snd (prun (Tools.dbPut Demo.plain
                                  (Demo.args ["0x61a1"; "0x2a"]))))
  = [OPut StateStore [Byte.x61; Byte.xa1] [Byte.x2a]] /\
  filter isMutation (snd (prun (Tools.dbPut Demo.plain
                                  (Demo.args ["0x61a1"; "2a"]))))
  = [].
Proof.
  assert (H : NArg (Demo.args ["0x61a1"; "0x2a"]) = 2) by reflexivity.
  split; [exact H|]. split.
  - exact (proj1 (proj1 (dbPut_writes_once Demo.plain
                           (Demo.args ["0x61a1"; "0x2a"]))
                    [Byte.x61; Byte.xa1] [Byte.x2a] H eq_refl eq_refl)).
  - exact (proj1 (proj2 (dbPut_writes_once Demo.plain
                           (Demo.args ["0x61a1"; "2a"]))
                    (or_intror (or_intror
                       (ex_intro _ "hex string without 0x prefix" eq_refl))))).
Defined.

(** X8.  delete does not ask whether the key is there.  With its argument
    decoded it makes exactly one deletion, in the store the key is routed
    to, and returns what the deletion returns, whatever the lookup before
    it gave. *)
Theorem dbDelete_deletes_once E ctx key :
  NArg ctx = 1 ->
  Tools.ParseHexOrString E (Get ctx 0) = Ok key ->
  let r := prun (Tools.dbDelete E ctx) in
  filter isMutation (snd r) = [ODelete (routed E key) key] /\
  fst r = Returned (Tools.DbDelete E (routed E key) key).
Proof.
  intros Hn Hk. unfold Tools.dbDelete, routed. prog_unfold.
  rewrite Hn, Hk. simpl.
  destruct (Tools.DbGet E _ key); simpl;
    destruct (Tools.DbDelete E _ key); simpl; auto.
Qed.

Lemma dbDelete_deletes_once_witness :
  NArg (Demo.args ["SnapshotRoot"]) = 1 /\
  Tools.ParseHexOrString Demo.plain (Get (Demo.args ["SnapshotRoot"]) 0)
  = Ok Demo.SnapshotRootKey /\
  filter isMutation (snd (prun (Tools.dbDelete Demo.plain
                                  (Demo.args ["SnapshotRoot"]))))
  = [ODelete ChainDB Demo.SnapshotRootKey].
Proof.
  assert (H1 : NArg (Demo.args ["SnapshotRoot"]) = 1) by reflexivity.
  assert (H2 : Tools.ParseHexOrString Demo.plain
                 (Get (Demo.args ["SnapshotRoot"]) 0)
               = Ok Demo.SnapshotRootKey) by reflexivity.
  split; [exact H1|]. split; [exact H2|].
  exact (proj1 (dbDelete_deletes_once Demo.plain _ _ H1 H2)).
Defined.

(** X9.  trie-delete can report success without deleting anything: under
    the hash scheme with two arguments, and under a scheme that is neither
    the path scheme nor the hash scheme, it makes no deletion and returns
    nil. *)
Theorem dbTrieDelete_silent E ctx :
  1 <= NArg ctx <= 2 ->
  effectiveScheme E <> Tools.PathScheme E ->
  (effectiveScheme E <> Snapshot.HashScheme \/ NArg ctx = 2) ->
  let r := prun (Tools.dbTrieDelete E ctx) in
  fst r = Returned None /\ filter isMutation (snd r) = [].
Proof.
  intros Hn Hp Hh. unfold Tools.dbTrieDelete. prog_unfold.
  fold (effectiveScheme E).
  replace (NArg ctx <? 1) with false by (symmetry; apply Z.ltb_ge; lia).
  replace (NArg ctx >? 2) with false
    by (symmetry; rewrite Z.gtb_ltb; apply Z.ltb_ge; lia).
  apply String.eqb_neq in Hp. simpl. rewrite Hp.
  destruct Hh as [Hh|Hh].
  - apply String.eqb_neq in Hh. rewrite Hh. auto.
  - rewrite Hh. simpl.
    destruct (String.eqb (effectiveScheme E) Snapshot.HashScheme); auto.
Qed.

Lemma dbTrieDelete_silent_witness :
  1 <= NArg (Demo.args [Demo.accountArg; "0x0a"]) <= 2 /\
  effectiveScheme Demo.plain = "hash" /\
  prun (Tools.dbTrieDelete Demo.plain (Demo.args [Demo.accountArg; "0x0a"]))
  = (Returned None,
     [OMakeConfigNode; OMakeChainDatabase true;
      OLog LvlError "args too much" []]).
Proof.
  assert (H1 : 1 <= NArg (Demo.args [Demo.accountArg; "0x0a"]) <= 2)
    by (vm_compute; split; discriminate).
  assert (H2 : effectiveScheme Demo.plain <> Tools.PathScheme Demo.plain)
    by (vm_compute; discriminate).
  split; [exact H1|]. split; [reflexivity|].
  destruct (dbTrieDelete_silent Demo.plain _ H1 H2 (or_intror eq_refl))
    as [H3 _].
  apply injective_projections; [exact H3 | reflexivity].
Defined.

(** X10.  trie-delete under the hash scheme -- also when no scheme flag is
    given -- with one decodable argument deletes exactly that key from the
    state store. *)
Theorem dbTrieDelete_hash E ctx hashKey :
  NArg ctx = 1 ->
  effectiveScheme E = Snapshot.HashScheme ->
  Tools.PathScheme E <> Snapshot.HashScheme ->
  Tools.Decode E (Get ctx 0) = Ok hashKey ->
  let r := prun (Tools.dbTrieDelete E ctx) in
  filter isMutation (snd r) = [ODelete StateStore hashKey] /\
  fst r = Returned (Tools.DbDelete E StateStore hashKey).
Proof.
  intros Hn Hs Hp Hd. unfold Tools.dbTrieDelete. prog_unfold.
  fold (effectiveScheme E).
  assert (Hp' : String.eqb Snapshot.HashScheme (Tools.PathScheme E) = false)
    by (apply String.eqb_neq; congruence).
  rewrite Hs, Hp', Hn, Hd. simpl.
  destruct (Tools.DbDelete E StateStore hashKey); auto.
Qed.

Lemma dbTrieDelete_hash_witness :
  NArg (Demo.args [Demo.stateArg]) = 1 /\
  effectiveScheme Demo.plain = Snapshot.HashScheme /\
  filter isMutation
         (snd (prun (Tools.dbTrieDelete Demo.plain
                       (Demo.args [Demo.stateArg]))))
  = [ODelete StateStore Sample.stateRoot].
Proof.
  assert (H1 : NArg (Demo.args [Demo.stateArg]) = 1) by reflexivity.
  assert (H2 : effectiveScheme Demo.plain = Snapshot.HashScheme)
    by reflexivity.
  assert (H3 : Tools.PathScheme Demo.plain <> Snapshot.HashScheme)
    by (vm_compute; discriminate).
  split; [exact H1|]. split; [exact H2|].
  exact (proj1 (dbTrieDelete_hash Demo.plain _ Sample.stateRoot
                  H1 H2 H3 eq_refl)).
Defined.

Lemma removeEach_spec E paths : forall deleted t,
  exists t',
    Tools.removeEach E deleted paths t
    = (Next (deleted ++ filter (Tools.FileExist E) paths)%list,
       (t ++ t')%list) /\
    filter isRemoval t' = removals E paths /\
    filter isPrompt t' = [].
Proof.
  induction paths as [|p paths IH]; intros deleted t.
  - exists []. simpl. rewrite !app_nil_r. auto.
  - cbn [Tools.removeEach filter]. unfold removals. cbn [filter].
    destruct (Tools.FileExist E p); prog_unfold.
    + destruct (IH (deleted ++ [p])%list (t ++ [ORemoveFolder p])%list)
        as (t' & H1 & H2 & H3).
      exists (ORemoveFolder p :: t'). rewrite H1.
      rewrite <- !app_assoc. simpl. rewrite H2, H3. auto.
    + destruct (IH deleted
                  (t ++ [OLog LvlInfo "Folder is not existent"
                           [("path", Tools.vStr p)]])%list)
        as (t' & H1 & H2 & H3).
      eexists (_ :: t'). rewrite H1.
      rewrite <- !app_assoc. simpl. rewrite H2, H3. auto.
Qed.

Lemma confirmAndRemoveDB_spec E paths kind flag t :
  exists t',
    snd (Tools.confirmAndRemoveDB E paths kind flag t) = (t ++ t')%list /\
    match removalAnswer E flag kind with
    | Err _ =>
        fst (Tools.confirmAndRemoveDB E paths kind flag t)
          = Done (Exited 1) /\
        filter isRemoval t' = []
    | Ok false =>
        fst (Tools.confirmAndRemoveDB E paths kind flag t) = Next tt /\
        filter isRemoval t' = []
    | Ok true =>
        fst (Tools.confirmAndRemoveDB E paths kind flag t) = Next tt /\
        filter isRemoval t' = removals E paths
    end.
Proof.
  unfold Tools.confirmAndRemoveDB, removalAnswer. prog_unfold.
  destruct (Tools.IsSet E flag).
  - destruct (Tools.FlagBool E flag); simpl.
    + match goal with
      | |- context [Tools.removeEach E [] paths ?t0] =>
          destruct (removeEach_spec E paths [] t0) as (t' & H1 & H2 & _)
      end.
      rewrite H1. simpl. eexists. rewrite <- !app_assoc.
      split; [reflexivity|]. split; [reflexivity|].
      simpl. rewrite filter_app, H2. simpl. apply app_nil_r.
    + eexists. rewrite <- !app_assoc. split; [reflexivity|]. auto.
  - simpl. destruct (Tools.PromptConfirm E _) as [[|]|e]; simpl.
    + match goal with
      | |- context [Tools.removeEach E [] paths ?t0] =>
          destruct (removeEach_spec E paths [] t0) as (t' & H1 & H2 & _)
      end.
      rewrite H1. simpl. eexists. rewrite <- !app_assoc.
      split; [reflexivity|]. split; [reflexivity|].
      simpl. rewrite filter_app, H2. simpl. apply app_nil_r.
    + eexists. rewrite <- !app_assoc. split; [reflexivity|]. auto.
    + eexists. rewrite <- !app_assoc. split; [reflexivity|]. auto.
Qed.

(** X11.  removedb removes only what was confirmed.  With an answer for the
    state data and an answer for the ancient chain, the folders it removes
    are the existing ones among the chain data folder and the two state
    freezers when the first answer is yes, followed by the chain freezer
    when the second is yes and it exists -- and nothing else; it returns
    nil. *)
Theorem removeDB_only_confirmed E ctx a1 a2 :
  removalAnswer E Tools.removeStateDataFlag "state data" = Ok a1 ->
  removalAnswer E Tools.removeChainDataFlag "ancient chain" = Ok a2 ->
  let r := prun (Tools.removeDB E ctx) in
  fst r = Returned None /\
  filter isRemoval (snd r)
  = ((if a1 then removals E (statePaths E) else []) ++
     (if a2 then removals E (chainPaths E) else []))%list.
Proof.
  intros H1 H2. unfold Tools.removeDB. prog_unfold.
  fold (freezerDir E).
  change [Tools.ResolvePath E "chaindata";
          Tools.Join E (freezerDir E) (Tools.MerkleStateFreezerName E);
          Tools.Join E (freezerDir E) (Tools.VerkleStateFreezerName E)]
    with (statePaths E).
  change [Tools.Join E (freezerDir E) (Tools.ChainFreezerName E)]
    with (chainPaths E).
  destruct (confirmAndRemoveDB_spec E (statePaths E) "state data"
              Tools.removeStateDataFlag ([] ++ [OMakeConfigNode])%list)
    as (t1 & Hs1 & Hc1).
  rewrite H1 in Hc1.
  destruct (Tools.confirmAndRemoveDB E (statePaths E) "state data" _ _)
    as [s1 w1] eqn:Hrun1.
  simpl in Hs1, Hc1. subst w1.
  destruct (confirmAndRemoveDB_spec E (chainPaths E) "ancient chain"
              Tools.removeChainDataFlag (OMakeConfigNode :: t1))
    as (t2 & Hs2 & Hc2).
  rewrite H2 in Hc2.
  assert (Hn1 : s1 = Next tt) by (destruct a1; apply Hc1).
  subst s1.
  destruct (Tools.confirmAndRemoveDB E (chainPaths E) "ancient chain" _ _)
    as [s2 w2] eqn:Hrun2.
  simpl in Hs2, Hc2. subst w2.
  assert (Hn2 : s2 = Next tt) by (destruct a2; apply Hc2).
  subst s2. simpl. split; [reflexivity|].
  rewrite filter_app.
  destruct a1, a2; destruct Hc1 as [_ ->]; destruct Hc2 as [_ ->];
    reflexivity.
Qed.

Lemma removeDB_only_confirmed_witness :
  removalAnswer Demo.stateOnly Tools.removeStateDataFlag "state data"
  = Ok true /\
  removalAnswer Demo.stateOnly Tools.removeChainDataFlag "ancient chain"
  = Ok false /\
  filter isRemoval (snd (prun (Tools.removeDB Demo.stateOnly Sample.noArgs)))
  = [ORemoveFolder "/data/geth/chaindata";
     ORemoveFolder "/data/geth/chaindata/ancient/state"].
Proof.
  assert (H1 : removalAnswer Demo.stateOnly Tools.removeStateDataFlag
                 "state data" = Ok true) by reflexivity.
  assert (H2 : removalAnswer Demo.stateOnly Tools.removeChainDataFlag
                 "ancient chain" = Ok false) by reflexivity.
  split; [exact H1|]. split; [exact H2|].
  exact (proj2 (removeDB_only_confirmed Demo.stateOnly Sample.noArgs
                  true false H1 H2)).
Defined.

(** X12.  A failed prompt ends removedb on the spot with status 1: before
    anything is removed when it is the prompt for the state data, and after
    the confirmed state data has been removed when it is the prompt for the
    ancient chain. *)
Theorem removeDB_prompt_failure E ctx :
  let r := prun (Tools.removeDB E ctx) in
  (forall e,
      removalAnswer E Tools.removeStateDataFlag "state data" = Err e ->
      fst r = Exited 1 /\ filter isRemoval (snd r) = []) /\
  (forall a1 e,
      removalAnswer E Tools.removeStateDataFlag "state data" = Ok a1 ->
      removalAnswer E Tools.removeChainDataFlag "ancient chain" = Err e ->
      fst r = Exited 1 /\
      filter isRemoval (snd r)
      = if a1 then removals E (statePaths E) else []).
Proof.
  unfold Tools.removeDB. prog_unfold. fold (freezerDir E).
  change [Tools.ResolvePath E "chaindata";
          Tools.Join E (freezerDir E) (Tools.MerkleStateFreezerName E);
          Tools.Join E (freezerDir E) (Tools.VerkleStateFreezerName E)]
    with (statePaths E).
  change [Tools.Join E (freezerDir E) (Tools.ChainFreezerName E)]
    with (chainPaths E).
  destruct (confirmAndRemoveDB_spec E (statePaths E) "state data"
              Tools.removeStateDataFlag ([] ++ [OMakeConfigNode])%list)
    as (t1 & Hs1 & Hc1).
  destruct (Tools.confirmAndRemoveDB E (statePaths E) "state data" _ _)
    as [s1 w1] eqn:Hrun1.
  simpl in Hs1, Hc1. subst w1. split.
  - intros e He. rewrite He in Hc1. destruct Hc1 as [-> Hc1]. simpl. auto.
  - intros a1 e Ha He. rewrite Ha in Hc1.
    destruct (confirmAndRemoveDB_spec E (chainPaths E) "ancient chain"
                Tools.removeChainDataFlag (OMakeConfigNode :: t1))
      as (t2 & Hs2 & Hc2).
    rewrite He in Hc2.
    assert (Hn1 : s1 = Next tt) by (destruct a1; apply Hc1).
    subst s1.
    destruct (Tools.confirmAndRemoveDB E (chainPaths E) "ancient chain" _ _)
      as [s2 w2] eqn:Hrun2.
    simpl in Hs2, Hc2. subst w2. destruct Hc2 as [-> Hc2]. simpl.
    split; [reflexivity|]. rewrite filter_app, Hc2, app_nil_r.
    destruct a1; apply Hc1.
Qed.

Lemma removeDB_prompt_failure_witness :
  removalAnswer Demo.noTerminal Tools.removeStateDataFlag "state data"
  = Err "EOF" /\
  fst (prun (Tools.removeDB Demo.noTerminal Sample.noArgs)) = Exited 1 /\
  filter isRemoval (snd (prun (Tools.removeDB Demo.noTerminal Sample.noArgs)))
  = [].
Proof.
  assert (H : removalAnswer Demo.noTerminal Tools.removeStateDataFlag
                "state data" = Err "EOF") by reflexivity.
  split; [exact H|].
  exact (proj1 (removeDB_prompt_failure Demo.noTerminal Sample.noArgs)
           "EOF" H).
Defined.

(** ** inspect-history *)

Lemma listing_cons start b blocks o origins :
  listing start (b :: blocks) (o :: origins)
  = OHistoryLine start b (plainContent o) :: listing b blocks origins.
Proof. reflexivity. Qed.

Lemma accountLines_plain E blocks : forall pre os from t,
  (List.length blocks <= List.length os)%nat ->
  Tools.accountLines E false (pre ++ os) from (List.length pre) blocks t
  = (Next tt, (t ++ listing from blocks os)%list).
Proof.
  induction blocks as [|b blocks IH]; intros pre os from t Hl.
  - simpl. rewrite app_nil_r. reflexivity.
  - destruct os as [|o os]; [simpl in Hl; lia|].
    cbn [Tools.accountLines].
    rewrite nth_error_app2, Nat.sub_diag by lia. cbn [nth_error].
    prog_unfold.
    replace (pre ++ o :: os)%list with ((pre ++ [o]) ++ os)%list
      by (rewrite <- app_assoc; reflexivity).
    replace (S (List.length pre)) with (List.length (pre ++ [o])%list)
      by (rewrite length_app; simpl; lia).
    rewrite listing_cons. unfold plainContent.
    destruct (List.length o =? 0)%nat; cbn [negb];
      rewrite IH by (simpl in Hl; lia); rewrite <- app_assoc; reflexivity.
Qed.

Lemma storageLines_plain E blocks : forall pre os from t,
  (List.length blocks <= List.length os)%nat ->
  Tools.storageLines E false (pre ++ os) from (List.length pre) blocks t
  = (Next tt, (t ++ listing from blocks os)%list).
Proof.
  induction blocks as [|b blocks IH]; intros pre os from t Hl.
  - simpl. rewrite app_nil_r. reflexivity.
  - destruct os as [|o os]; [simpl in Hl; lia|].
    cbn [Tools.storageLines].
    rewrite nth_error_app2, Nat.sub_diag by lia. cbn [nth_error].
    prog_unfold.
    replace (pre ++ o :: os)%list with ((pre ++ [o]) ++ os)%list
      by (rewrite <- app_assoc; reflexivity).
    replace (S (List.length pre)) with (List.length (pre ++ [o])%list)
      by (rewrite length_app; simpl; lia).
    rewrite listing_cons. unfold plainContent.
    destruct (List.length o =? 0)%nat; cbn [negb];
      rewrite IH by (simpl in Hl; lia); rewrite <- app_assoc; reflexivity.
Qed.

(** X13.  A history listing that is not raw tiles the queried range: after
    the header it prints one line per block of the history, the first from
    the start of the range to the first block and each next one from the
    previous block to its own, with the origin in hex or "<empty>" for an
    empty origin -- for an account and for a storage slot alike. *)
Theorem history_listing_tiles E first last address slot stats :
  (List.length (Blocks stats) <= List.length (Origins stats))%nat ->
  (Tools.AccountHistory E address first last = Ok stats ->
   exists header,
     prun (Tools.inspectAccount E first last address false)
     = (Returned None,
        (OAccountHistory address first last :: header ::
         listing (HistStart stats) (Blocks stats) (Origins stats))%list)) /\
  (Tools.StorageHistory E address slot first last = Ok stats ->
   exists header,
     prun (Tools.inspectStorage E first last address slot false)
     = (Returned None,
        (OStorageHistory address slot first last :: header ::
         listing (HistStart stats) (Blocks stats) (Origins stats))%list)).
Proof.
  intros Hl. split; intros Hs.
  - unfold Tools.inspectAccount. prog_unfold. rewrite Hs. simpl.
    pose proof (accountLines_plain E (Blocks stats) [] (Origins stats)) as Ha.
    simpl in Ha. rewrite Ha by assumption. eexists. reflexivity.
  - unfold Tools.inspectStorage. prog_unfold. rewrite Hs. simpl.
    pose proof (storageLines_plain E (Blocks stats) [] (Origins stats)) as Ha.
    simpl in Ha. rewrite Ha by assumption. eexists. reflexivity.
Qed.

Lemma history_listing_tiles_witness :
  (List.length (Blocks Demo.history) <= List.length (Origins Demo.history))%nat
  /\
  Tools.AccountHistory Demo.plain Sample.aliceKey 0 0 = Ok Demo.history /\
  exists header,
    prun (Tools.inspectAccount Demo.plain 0 0 Sample.aliceKey false)
    = (Returned None,
       [OAccountHistory Sample.aliceKey 0 0; header;
        OHistoryLine 3 5 (Hex [Byte.xc0; Byte.x01]);
        OHistoryLine 5 9 Empty]).
Proof.
  assert (H1 : (List.length (Blocks Demo.history)
                <= List.length (Origins Demo.history))%nat)
    by (simpl; lia).
  assert (H2 : Tools.AccountHistory Demo.plain Sample.aliceKey 0 0
               = Ok Demo.history) by reflexivity.
  split; [exact H1|]. split; [exact H2|].
  exact (proj1 (history_listing_tiles Demo.plain 0 0 Sample.aliceKey
                  zeroHash Demo.history H1) H2).
Defined.

Lemma accountLines_no_query E raw origins blocks : forall from i t,
  exists t',
    snd (Tools.accountLines E raw origins from i blocks t) = (t ++ t')%list /\
    filter isHistoryQuery t' = [].
Proof.
  induction blocks as [|b blocks IH]; intros from i t.
  - exists []. simpl. rewrite app_nil_r. auto.
  - cbn [Tools.accountLines].
    destruct (nth_error origins i) as [o|];
      [|exists []; prog_unfold; rewrite app_nil_r; auto].
    prog_unfold.
    assert (Hgo : forall c,
      exists t',
        snd (Tools.accountLines E raw origins b (S i) blocks
               (t ++ [OHistoryLine from b c])%list) = (t ++ t')%list /\
        filter isHistoryQuery t' = []).
    { intros c.
      destruct (IH b (S i) (t ++ [OHistoryLine from b c])%list)
        as (t' & H1 & H2).
      exists (OHistoryLine from b c :: t'). rewrite H1, <- app_assoc. auto. }
    destruct (List.length o =? 0)%nat; [apply Hgo|].
    destruct raw; cbn [negb]; [|apply Hgo].
    destruct (Tools.DecodeSlimAccount E o); [apply Hgo|].
    exists []; rewrite app_nil_r; auto.
Qed.

Lemma storageLines_no_query E raw origins blocks : forall from i t,
  exists t',
    snd (Tools.storageLines E raw origins from i blocks t) = (t ++ t')%list /\
    filter isHistoryQuery t' = [].
Proof.
  induction blocks as [|b blocks IH]; intros from i t.
  - exists []. simpl. rewrite app_nil_r. auto.
  - cbn [Tools.storageLines].
    destruct (nth_error origins i) as [o|];
      [|exists []; prog_unfold; rewrite app_nil_r; auto].
    prog_unfold.
    assert (Hgo : forall c,
      exists t',
        snd (Tools.storageLines E raw origins b (S i) blocks
               (t ++ [OHistoryLine from b c])%list) = (t ++ t')%list /\
        filter isHistoryQuery t' = []).
    { intros c.
      destruct (IH b (S i) (t ++ [OHistoryLine from b c])%list)
        as (t' & H1 & H2).
      exists (OHistoryLine from b c :: t'). rewrite H1, <- app_assoc. auto. }
    destruct (List.length o =? 0)%nat; [apply Hgo|].
    destruct raw; cbn [negb]; [|apply Hgo].
    destruct (Tools.Split E o); [apply Hgo|].
    eexists; split; [reflexivity|reflexivity].
Qed.

Lemma inspectAccount_query E first last address raw t :
  filter isHistoryQuery
         (snd (Tools.inspectAccount E first last address raw t))
  = (filter isHistoryQuery t ++ [OAccountHistory address first last])%list.
Proof.
  unfold Tools.inspectAccount. prog_unfold.
  destruct (Tools.AccountHistory E address first last) as [stats|e]; simpl.
  - match goal with
    | |- context [Tools.accountLines E raw ?os ?f ?i ?bs ?t0] =>
        destruct (accountLines_no_query E raw os bs f i t0) as (t' & H1 & H2);
        destruct (Tools.accountLines E raw os f i bs t0) as [[[]|o] w]
    end; simpl in H1 |- *; subst w;
      rewrite ?filter_app, ?H2; simpl; rewrite ?filter_app, ?H2; simpl;
      rewrite ?app_nil_r; reflexivity.
  - rewrite filter_app. reflexivity.
Qed.

Lemma inspectStorage_query E first last address slot raw t :
  filter isHistoryQuery
         (snd (Tools.inspectStorage E first last address slot raw t))
  = (filter isHistoryQuery t
       ++ [OStorageHistory address slot first last])%list.
Proof.
  unfold Tools.inspectStorage. prog_unfold.
  destruct (Tools.StorageHistory E address slot first last) as [stats|e];
    simpl.
  - match goal with
    | |- context [Tools.storageLines E raw ?os ?f ?i ?bs ?t0] =>
        destruct (storageLines_no_query E raw os bs f i t0) as (t' & H1 & H2);
        destruct (Tools.storageLines E raw os f i bs t0) as [[[]|o] w]
    end; simpl in H1 |- *; subst w;
      rewrite ?filter_app, ?H2; simpl; rewrite ?filter_app, ?H2; simpl;
      rewrite ?app_nil_r; reflexivity.
  - rewrite filter_app. reflexivity.
Qed.

Lemma boundFor_program E flag (k : Z -> Prog unit) t :
  (let (s, t') :=
     (if negb (Tools.FlagUint64 E flag =? 0)
      then match Tools.blockToID E (Tools.FlagUint64 E flag) with
           | Ok id => fun t0 : list Op => (Next id, t0)
           | Err err => fun t0 : list Op => (Done (Returned (Some err)), t0)
           end
      else fun t0 : list Op => (Next 0, t0)) t in
   match s with
   | Next a => k a t'
   | Done o => (Done o, t')
   end)
  = match boundFor E flag with
    | Ok id => k id t
    | Err err => (Done (Returned (Some err)), t)
    end.
Proof.
  unfold boundFor.
  destruct (Tools.FlagUint64 E flag =? 0); simpl; [reflexivity|].
  destruct (Tools.blockToID E (Tools.FlagUint64 E flag)); reflexivity.
Qed.

(** X14.  inspect-history makes one history query.  With its arguments and
    range accepted it asks for the history of the storage slot when a slot
    other than the zero hash is given, and for the history of the account
    otherwise -- also when the slot given is the zero hash. *)
Theorem inspectHistory_query E ctx address slot first last :
  (NArg ctx = 1 /\ slot = zeroHash \/
   NArg ctx = 2 /\ Tools.UnmarshalHash E (Get ctx 1) = Ok slot) ->
  Tools.UnmarshalAddress E (Get ctx 0) = Ok address ->
  boundFor E "start" = Ok first ->
  boundFor E "end" = Ok last ->
  filter isHistoryQuery (snd (prun (Tools.inspectHistory E ctx)))
  = [if bytes_eqb slot zeroHash
     then OAccountHistory address first last
     else OStorageHistory address slot first last].
Proof.
  intros Hs Ha Hf Hl. unfold Tools.inspectHistory. prog_unfold.
  rewrite Ha.
  destruct Hs as [[Hn ->]|[Hn Hu]]; rewrite Hn; simpl; try rewrite Hu;
    rewrite (boundFor_program E "start"), Hf;
    rewrite (boundFor_program E "end"), Hl.
  - change (bytes_eqb zeroHash zeroHash) with true. cbn iota.
    match goal with
    | |- context [Tools.inspectAccount E first last address ?raw ?t0] =>
        pose proof (inspectAccount_query E first last address raw t0) as Hq;
        destruct (Tools.inspectAccount E first last address raw t0)
          as [[[]|o] w]
    end; simpl in Hq |- *; exact Hq.
  - destruct (bytes_eqb slot zeroHash).
    + match goal with
      | |- context [Tools.inspectAccount E first last address ?raw ?t0] =>
          pose proof (inspectAccount_query E first last address raw t0) as Hq;
          destruct (Tools.inspectAccount E first last address raw t0)
            as [[[]|o] w]
      end; simpl in Hq |- *; exact Hq.
    + match goal with
      | |- context [Tools.inspectStorage E first last address slot ?raw ?t0] =>
          pose proof (inspectStorage_query E first last address slot raw t0)
            as Hq;
          destruct (Tools.inspectStorage E first last address slot raw t0)
            as [[[]|o] w]
      end; simpl in Hq |- *; exact Hq.
Qed.

Lemma inspectHistory_query_witness :
  NArg (Demo.args [Demo.addressArg; Demo.storageArg]) = 2 /\
  Tools.UnmarshalHash Demo.plain
    (Get (Demo.args [Demo.addressArg; Demo.storageArg]) 1)
  = Ok Sample.storageRoot /\
  Tools.UnmarshalAddress Demo.plain
    (Get (Demo.args [Demo.addressArg; Demo.storageArg]) 0)
  = Ok (repeat Byte.xa1 20) /\
  boundFor Demo.plain "start" = Ok 0 /\
  boundFor Demo.plain "end" = Ok 0 /\
  filter isHistoryQuery
         (snd (prun (Tools.inspectHistory Demo.plain
                       (Demo.args [Demo.addressArg; Demo.storageArg]))))
  = [OStorageHistory (repeat Byte.xa1 20) Sample.storageRoot 0 0].
Proof.
  assert (H1 : NArg (Demo.args [Demo.addressArg; Demo.storageArg]) = 2)
    by reflexivity.
  assert (H2 : Tools.UnmarshalHash Demo.plain
                 (Get (Demo.args [Demo.addressArg; Demo.storageArg]) 1)
               = Ok Sample.storageRoot) by reflexivity.
  assert (H3 : Tools.UnmarshalAddress Demo.plain
                 (Get (Demo.args [Demo.addressArg; Demo.storageArg]) 0)
               = Ok (repeat Byte.xa1 20)) by reflexivity.
  assert (H4 : boundFor Demo.plain "start" = Ok 0) by reflexivity.
  assert (H5 : boundFor Demo.plain "end" = Ok 0) by reflexivity.
  split; [exact H1|]. split; [exact H2|]. split; [exact H3|].
  split; [exact H4|]. split; [exact H5|].
  exact (inspectHistory_query Demo.plain _ _ Sample.storageRoot 0 0
           (or_intror (conj H1 H2)) H3 H4 H5).
Defined.

(** X15.  inspect-history converts a nonzero start or end block to a state
    id before it asks for anything: when a conversion fails -- the block
    or its state history is not there -- that error is returned and no
    history query is made. *)
Theorem inspectHistory_bad_range E ctx address slot e :
  (NArg ctx = 1 /\ slot = zeroHash \/
   NArg ctx = 2 /\ Tools.UnmarshalHash E (Get ctx 1) = Ok slot) ->
  Tools.UnmarshalAddress E (Get ctx 0) = Ok address ->
  (boundFor E "start" = Err e \/
   (exists first, boundFor E "start" = Ok first) /\
   boundFor E "end" = Err e) ->
  let r := prun (Tools.inspectHistory E ctx) in
  fst r = Returned (Some e) /\ filter isHistoryQuery (snd r) = [].
Proof.
  intros Hs Ha Hb. unfold Tools.inspectHistory. prog_unfold.
  rewrite Ha.
  destruct Hs as [[Hn ->]|[Hn Hu]]; rewrite Hn; simpl; try rewrite Hu;
    rewrite (boundFor_program E "start");
    (destruct Hb as [Hb|[[first Hf] Hb]];
     [ rewrite Hb; auto
     | rewrite Hf, (boundFor_program E "end"), Hb; auto ]).
Qed.

Lemma inspectHistory_bad_range_witness :
  NArg (Demo.args [Demo.addressArg]) = 1 /\
  Tools.UnmarshalAddress Demo.beyondHead
    (Get (Demo.args [Demo.addressArg]) 0) = Ok (repeat Byte.xa1 20) /\
  boundFor Demo.beyondHead "start" = Err "block #%d is not existent" /\
  prun (Tools.inspectHistory Demo.beyondHead (Demo.args [Demo.addressArg]))
  = (Returned (Some "block #%d is not existent"),
     [OMakeConfigNode; OMakeChainDatabase true; OMakeTrieDatabase]).
Proof.
  assert (H1 : NArg (Demo.args [Demo.addressArg]) = 1) by reflexivity.
  assert (H2 : Tools.UnmarshalAddress Demo.beyondHead
                 (Get (Demo.args [Demo.addressArg]) 0)
               = Ok (repeat Byte.xa1 20)) by reflexivity.
  assert (H3 : boundFor Demo.beyondHead "start"
               = Err "block #%d is not existent") by reflexivity.
  split; [exact H1|]. split; [exact H2|]. split; [exact H3|].
  destruct (inspectHistory_bad_range Demo.beyondHead _ _ zeroHash _
              (or_introl (conj H1 eq_refl)) H2 (or_introl H3)) as [H4 _].
  apply injective_projections; [exact H4 | reflexivity].
Defined.

(** ** dump *)

Lemma encoded_app a b : encoded (a ++ b) = (encoded a ++ encoded b)%list.
Proof. unfold encoded. apply flat_map_app. Qed.

Lemma firstn_min_length {A} (m : nat) (l : list A) :
  firstn (Nat.min m (List.length l)) l = firstn m l.
Proof.
  destruct (Nat.le_gt_cases m (List.length l)) as [H|H].
  - rewrite Nat.min_l by assumption. reflexivity.
  - rewrite Nat.min_r by lia. rewrite firstn_all, firstn_all2 by lia.
    reflexivity.
Qed.

Lemma incU64_small k m :
  Z.of_nat k < m -> m < 2 ^ 64 -> Tools.incU64 (Z.of_nat k) = Z.of_nat (S k).
Proof.
  intros H1 H2. unfold Tools.incU64. rewrite Nat2Z.inj_succ.
  apply Z.mod_small. lia.
Qed.

Lemma dumpAccounts_step E conf root accounts hash slim rest t :
  dumpable E conf root (hash, slim) ->
  exists da ops,
    DumpAddressHash da = hash /\ encoded ops = [] /\
    Tools.dumpAccounts E conf root accounts ((hash, slim) :: rest) t
    = (if (Max conf >? 0) && (Tools.incU64 accounts >=? Max conf)
       then (Next (Tools.incU64 accounts), (t ++ ops ++ [OEncodeAccount da])%list)
       else Tools.dumpAccounts E conf root (Tools.incU64 accounts) rest
              (t ++ ops ++ [OEncodeAccount da])%list).
Proof.
  intros [[acc Ha] Hs]. cbn [Tools.dumpAccounts]. simpl in Ha, Hs.
  rewrite Ha. prog_unfold.
  destruct (SkipStorage conf); cbn [negb].
  - eexists; exists []; split; [|split; [reflexivity|]].
    2:{ rewrite app_nil_l.
        destruct ((Max conf >? 0) && (Tools.incU64 accounts >=? Max conf));
          reflexivity. }
    reflexivity.
  - destruct (Hs eq_refl) as [st Hst]. rewrite Hst.
    eexists; exists [OStorageIterator root hash];
      split; [|split; [reflexivity|]].
    2:{ rewrite <- app_assoc.
        destruct ((Max conf >? 0) && (Tools.incU64 accounts >=? Max conf));
          reflexivity. }
    reflexivity.
Qed.

Lemma dumpAccounts_unlimited E conf root accIt :
  Max conf = 0 -> Forall (dumpable E conf root) accIt ->
  forall accounts t, exists n t',
    Tools.dumpAccounts E conf root accounts accIt t = (Next n, t') /\
    encoded t' = (encoded t ++ map fst accIt)%list.
Proof.
  intros Hm. induction 1 as [|[hash slim] rest Hd _ IH]; intros accounts t.
  - exists accounts, t. simpl. rewrite app_nil_r. auto.
  - destruct (dumpAccounts_step E conf root accounts hash slim rest t Hd)
      as (da & ops & Hh & Ho & ->).
    rewrite Hm. cbn [Z.gtb Z.compare andb].
    destruct (IH (Tools.incU64 accounts) (t ++ ops ++ [OEncodeAccount da])%list)
      as (n & t' & -> & He).
    exists n, t'. split; [reflexivity|].
    rewrite He, !encoded_app, Ho. simpl. rewrite Hh, <- app_assoc.
    reflexivity.
Qed.

Lemma dumpAccounts_limited E conf root accIt :
  0 < Max conf < 2 ^ 64 -> Forall (dumpable E conf root) accIt ->
  forall k t, Z.of_nat k < Max conf -> exists n t',
    Tools.dumpAccounts E conf root (Z.of_nat k) accIt t = (Next n, t') /\
    encoded t'
    = (encoded t ++ map fst (firstn (Z.to_nat (Max conf) - k) accIt))%list.
Proof.
  intros Hm. induction 1 as [|[hash slim] rest Hd _ IH]; intros k t Hk.
  - exists (Z.of_nat k), t. simpl. rewrite firstn_nil, app_nil_r. auto.
  - destruct (dumpAccounts_step E conf root (Z.of_nat k) hash slim rest t Hd)
      as (da & ops & Hh & Ho & ->).
    rewrite (incU64_small k (Max conf)) by lia.
    replace (Max conf >? 0) with true
      by (symmetry; rewrite Z.gtb_ltb; apply Z.ltb_lt; lia).
    cbn [andb].
    replace (Z.to_nat (Max conf) - k)%nat
      with (S (Z.to_nat (Max conf) - S k))%nat by lia.
    cbn [firstn map fst].
    destruct (Z.of_nat (S k) >=? Max conf) eqn:Hge.
    + apply Z.geb_le in Hge.
      replace (Z.to_nat (Max conf) - S k)%nat with 0%nat by lia.
      eexists; eexists; split; [reflexivity|].
      rewrite !encoded_app, Ho. simpl. rewrite Hh. reflexivity.
    + assert (Hlt : Z.of_nat (S k) < Max conf).
      { rewrite Z.geb_leb in Hge. apply Z.leb_gt in Hge. lia. }
      destruct (IH (S k) (t ++ ops ++ [OEncodeAccount da])%list Hlt)
        as (n & t' & -> & He).
      exists n, t'. split; [reflexivity|].
      rewrite He, !encoded_app, Ho. simpl. rewrite Hh, <- app_assoc.
      reflexivity.
Qed.



(** ** inspect-account, export-preimages *)

(** X17.  inspect-account tells an address from a hash by the length of
    its argument alone: 40 or 42 characters are read as an address, whose
    Keccak-256 digest is looked up; 64 or 66 characters are read as the
    hash itself.  The journal is checked once, for that hash, and the
    result of the check is the result of the command. *)
Theorem checkAccount_lookup E ctx :
  NArg ctx = 1 ->
  let n := String.length (First ctx) in
  let r := prun (Tools.checkAccount E ctx) in
  ((n = 40 \/ n = 42)%nat ->
   let hash := Tools.Keccak256 E (Tools.HexToAddress E (First ctx)) in
   fst r = Returned (Tools.CheckJournalAccount E hash) /\
   filter isJournalCheck (snd r) = [OCheckJournalAccount hash]) /\
  ((n = 64 \/ n = 66)%nat ->
   let hash := Tools.HexToHash E (First ctx) in
   fst r = Returned (Tools.CheckJournalAccount E hash) /\
   filter isJournalCheck (snd r) = [OCheckJournalAccount hash]).
Proof.
  intros Hn. unfold Tools.checkAccount. prog_unfold. rewrite Hn. simpl.
  split; intros Hl.
  - replace ((String.length (First ctx) =? 40)%nat
             || (String.length (First ctx) =? 42)%nat) with true
      by (symmetry; apply orb_true_iff; rewrite !Nat.eqb_eq; exact Hl).
    simpl.
    destruct (Tools.CheckJournalAccount E _); simpl; auto.
  - replace ((String.length (First ctx) =? 40)%nat
             || (String.length (First ctx) =? 42)%nat) with false
      by (symmetry; apply orb_false_iff; rewrite !Nat.eqb_neq; lia).
    replace ((String.length (First ctx) =? 64)%nat
             || (String.length (First ctx) =? 66)%nat) with true
      by (symmetry; apply orb_true_iff; rewrite !Nat.eqb_eq; exact Hl).
    simpl.
    destruct (Tools.CheckJournalAccount E _); simpl; auto.
Qed.

Lemma checkAccount_lookup_witness :
  NArg (Demo.args [Demo.addressArg]) = 1 /\
  String.length (First (Demo.args [Demo.addressArg])) = 42%nat /\
  filter isJournalCheck
         (snd (prun (Tools.checkAccount Demo.plain
                       (Demo.args [Demo.addressArg]))))
  = [OCheckJournalAccount Sample.aliceKey].
Proof.
  assert (H1 : NArg (Demo.args [Demo.addressArg]) = 1) by reflexivity.
  assert (H2 : String.length (First (Demo.args [Demo.addressArg])) = 42%nat)
    by reflexivity.
  split; [exact H1|]. split; [exact H2|].
  exact (proj2 (proj1 (checkAccount_lookup Demo.plain _ H1)
                  (or_intror H2))).
Defined.

(** X18.  inspect-account refuses its arguments before it opens anything:
    with another number of arguments than one, or an argument that is not
    40, 42, 64 or 66 characters long, it returns an error and has made no
    call at all. *)
Theorem checkAccount_rejects E ctx :
  let n := String.length (First ctx) in
  NArg ctx <> 1 \/ (n <> 40 /\ n <> 42 /\ n <> 64 /\ n <> 66)%nat ->
  exists e, prun (Tools.checkAccount E ctx) = (Returned (Some e), []).
Proof.
  intros n H. unfold Tools.checkAccount. prog_unfold.
  destruct (NArg ctx =? 1) eqn:Hn; simpl; [|eexists; reflexivity].
  apply Z.eqb_eq in Hn. destruct H as [H|(H1 & H2 & H3 & H4)]; [lia|].
  subst n.
  apply Nat.eqb_neq in H1, H2, H3, H4. rewrite H1, H2, H3, H4. simpl.
  eexists; reflexivity.
Qed.

Lemma checkAccount_rejects_witness :
  NArg (Demo.args ["0xa1a1"]) = 1 /\
  String.length (First (Demo.args ["0xa1a1"])) = 6%nat /\
  exists e,
    prun (Tools.checkAccount Demo.plain (Demo.args ["0xa1a1"]))
    = (Returned (Some e), []).
Proof.
  split; [reflexivity|]. split; [reflexivity|].
  apply (checkAccount_rejects Demo.plain (Demo.args ["0xa1a1"])).
  right. repeat split; vm_compute; discriminate.
Defined.

(** X19.  export-preimages opens the snapshot and exports from it at the
    same root: the second argument when one is given and is 32 bytes long
    (the head block is not read then), the root of the head block
    otherwise.  When the snapshot fails to open, that error is returned
    and nothing is exported. *)
Theorem snapshotExportPreimages_root E ctx root :
  (1 < NArg ctx /\
   List.length (Tools.FromHex E (Get ctx 1)) = HashLength /\
   root = Tools.BytesToHash E (Tools.FromHex E (Get ctx 1)) \/
   NArg ctx = 1 /\
   exists headBlock, Tools.ReadHeadBlock E = Some headBlock /\
                     root = BlockRoot headBlock) ->
  let r := prun (Tools.snapshotExportPreimages E ctx) in
  match Tools.SnapshotNew E root with
  | Some err =>
      fst r = Returned (Some err) /\
      filter isSnapshotCall (snd r) = [OSnapshotNew root]
  | None =>
      fst r = Returned (Tools.ExportSnapshotPreimages E (First ctx) root) /\
      filter isSnapshotCall (snd r)
      = [OSnapshotNew root; OExportSnapshotPreimages (First ctx) root]
  end.
Proof.
  intros H. unfold Tools.snapshotExportPreimages. prog_unfold.
  destruct H as [(Hn & Hl & ->)|(Hn & headBlock & Hh & ->)].
  - replace (NArg ctx <? 1) with false by (symmetry; apply Z.ltb_ge; lia).
    replace (NArg ctx >? 1) with true
      by (symmetry; rewrite Z.gtb_ltb; apply Z.ltb_lt; lia).
    simpl. rewrite Hl, Nat.eqb_refl. simpl.
    destruct (Tools.SnapshotNew E _); simpl; auto.
  - rewrite Hn. simpl. rewrite Hh. simpl.
    destruct (Tools.SnapshotNew E _); simpl; auto.
Qed.

Lemma snapshotExportPreimages_root_witness :
  1 < NArg (Demo.args ["preimages.rlp"; Demo.stateArg]) /\
  List.length (Tools.FromHex Demo.plain
                 (Get (Demo.args ["preimages.rlp"; Demo.stateArg]) 1))
  = HashLength /\
  filter isSnapshotCall
         (snd (prun (Tools.snapshotExportPreimages Demo.plain
                       (Demo.args ["preimages.rlp"; Demo.stateArg]))))
  = [OSnapshotNew Sample.stateRoot;
     OExportSnapshotPreimages "preimages.rlp" Sample.stateRoot].
Proof.
  assert (H1 : 1 < NArg (Demo.args ["preimages.rlp"; Demo.stateArg]))
    by reflexivity.
  assert (H2 : List.length
                 (Tools.FromHex Demo.plain
                    (Get (Demo.args ["preimages.rlp"; Demo.stateArg]) 1))
               = HashLength) by reflexivity.
  split; [exact H1|]. split; [exact H2|].
  exact (proj2 (snapshotExportPreimages_root Demo.plain _ Sample.stateRoot
                  (or_introl (conj H1 (conj H2 eq_refl))))).
Defined.

(** X20.  export-preimages never touches the snapshot without a root: a
    second argument that is not 32 bytes long, or a missing head block
    when no root is given, ends the command with an error before the
    snapshot is opened or anything is exported. *)
Theorem snapshotExportPreimages_no_root E ctx :
  (1 < NArg ctx /\
   (List.length (Tools.FromHex E (Get ctx 1)) <> HashLength)%nat \/
   NArg ctx = 1 /\ Tools.ReadHeadBlock E = None) ->
  let r := prun (Tools.snapshotExportPreimages E ctx) in
  (exists e, fst r = Returned (Some e)) /\
  filter isSnapshotCall (snd r) = [].
Proof.
  intros H. unfold Tools.snapshotExportPreimages. prog_unfold.
  destruct H as [(Hn & Hl)|(Hn & Hh)].
  - replace (NArg ctx <? 1) with false by (symmetry; apply Z.ltb_ge; lia).
    replace (NArg ctx >? 1) with true
      by (symmetry; rewrite Z.gtb_ltb; apply Z.ltb_lt; lia).
    simpl. apply Nat.eqb_neq in Hl. rewrite Hl. simpl.
    split; [eexists; reflexivity|reflexivity].
  - rewrite Hn. simpl. rewrite Hh. simpl.
    split; [eexists; reflexivity|reflexivity].
Qed.

Lemma snapshotExportPreimages_no_root_witness :
  1 < NArg (Demo.args ["preimages.rlp"; "0x1111"]) /\
  List.length (Tools.FromHex Demo.plain
                 (Get (Demo.args ["preimages.rlp"; "0x1111"]) 1)) = 2%nat /\
  filter isSnapshotCall
         (snd (prun (Tools.snapshotExportPreimages Demo.plain
                       (Demo.args ["preimages.rlp"; "0x1111"]))))
  = [].
Proof.
  assert (H1 : 1 < NArg (Demo.args ["preimages.rlp"; "0x1111"]))
    by reflexivity.
  split; [exact H1|]. split; [reflexivity|].
  apply (snapshotExportPreimages_no_root Demo.plain
           (Demo.args ["preimages.rlp"; "0x1111"])).
  left. split; [exact H1 | vm_compute; discriminate].
Defined.

(** ** The arguments of prune-state and hbss-to-pbss *)

(** X21.  With the hash scheme and the pruner open, prune-state prunes
    once, down to the root given as argument, or to the zero hash -- which
    leaves the choice to the pruner -- when none is given; what the pruner
    answers is what the command returns. *)
Theorem pruneState_target E ctx id0 target :
  Snapshot.ReadStateScheme E = Snapshot.HashScheme ->
  Snapshot.NewPruner E {| Datadir := Snapshot.ResolvePath E "";
                          BloomSize := BloomFilterSizeFlag ctx |}
                     (TriesInMemoryFlag ctx) = None ->
  pruneTarget E ctx target ->
  let r := run (Snapshot.pruneState E ctx) id0 in
  outcome r = Returned (Snapshot.Prune E target) /\
  filter isPrune (calls r) = [EvPrune target].
Proof.
  intros Hs Hn Ht. apply String.eqb_eq in Hs.
  unfold Snapshot.pruneState. cmd_unfold. rewrite Hs. simpl. rewrite Hn.
  destruct Ht as [[Ha ->]|[Ha Hp]]; rewrite Ha; simpl; try rewrite Hp; simpl;
    destruct (Snapshot.Prune E _); simpl; auto.
Qed.

Lemma pruneState_target_witness :
  Snapshot.ReadStateScheme Sample.hashEnv = Snapshot.HashScheme /\
  pruneTarget Sample.hashEnv Sample.rootArg Sample.stateRoot /\
  pruneTarget Sample.hashEnv Sample.noArgs zeroHash /\
  filter isPrune (calls (run (Snapshot.pruneState Sample.hashEnv
                                Sample.rootArg) 0))
  = [EvPrune Sample.stateRoot] /\
  filter isPrune (calls (run (Snapshot.pruneState Sample.hashEnv
                                Sample.noArgs) 0))
  = [EvPrune zeroHash].
Proof.
  assert (H1 : Snapshot.ReadStateScheme Sample.hashEnv = Snapshot.HashScheme)
    by reflexivity.
  assert (H2 : pruneTarget Sample.hashEnv Sample.rootArg Sample.stateRoot)
    by (right; split; reflexivity).
  assert (H3 : pruneTarget Sample.hashEnv Sample.noArgs zeroHash)
    by (left; split; reflexivity).
  split; [exact H1|]. split; [exact H2|]. split; [exact H3|]. split.
  - exact (proj2 (pruneState_target Sample.hashEnv Sample.rootArg 0
                    Sample.stateRoot H1 eq_refl H2)).
  - exact (proj2 (pruneState_target Sample.hashEnv Sample.noArgs 0
                    zeroHash H1 eq_refl H3)).
Defined.

(** X22.  prune-state looks at its arguments only after the pruner is
    open: with more than one argument, or one that is no state root, the
    pruner has been constructed, an error is returned and nothing is
    pruned. *)
Theorem pruneState_bad_arguments E ctx id0 :
  Snapshot.ReadStateScheme E = Snapshot.HashScheme ->
  (1 < NArg ctx \/
   NArg ctx = 1 /\ exists e, Snapshot.parseRoot E (First ctx) = Err e) ->
  let r := run (Snapshot.pruneState E ctx) id0 in
  (exists err, outcome r = Returned (Some err)) /\
  filter isPrunerCall (calls r)
  = [EvNewPruner {| Datadir := Snapshot.ResolvePath E "";
                    BloomSize := BloomFilterSizeFlag ctx |}
                 (TriesInMemoryFlag ctx)].
Proof.
  intros Hs Ha. apply String.eqb_eq in Hs.
  unfold Snapshot.pruneState. cmd_unfold. rewrite Hs. simpl.
  destruct (Snapshot.NewPruner E _ _); simpl; [eauto|].
  destruct Ha as [Ha|[Ha [e Hp]]].
  - replace (NArg ctx >? 1) with true
      by (symmetry; rewrite Z.gtb_ltb; apply Z.ltb_lt; lia).
    simpl. eauto.
  - rewrite Ha. simpl. rewrite Hp. simpl. eauto.
Qed.

Lemma pruneState_bad_arguments_witness :
  Snapshot.ReadStateScheme Sample.hashEnv = Snapshot.HashScheme /\
  NArg Sample.badRootArg = 1 /\
  Snapshot.parseRoot Sample.hashEnv (First Sample.badRootArg)
  = Err "invalid hex string" /\
  filter isPrunerCall (calls (run (Snapshot.pruneState Sample.hashEnv
                                     Sample.badRootArg) 0))
  = [EvNewPruner {| Datadir := "/data/geth/"; BloomSize := 2048 |} 128].
Proof.
  assert (H1 : Snapshot.ReadStateScheme Sample.hashEnv = Snapshot.HashScheme)
    by reflexivity.
  assert (H2 : NArg Sample.badRootArg = 1) by reflexivity.
  assert (H3 : Snapshot.parseRoot Sample.hashEnv (First Sample.badRootArg)
               = Err "invalid hex string") by reflexivity.
  split; [exact H1|]. split; [exact H2|]. split; [exact H3|].
  exact (proj2 (pruneState_bad_arguments Sample.hashEnv Sample.badRootArg 0
                  H1 (or_intror (conj H2 (ex_intro _ _ H3))))).
Defined.

Lemma Get_beyond ctx : NArg ctx = 1 -> Get ctx 1 = "".
Proof.
  unfold NArg, Get. destruct (Args ctx) as [|a [|b l]]; simpl; intros H;
    try reflexivity; lia.
Qed.

(** X23.  hbss-to-pbss refuses its arguments before it opens anything.
    More than one argument gives the usage error.  One argument that is no
    unsigned number gives a parse error whose text quotes the argument
    after it -- which is not there, so the text quotes nothing.  In both
    cases no call has been made. *)
Theorem hbss2pbss_rejects_arguments E ctx id0 :
  let r := run (Dbcmd.hbss2pbss E ctx) id0 in
  (1 < NArg ctx ->
   outcome r = Returned (Some "required arguments: <jobnum (optional)>") /\
   calls r = []) /\
  (forall e, NArg ctx = 1 -> Dbcmd.ParseUint E (Get ctx 0) = Err e ->
   outcome r
   = Returned (Some ("failed to Parse jobnum, Args[1]: , err: " ++ e)) /\
   calls r = []).
Proof.
  unfold Dbcmd.hbss2pbss. cmd_unfold. split.
  - intros Ha.
    replace (NArg ctx >? 1) with true
      by (symmetry; rewrite Z.gtb_ltb; apply Z.ltb_lt; lia).
    simpl. auto.
  - intros e Ha Hp. rewrite (Get_beyond ctx Ha), Ha. simpl. rewrite Hp. simpl.
    auto.
Qed.

Lemma hbss2pbss_rejects_arguments_witness :
  NArg (Demo.args ["many"]) = 1 /\
  Dbcmd.ParseUint Sample.convertingEnv (Get (Demo.args ["many"]) 0)
  = Err "invalid syntax" /\
  outcome (run (Dbcmd.hbss2pbss Sample.convertingEnv (Demo.args ["many"])) 0)
  = Returned (Some "failed to Parse jobnum, Args[1]: , err: invalid syntax") /\
  calls (run (Dbcmd.hbss2pbss Sample.convertingEnv (Demo.args ["many"])) 0)
  = [].
Proof.
  assert (H1 : NArg (Demo.args ["many"]) = 1) by reflexivity.
  assert (H2 : Dbcmd.ParseUint Sample.convertingEnv
                 (Get (Demo.args ["many"]) 0) = Err "invalid syntax")
    by reflexivity.
  split; [exact H1|]. split; [exact H2|].
  exact (proj2 (hbss2pbss_rejects_arguments Sample.convertingEnv
                  (Demo.args ["many"]) 0) _ H1 H2).
Defined.

(** ** traverse-rawstate against traverse-state *)

Section Stricter.

Variable E : Snapshot.Env.
Variable root : Hash.
Variable reader : Reader.

Local Abbreviation leafOf := (fun n => (ItLeafKey n, ItLeafBlob n)).

Lemma rawStorageLoop_slots owner items : forall c c0 c',
  Snapshot.rawStorageLoop E reader owner c items = Finished c' ->
  sameTallies c c0 ->
  sameTallies c' (Snapshot.countSlots c0 (map leafOf (filter ItLeaf items))).
Proof.
  induction items as [|n items IH]; intros c c0 c' H Hs; simpl in *.
  - inversion H; subst. exact Hs.
  - destruct (Snapshot.checkStorageNode E reader owner n); simpl in H;
      [|discriminate].
    destruct Hs as (Ha & Hl & Hc).
    destruct (ItLeaf n); simpl; apply (IH _ _ _ H);
      unfold sameTallies; simpl; repeat split; congruence.
Qed.

Lemma rawAccountStep_state n : forall c c0 c',
  Snapshot.rawAccountStep E root reader c n = Finished c' ->
  sameTallies c c0 ->
  if ItLeaf n
  then exists c0',
      Snapshot.traverseStateStep E root c0 (leafOf n) = Finished c0' /\
      sameTallies c' c0'
  else sameTallies c' c0.
Proof.
  intros c c0 c' H (Ha & Hl & Hc).
  unfold Snapshot.rawAccountStep in H.
  destruct (Snapshot.checkAccountNode E reader n); simpl in H; [|discriminate].
  destruct (ItLeaf n).
  2:{ inversion H; subst. unfold sameTallies; simpl; auto. }
  unfold Snapshot.traverseStateStep. simpl fst; simpl snd.
  destruct (Snapshot.DecodeBytes E (ItLeafBlob n)) as [acc|e]; [|discriminate].
  assert (Hcode : forall c1 c2 c',
    sameTallies c1 c2 ->
    (if negb (bytes_eqb (CodeHash acc) (Snapshot.EmptyCodeHash E))
     then if negb (Snapshot.HasCode E (Snapshot.BytesToHash E (CodeHash acc)))
          then Aborted (EvLog LvlError "Code is missing"
                          [("account",
                            VHash (Snapshot.BytesToHash E (ItLeafKey n)))])
                       "missing code"
          else Finished (incCodes c1)
     else Finished c1) = Finished c' ->
    exists c0',
      (if negb (bytes_eqb (CodeHash acc) (Snapshot.EmptyCodeHash E))
       then if negb (Snapshot.HasCode E
                       (Snapshot.BytesToHash E (CodeHash acc)))
            then Aborted (EvLog LvlError "Code is missing"
                            [("hash",
                              VHash (Snapshot.BytesToHash E (CodeHash acc)))])
                         "missing code"
            else Finished (incCodes c2)
       else Finished c2) = Finished c0' /\
      sameTallies c' c0').
  { intros c1 c2 c'' (H1 & H2 & H3) Hr.
    destruct (negb (bytes_eqb (CodeHash acc) (Snapshot.EmptyCodeHash E))).
    - destruct (negb (Snapshot.HasCode E _)); [discriminate|].
      inversion Hr; subst. eexists; split; [reflexivity|].
      unfold sameTallies; simpl; repeat split; congruence.
    - inversion Hr; subst. eexists; split; [reflexivity|].
      unfold sameTallies; auto. }
  destruct (negb (bytes_eqb (Root acc) (Snapshot.EmptyRootHash E))).
  - destruct (Snapshot.NewStateTrie E _) as [st|e]; [|discriminate].
    destruct (TrieNodeIterator st) as [it|e]; [|discriminate].
    simpl in H |- *.
    destruct (Snapshot.rawStorageLoop E reader _ _ (Items it)) as [c1|l e]
      eqn:Hloop; simpl in H; [|discriminate].
    destruct (ItError it); simpl in H |- *; [discriminate|].
    apply (Hcode c1); [|exact H].
    apply (rawStorageLoop_slots _ _ _ _ _ Hloop).
    unfold sameTallies; simpl; repeat split; congruence.
  - simpl in H |- *. apply (Hcode (incAccounts (incNodes c))); [|exact H].
    unfold sameTallies; simpl; repeat split; congruence.
Qed.

Lemma rawAccountLoop_state items : forall c c0 c',
  Snapshot.rawAccountLoop E root reader c items = Finished c' ->
  sameTallies c c0 ->
  exists c0',
    Snapshot.traverseStateLoop E root c0 (map leafOf (filter ItLeaf items))
    = Finished c0' /\
    sameTallies c' c0'.
Proof.
  induction items as [|n items IH]; intros c c0 c' H Hs; simpl in H |- *.
  - inversion H; subst. eauto.
  - destruct (Snapshot.rawAccountStep E root reader c n) as [c1|l e] eqn:Hstep;
      simpl in H; [|discriminate].
    pose proof (rawAccountStep_state n c c0 c1 Hstep Hs) as Hn.
    destruct (ItLeaf n); simpl.
    + destruct Hn as (c01 & -> & Hs1). simpl. exact (IH _ _ _ H Hs1).
    + exact (IH _ _ _ H Hn).
Qed.

End Stricter.

(** X24.  traverse-rawstate is at least as strict as traverse-state.  Run
    on the same database for the same root, with the node reader open: when
    traverse-rawstate succeeds, so does traverse-state, and the two final
    records agree on the accounts, slots and codes counted -- the raw one
    adds the number of nodes in front. *)
Theorem traverseRawState_stricter E ctx id0 hb root t acctIt reader :
  Snapshot.ReadHeadBlock E = Some hb ->
  rootChosen E ctx hb root ->
  Snapshot.NewStateTrie E (StateTrieID root) = Ok t ->
  TrieNodeIterator t = Ok acctIt ->
  Snapshot.NodeReader E root = Ok reader ->
  let raw := run (Snapshot.traverseRawState E ctx) id0 in
  let plain := run (Snapshot.traverseState E ctx) id0 in
  succeeded raw ->
  succeeded plain /\
  exists n kv,
    last (calls raw) EvMakeConfigNode
    = EvLog LvlInfo "State is complete" (("nodes", VInt n) :: kv) /\
    last (calls plain) EvMakeConfigNode
    = EvLog LvlInfo "State is complete" kv.
Proof.
  intros Hh Hc Ht Hi Hr. apply rootChosen_tests in Hc as [Hgt Hc].
  pose proof (rawAccountLoop_state E root reader (Items acctIt)
                zeroCounters zeroCounters) as Hl.
  unfold Snapshot.traverseRawState, Snapshot.traverseState. cmd_unfold.
  rewrite Hh, Hgt.
  destruct Hc as [[Hone Hroot]|[Hone Hparse]]; rewrite Hone;
    try rewrite Hparse; try rewrite <- Hroot; simpl; rewrite Ht, Hi, Hr.
  all: destruct (Snapshot.rawAccountLoop E root reader zeroCounters
                   (Items acctIt)) as [c|l e]; simpl; [|discriminate];
    destruct (Hl c eq_refl) as (c0 & -> & (Ha & Hs & Hk));
      [unfold sameTallies; auto|];
    simpl; destruct (ItError acctIt); simpl; [discriminate|];
    intros _; split; [reflexivity|];
    exists (nodes c), (Snapshot.countsKV c); split; [reflexivity|];
    unfold Snapshot.countsKV; rewrite Ha, Hs, Hk; reflexivity.
Qed.

Lemma traverseRawState_stricter_witness :
  Snapshot.ReadHeadBlock Sample.hashEnv = Some Sample.headBlock /\
  rootChosen Sample.hashEnv Sample.noArgs Sample.headBlock Sample.stateRoot /\
  succeeded (run (Snapshot.traverseRawState Sample.hashEnv Sample.noArgs) 0) /\
  succeeded (run (Snapshot.traverseState Sample.hashEnv Sample.noArgs) 0).
Proof.
  assert (H1 : Snapshot.ReadHeadBlock Sample.hashEnv = Some Sample.headBlock)
    by reflexivity.
  assert (H2 : rootChosen Sample.hashEnv Sample.noArgs Sample.headBlock
                 Sample.stateRoot) by (left; split; reflexivity).
  assert (H3 : succeeded (run (Snapshot.traverseRawState Sample.hashEnv
                                 Sample.noArgs) 0)) by reflexivity.
  split; [exact H1|]. split; [exact H2|]. split; [exact H3|].
  exact (proj1 (traverseRawState_stricter Sample.hashEnv Sample.noArgs 0
                  Sample.headBlock Sample.stateRoot Sample.accountTrie
                  Demo.trieIterator (Sample.readerOf Sample.soundStore)
                  H1 H2 eq_refl eq_refl eq_refl H3)).
Defined.

(** ** The tallies of traverse-state *)

Lemma countSlots_tally kvs : forall c s,
  slots c = int s ->
  let c' := Snapshot.countSlots c kvs in
  accounts c' = accounts c /\ codes c' = codes c /\
  slots c' = int (s + Z.of_nat (List.length kvs)).
Proof.
  induction kvs as [|kv kvs IH]; intros c s Hs.
  - simpl. rewrite Z.add_0_r. auto.
  - cbn [Snapshot.countSlots List.length].
    destruct (IH (incSlots c) (s + 1)) as (Ha & Hc & Hl).
    { simpl. rewrite Hs. apply inc_int. }
    cbv zeta in Ha, Hc, Hl |- *. rewrite Ha, Hc, Hl.
    split; [reflexivity|]. split; [reflexivity|]. apply (f_equal int).
    rewrite Nat2Z.inj_succ. lia.
Qed.

Lemma traverseStateStep_tally E root c kv c' a s k :
  Snapshot.traverseStateStep E root c kv = Finished c' ->
  accounts c = int a -> slots c = int s -> codes c = int k ->
  accounts c' = int (a + 1) /\
  slots c' = int (s + Z.of_nat (slotsUnder E root kv)) /\
  codes c' = int (k + if carriesCode E kv then 1 else 0).
Proof.
  intros H Ha Hs Hk. unfold Snapshot.traverseStateStep in H.
  unfold slotsUnder, carriesCode.
  destruct (Snapshot.DecodeBytes E (snd kv)) as [acc|e]; [|discriminate].
  assert (Hcode : forall c1,
    accounts c1 = int (a + 1) -> codes c1 = int k ->
    (if negb (bytes_eqb (CodeHash acc) (Snapshot.EmptyCodeHash E))
     then if negb (Snapshot.HasCode E (Snapshot.BytesToHash E (CodeHash acc)))
          then Aborted (EvLog LvlError "Code is missing"
                          [("hash",
                            VHash (Snapshot.BytesToHash E (CodeHash acc)))])
                       "missing code"
          else Finished (incCodes c1)
     else Finished c1) = Finished c' ->
    accounts c' = int (a + 1) /\ slots c' = slots c1 /\
    codes c' = int (k + if negb (bytes_eqb (CodeHash acc)
                                   (Snapshot.EmptyCodeHash E))
                        then 1 else 0)).
  { intros c1 H1 H2 Hr.
    destruct (negb (bytes_eqb (CodeHash acc) (Snapshot.EmptyCodeHash E))).
    - destruct (negb (Snapshot.HasCode E _)); [discriminate|].
      inversion Hr; subst. simpl. rewrite H2, inc_int. auto.
    - inversion Hr; subst. rewrite Z.add_0_r. auto. }
  destruct (bytes_eqb (Root acc) (Snapshot.EmptyRootHash E)); simpl in H.
  - destruct (Hcode (incAccounts c)) as (H1 & H2 & H3);
      [simpl; rewrite Ha; apply inc_int|exact Hk|exact H|].
    rewrite H1, H2, H3. simpl. rewrite Hs, Z.add_0_r. auto.
  - destruct (Snapshot.NewStateTrie E _) as [st|e]; [|discriminate].
    destruct (TrieNodeIterator st) as [it|e]; [|discriminate].
    simpl in H. destruct (ItError it); [discriminate|]. simpl in H.
    destruct (countSlots_tally (Leaves (NewIterator it)) (incAccounts c) s Hs)
      as (H1 & H2 & H3).
    destruct (Hcode (Snapshot.countSlots (incAccounts c)
                       (Leaves (NewIterator it)))) as (H4 & H5 & H6);
      [rewrite H1; simpl; rewrite Ha; apply inc_int
      |rewrite H2; exact Hk|exact H|].
    rewrite H4, H5, H6, H3. auto.
Qed.

Lemma traverseStateLoop_tally E root kvs : forall c c' a s k,
  Snapshot.traverseStateLoop E root c kvs = Finished c' ->
  accounts c = int a -> slots c = int s -> codes c = int k ->
  accounts c' = int (a + Z.of_nat (List.length kvs)) /\
  slots c'
  = int (s + Z.of_nat (list_sum (map (slotsUnder E root) kvs))) /\
  codes c'
  = int (k + Z.of_nat (List.length (filter (carriesCode E) kvs))).
Proof.
  induction kvs as [|kv kvs IH]; intros c c' a s k H Ha Hs Hk; simpl in H.
  - inversion H; subst. simpl. rewrite !Z.add_0_r. auto.
  - destruct (Snapshot.traverseStateStep E root c kv) as [c1|l e] eqn:Hstep;
      simpl in H; [|discriminate].
    destruct (traverseStateStep_tally E root c kv c1 a s k Hstep Ha Hs Hk)
      as (H1 & H2 & H3).
    destruct (IH _ _ _ _ _ H H1 H2 H3) as (H4 & H5 & H6).
    rewrite H4, H5, H6. cbn [map filter List.length].
    change (list_sum (slotsUnder E root kv :: map (slotsUnder E root) kvs))
      with (slotsUnder E root kv
            + list_sum (map (slotsUnder E root) kvs))%nat.
    split; [|split]; apply (f_equal int).
    + rewrite Nat2Z.inj_succ. lia.
    + rewrite Nat2Z.inj_add. lia.
    + destruct (carriesCode E kv); cbn [List.length];
        rewrite ?Nat2Z.inj_succ; lia.
Qed.

(** X25.  When traverse-state succeeds, its final record counts what it
    walked: as accounts the leaves of the account trie, as slots the leaves
    of the storage tries under them, as codes the accounts whose code hash
    is not the empty one (each as a Go [int]). *)
Theorem traverseState_counts E ctx id0 hb root t acctIt :
  Snapshot.ReadHeadBlock E = Some hb ->
  rootChosen E ctx hb root ->
  Snapshot.NewStateTrie E (StateTrieID root) = Ok t ->
  TrieNodeIterator t = Ok acctIt ->
  let r := run (Snapshot.traverseState E ctx) id0 in
  let leaves := Leaves (NewIterator acctIt) in
  succeeded r ->
  last (calls r) EvMakeConfigNode
  = EvLog LvlInfo "State is complete"
      [("accounts", VInt (int (Z.of_nat (List.length leaves))));
       ("slots",
        VInt (int (Z.of_nat (list_sum (map (slotsUnder E root) leaves)))));
       ("codes",
        VInt (int (Z.of_nat (List.length (filter (carriesCode E) leaves)))))].
Proof.
  intros Hh Hc Ht Hi. apply rootChosen_tests in Hc as [Hgt Hc].
  pose proof (traverseStateLoop_tally E root (Leaves (NewIterator acctIt))
                zeroCounters) as Hl.
  unfold Snapshot.traverseState. cmd_unfold. rewrite Hh, Hgt.
  destruct Hc as [[Hone Hroot]|[Hone Hparse]]; rewrite Hone;
    try rewrite Hparse; try rewrite <- Hroot; simpl; rewrite Ht, Hi.
  all: destruct (Snapshot.traverseStateLoop E root zeroCounters _) as [c|l e];
    simpl; [|discriminate];
    destruct (Hl c 0 0 0 eq_refl eq_refl eq_refl eq_refl) as (H1 & H2 & H3);
    simpl IterErr; destruct (ItError acctIt); simpl; [discriminate|];
    intros _; unfold Snapshot.countsKV; rewrite H1, H2, H3; reflexivity.
Qed.

Lemma traverseState_counts_witness :
  Snapshot.ReadHeadBlock Sample.hashEnv = Some Sample.headBlock /\
  rootChosen Sample.hashEnv Sample.noArgs Sample.headBlock Sample.stateRoot /\
  succeeded (run (Snapshot.traverseState Sample.hashEnv Sample.noArgs) 0) /\
  last (calls (run (Snapshot.traverseState Sample.hashEnv Sample.noArgs) 0))
       EvMakeConfigNode
  = EvLog LvlInfo "State is complete"
      [("accounts", VInt 2); ("slots", VInt 1); ("codes", VInt 1)].
Proof.
  assert (H1 : Snapshot.ReadHeadBlock Sample.hashEnv = Some Sample.headBlock)
    by reflexivity.
  assert (H2 : rootChosen Sample.hashEnv Sample.noArgs Sample.headBlock
                 Sample.stateRoot) by (left; split; reflexivity).
  assert (H3 : succeeded (run (Snapshot.traverseState Sample.hashEnv
                                 Sample.noArgs) 0)) by reflexivity.
  split; [exact H1|]. split; [exact H2|]. split; [exact H3|].
  exact (traverseState_counts Sample.hashEnv Sample.noArgs 0
           Sample.headBlock Sample.stateRoot Sample.accountTrie
           Demo.trieIterator H1 H2 eq_refl eq_refl H3).
Defined.

(** ** get after put, trie-get against trie-delete, delete-trie-state *)

(** X26.  get looks a key up where put writes it, as long as the node and
    the database agree on whether the state has a store of its own (or the
    key is no state data): for the same key, put makes its one write to the
    store get makes its one read from, and get writes nothing. *)
Theorem dbGet_reads_put_store E getCtx putCtx key value :
  NArg getCtx = 1 ->
  Tools.ParseHexOrString E (Get getCtx 0) = Ok key ->
  NArg putCtx = 2 ->
  Tools.ParseHexOrString E (Get putCtx 0) = Ok key ->
  Tools.Decode E (Get putCtx 1) = Ok value ->
  (Tools.DataTypeByKey E key = Tools.StateDataType E ->
   Tools.CheckIfMultiDataBase E = Tools.HasSeparateStateStore E) ->
  exists s,
    filter isMutation (snd (prun (Tools.dbPut E putCtx))) = [OPut s key value]
    /\
    filter isStoreRead (snd (prun (Tools.dbGet E getCtx))) = [OGet s key] /\
    filter isMutation (snd (prun (Tools.dbGet E getCtx))) = [].
Proof.
  intros Hg Hgk Hp Hpk Hv Hs. exists (routed E key).
  split; [|split].
  - unfold Tools.dbPut, routed. prog_unfold. rewrite Hp, Hpk, Hv. simpl.
    destruct (Tools.DbGet E _ key); reflexivity.
  - unfold Tools.dbGet, routed. prog_unfold. rewrite Hg, Hgk. simpl.
    destruct (Tools.DataTypeByKey E key =? Tools.StateDataType E) eqn:Ht.
    + apply Z.eqb_eq in Ht. rewrite (Hs Ht).
      destruct (Tools.DbGet E _ key); reflexivity.
    + rewrite !andb_false_r. destruct (Tools.DbGet E _ key); reflexivity.
  - unfold Tools.dbGet. prog_unfold. rewrite Hg, Hgk. simpl.
    destruct (Tools.DbGet E _ key); reflexivity.
Qed.

Lemma dbGet_reads_put_store_witness :
  NArg (Demo.args ["0x61a1"]) = 1 /\
  NArg (Demo.args ["0x61a1"; "0x2a"]) = 2 /\
  Tools.CheckIfMultiDataBase Demo.plain
  = Tools.HasSeparateStateStore Demo.plain /\
  exists s,
    filter isMutation
           (snd (prun (Tools.dbPut Demo.plain
                         (Demo.args ["0x61a1"; "0x2a"]))))
    = [OPut s [Byte.x61; Byte.xa1] [Byte.x2a]] /\
    filter isStoreRead
           (snd (prun (Tools.dbGet Demo.plain (Demo.args ["0x61a1"]))))
    = [OGet s [Byte.x61; Byte.xa1]] /\
    filter isMutation
           (snd (prun (Tools.dbGet Demo.plain (Demo.args ["0x61a1"]))))
    = [].
Proof.
  assert (H1 : NArg (Demo.args ["0x61a1"]) = 1) by reflexivity.
  assert (H2 : NArg (Demo.args ["0x61a1"; "0x2a"]) = 2) by reflexivity.
  assert (H3 : Tools.CheckIfMultiDataBase Demo.plain
               = Tools.HasSeparateStateStore Demo.plain) by reflexivity.
  split; [exact H1|]. split; [exact H2|]. split; [exact H3|].
  exact (dbGet_reads_put_store Demo.plain _ _ [Byte.x61; Byte.xa1]
           [Byte.x2a] H1 eq_refl H2 eq_refl eq_refl (fun _ => H3)).
Defined.

(** X27.  trie-get and trie-delete address the same thing.  Whatever the
    scheme and the arguments, what trie-get looks up -- a key of the state
    store, an account trie node or a storage trie node -- is what
    trie-delete deletes when given the same arguments, and trie-get
    deletes nothing. *)
Theorem dbTrieGet_reads_what_dbTrieDelete_deletes E ctx :
  flat_map readTarget (snd (prun (Tools.dbTrieGet E ctx)))
  = flat_map deleteTarget (snd (prun (Tools.dbTrieDelete E ctx))) /\
  filter isMutation (snd (prun (Tools.dbTrieGet E ctx))) = [].
Proof.
  unfold Tools.dbTrieGet, Tools.dbTrieDelete. prog_unfold.
  destruct ((NArg ctx <? 1) || (NArg ctx >? 2)); simpl; [auto|].
  destruct (String.eqb _ (Tools.PathScheme E)).
  - destruct (NArg ctx =? 1).
    + destruct (Tools.Decode E (Get ctx 0)) as [pathKey|e]; simpl; auto.
      destruct (Tools.ReadAccountTrieNodeAndHash E pathKey); simpl; auto.
    + destruct (NArg ctx =? 2); simpl; auto.
      destruct (Tools.Decode E (Get ctx 0)); simpl; auto.
      destruct (Tools.Decode E (Get ctx 1)); simpl; auto.
      destruct (Tools.ReadStorageTrieNodeAndHash E _ _); simpl; auto.
  - destruct (String.eqb _ Snapshot.HashScheme); simpl; auto.
    destruct (NArg ctx =? 1); simpl; auto.
    destruct (Tools.Decode E (Get ctx 0)) as [hashKey|e]; simpl; auto.
    destruct (Tools.DbGet E StateStore hashKey);
      destruct (Tools.DbDelete E StateStore hashKey); simpl; auto.
Qed.

(** X28.  delete-trie-state erases one of two things.  When the state has a
    store of its own, it removes the files below chaindata/state and
    returns what that walk returns; the key-value pairs are not touched.
    Otherwise it deletes the trie state from the key-value store first; if
    that fails the error is returned and no file is removed; if not, the
    one folder it clears is the state freezer folder, provided it exists --
    which is chaindata/ancient/state only when no freezer directory is
    configured, and the configured freezer directory itself otherwise. *)
Theorem dbDeleteTrieState_erases E ctx :
  NArg ctx = 0 ->
  let r := prun (Tools.dbDeleteTrieState E ctx) in
  let statePath :=
    Tools.Join E (Tools.ResolvePath E "chaindata") "state" in
  (Tools.HasSeparateStateStore E = true ->
   fst r = Returned (Tools.WalkRemove E statePath) /\
   filter isErasure (snd r) = [ORemoveTree statePath]) /\
  (Tools.HasSeparateStateStore E = false ->
   match Tools.DeleteTrieState E with
   | Some err =>
       fst r = Returned (Some err) /\
       filter isErasure (snd r) = [ODeleteTrieState]
   | None =>
       fst r = Returned None /\
       filter isErasure (snd r)
       = ODeleteTrieState :: removals E [stateFreezerDir E]
   end).
Proof.
  intros Hn. unfold Tools.dbDeleteTrieState, stateFreezerDir, removals.
  prog_unfold. rewrite Hn. simpl. split; intros Hs; rewrite Hs; simpl.
  - destruct (Tools.WalkRemove E _); simpl; auto.
  - destruct (Tools.DeleteTrieState E); simpl; [auto|].
    destruct (Tools.FileExist E _); simpl; auto.
Qed.

Lemma dbDeleteTrieState_erases_witness :
  NArg Sample.noArgs = 0 /\
  Tools.HasSeparateStateStore Demo.shared = false /\
  prun (Tools.dbDeleteTrieState Demo.plain Sample.noArgs)
  = (Returned None,
     [OMakeConfigNode; OMakeChainDatabase false;
      OLog LvlInfo "Removing separate trie database"
           [("path", Tools.vStr "/data/geth/chaindata/state")];
      ORemoveTree "/data/geth/chaindata/state";
      OLog LvlInfo "Separate trie database deleted" [("err", VNil)]]) /\
  filter isErasure
         (snd (prun (Tools.dbDeleteTrieState Demo.shared Sample.noArgs)))
  = [ODeleteTrieState; ORemoveFolder "/data/geth/chaindata/ancient/state"].
Proof.
  assert (H1 : NArg Sample.noArgs = 0) by reflexivity.
  assert (H2 : Tools.HasSeparateStateStore Demo.shared = false)
    by reflexivity.
  split; [exact H1|]. split; [exact H2|]. split.
  - destruct (proj1 (dbDeleteTrieState_erases Demo.plain Sample.noArgs H1)
                eq_refl) as [H3 _].
    apply injective_projections; [exact H3 | reflexivity].
  - exact (proj2 (proj2 (dbDeleteTrieState_erases Demo.shared Sample.noArgs
                           H1) H2)).
Defined.

(** ** inspect-trie *)

(** X29.  inspect-trie dereferences what it reads without a check.  Asked
    for "latest" on a database that has no number for its head header, or
    for a block whose canonical hash is known but whose header is not, it
    panics -- after the database has been opened, before any trie is. *)
Theorem inspectTrie_nil_dereference E ctx :
  let r := prun (Tools.inspectTrie E ctx) in
  (1 <= NArg ctx <= 3 ->
   Get ctx 0 = "latest" ->
   Tools.ReadHeaderNumber E (Tools.ReadHeadHeaderHash E) = None ->
   r = (Panicked, [OMakeConfigNode; OMakeChainDatabase true])) /\
  (forall blockNumber jobnum topN,
      blockGiven E ctx blockNumber ->
      jobsAccepted E ctx jobnum topN ->
      blockNumber <> Dbcmd.MaxUint64 ->
      Tools.ReadCanonicalHash E blockNumber <> zeroHash ->
      Tools.ReadHeader E (Tools.ReadCanonicalHash E blockNumber) blockNumber
      = None ->
      r = (Panicked, [OMakeConfigNode; OMakeChainDatabase true])).
Proof.
  unfold Tools.inspectTrie. split.
  - intros Hn Hl Hh. prog_unfold.
    replace (NArg ctx <? 1) with false by (symmetry; apply Z.ltb_ge; lia).
    replace (NArg ctx >? 3) with false
      by (symmetry; rewrite Z.gtb_ltb; apply Z.ltb_ge; lia).
    replace (NArg ctx >=? 1) with true
      by (symmetry; rewrite Z.geb_leb; apply Z.leb_le; lia).
    rewrite Hl, Hh. reflexivity.
  - intros bn jobnum topN (Hl & Hs & Hp) Hj Hm Hc Hh.
    apply String.eqb_neq in Hl, Hs. apply Z.eqb_neq in Hm.
    apply bytes_eqb_neq in Hc.
    prog_unfold.
    destruct Hj as [(Hn & -> & ->)|[(Hn & Hj & ->)|(Hn & Hj & Ht)]];
      rewrite Hn; simpl; rewrite Hl, Hs, Hp; simpl;
      try rewrite Hj; try rewrite Ht; simpl;
      rewrite Hm; simpl; rewrite Hc, Hh; reflexivity.
Qed.

Lemma inspectTrie_nil_dereference_witness :
  1 <= NArg (Demo.args ["latest"]) <= 3 /\
  Tools.ReadHeaderNumber Demo.headless (Tools.ReadHeadHeaderHash Demo.headless)
  = None /\
  blockGiven Demo.plain (Demo.args ["500"]) 500 /\
  jobsAccepted Demo.plain (Demo.args ["500"]) 1000 10 /\
  fst (prun (Tools.inspectTrie Demo.headless (Demo.args ["latest"])))
  = Panicked /\
  fst (prun (Tools.inspectTrie Demo.plain (Demo.args ["500"]))) = Panicked.
Proof.
  assert (H1 : 1 <= NArg (Demo.args ["latest"]) <= 3)
    by (vm_compute; split; discriminate).
  assert (H2 : Tools.ReadHeaderNumber Demo.headless
                 (Tools.ReadHeadHeaderHash Demo.headless) = None)
    by reflexivity.
  assert (H3 : blockGiven Demo.plain (Demo.args ["500"]) 500)
    by (split; [vm_compute; discriminate|];
        split; [vm_compute; discriminate|reflexivity]).
  assert (H4 : jobsAccepted Demo.plain (Demo.args ["500"]) 1000 10)
    by (left; split; [reflexivity|split; reflexivity]).
  split; [exact H1|]. split; [exact H2|]. split; [exact H3|].
  split; [exact H4|]. split.
  - exact (f_equal fst
             (proj1 (inspectTrie_nil_dereference Demo.headless
                       (Demo.args ["latest"])) H1 eq_refl H2)).
  - refine (f_equal fst
              (proj2 (inspectTrie_nil_dereference Demo.plain
                        (Demo.args ["500"])) 500 1000 10 H3 H4 _ _ eq_refl));
      vm_compute; discriminate.
Defined.

(** X30.  An empty root does not stop inspect-trie.  Asked for "snapshot"
    on a database without a snapshot root, or for the block number
    2^64-1, it logs "Empty root hash" and goes on to open the trie at the
    zero hash, with the block number 2^64-1; what opening the trie or the
    inspector returns is what the command returns. *)
Theorem inspectTrie_empty_root_continues E ctx jobnum topN :
  (Get ctx 0 = "snapshot" /\ Tools.ReadSnapshotRoot E = zeroHash \/
   blockGiven E ctx Dbcmd.MaxUint64) ->
  jobsAccepted E ctx jobnum topN ->
  let r := prun (Tools.inspectTrie E ctx) in
  In (OLog LvlError "Empty root hash" []) (snd r) /\
  fst r
  = Returned
      match Tools.TrieNewRoot E zeroHash with
      | Some err => Some err
      | None => Tools.NewInspector E zeroHash Dbcmd.MaxUint64 jobnum
                                   (int topN)
      end /\
  filter isInspection (snd r)
  = (OTrieNewRoot zeroHash ::
     match Tools.TrieNewRoot E zeroHash with
     | Some _ => []
     | None =>
         ONewInspector zeroHash Dbcmd.MaxUint64 jobnum (int topN) ::
         match Tools.NewInspector E zeroHash Dbcmd.MaxUint64 jobnum
                                  (int topN) with
         | Some _ => []
         | None => [OInspectorRun; ODisplayResult]
         end
     end).
Proof.
  intros Hr Hj. unfold Tools.inspectTrie. prog_unfold.
  assert (Hz : bytes_eqb zeroHash zeroHash = true) by reflexivity.
  assert (Hm : (Dbcmd.MaxUint64 =? Dbcmd.MaxUint64) = true)
    by apply Z.eqb_refl.
  destruct Hj as [(Hn & -> & ->)|[(Hn & Hj & ->)|(Hn & Hj & Ht)]];
    rewrite Hn; cbn [Z.ltb Z.gtb Z.geb Z.eqb Z.compare Pos.compare
                     Pos.compare_cont Pos.eqb];
    (destruct Hr as [[Hs Hr]|(Hl & Hs & Hp)];
     [ rewrite Hs, Hr; cbn [String.eqb Ascii.eqb Bool.eqb]
     | apply String.eqb_neq in Hl, Hs; rewrite Hl, Hs, Hp ]);
    cbn [fst snd]; try rewrite Hj; try rewrite Ht; cbn [fst snd];
    rewrite Hm; cbn [negb]; rewrite Hz; cbn [app];
    (destruct (Tools.TrieNewRoot E zeroHash); cbn [app];
     [ split; [simpl; auto 10|split; reflexivity]
     | destruct (Tools.NewInspector E zeroHash Dbcmd.MaxUint64 _ _);
       cbn [app]; (split; [simpl; auto 10|split; reflexivity]) ]).
Qed.

Lemma inspectTrie_empty_root_continues_witness :
  Get (Demo.args ["snapshot"; "4"]) 0 = "snapshot" /\
  Tools.ReadSnapshotRoot Demo.plain = zeroHash /\
  jobsAccepted Demo.plain (Demo.args ["snapshot"; "4"]) 4 10 /\
  fst (prun (Tools.inspectTrie Demo.plain (Demo.args ["snapshot"; "4"])))
  = Returned None /\
  filter isInspection
         (snd (prun (Tools.inspectTrie Demo.plain
                       (Demo.args ["snapshot"; "4"]))))
  = [OTrieNewRoot zeroHash;
     ONewInspector zeroHash Dbcmd.MaxUint64 4 10;
     OInspectorRun; ODisplayResult].
Proof.
  assert (H1 : Get (Demo.args ["snapshot"; "4"]) 0 = "snapshot")
    by reflexivity.
  assert (H2 : Tools.ReadSnapshotRoot Demo.plain = zeroHash) by reflexivity.
  assert (H3 : jobsAccepted Demo.plain (Demo.args ["snapshot"; "4"]) 4 10)
    by (right; left; split; [reflexivity|split; reflexivity]).
  split; [exact H1|]. split; [exact H2|]. split; [exact H3|].
  exact (proj2 (inspectTrie_empty_root_continues Demo.plain
                  (Demo.args ["snapshot"; "4"]) 4 10
                  (or_introl (conj H1 H2)) H3)).
Defined.
